(** * Remote desktop relay: registry, dispatch and broadcast

    A shallow embedding of class [RemoteDesktopServer] of [muma.py] and of its
    revision [muma2.0.py], and the properties of the connection registry and
    of the role based relay that the specification states about them.  The
    handlers of the page that the server hands out are embedded as far as
    they decide what the page sends.

    Conventions of the embedding.
    - A websocket object is known by its identity, a natural number.
    - The four Python sets are finite sets [gset conn]; a [for] loop over a
      set visits [elements] of it.  A loop over a copy, [list(s)], visits
      what the set held when the copy was made; a loop over the set itself
      raises [RuntimeError] at its next step when the set has another size
      than at the start of the loop.
    - [json.loads(message)] is taken as done: a handler receives [Some j]
      for the decoded value and [None] when decoding raises
      [JSONDecodeError].  [websocket.send(json.dumps(x))] is recorded as a
      send of [x].
    - A coroutine is a function of the server object that returns a result
      (a value or a raised exception), the new server object and the trace
      of what it did: sends with their outcome, lines printed, and calls of
      [unregister_client].  The transport decides the outcome of every send;
      a send that [_send_to_client] refuses because the connection is not
      open is recorded as a failed send.
    - A handler runs from its start to its end without another handler
      touching the server object in between, but for the sends of a relay:
      while a relay awaits one of them, another handler may register or
      unregister one connection.  What it does is part of the transport.
    - Standard output encodes UTF-8.  A [str] is the string of its bytes
      in UTF-8, a lone surrogate written as its three bytes; [print] cannot
      encode such a [str] and raises [UnicodeEncodeError]. *)

From stdpp Require Import gmap strings list.

Set Warnings "-register-all,-clear-no-such-hyp".

(** ** JSON values *)

(** What [json.loads] returns: [None], [bool], [int], [float], [str], [list]
    and [dict].  A float is carried as its literal, the server never computes
    with one.  A dict is the list of its items, its keys are distinct. *)
Inductive json : Type :=
  | JNull
  | JBool (b : bool)
  | JInt (z : Z)
  | JFloat (lit : string)
  | JStr (s : string)
  | JArr (items : list json)
  | JObj (items : list (string * json)).

(** [d.get(key)] on the items of a dict. *)
Fixpoint dict_lookup (key : string) (items : list (string * json)) : option json :=
  match items with
  | [] => None
  | (k, v) :: rest => if String.eqb k key then Some v else dict_lookup key rest
  end.

(** [d.get(key, default)]. *)
Definition dict_get (items : list (string * json)) (key : string) (default : json) : json :=
  match dict_lookup key items with
  | Some v => v
  | None => default
  end.

(** [x == 'lit'] for a decoded value [x]: only the string itself is equal. *)
Definition py_eq (x : json) (lit : string) : bool :=
  match x with
  | JStr s => String.eqb s lit
  | _ => false
  end.

Definition is_JStr (x : json) : bool :=
  match x with
  | JStr _ => true
  | _ => false
  end.

(** Whether ['+'.join(keys)] returns: [keys] must be iterable and yield only
    strings.  A list must hold strings; a string yields its characters and a
    dict its keys. *)
Definition join_ok (keys : json) : bool :=
  match keys with
  | JArr items => forallb is_JStr items
  | JStr _ => true
  | JObj _ => true
  | _ => false
  end.

(** Whether a [str] holds a surrogate, which [json.loads] leaves in a string
    whose escape names one that is not part of a pair: the bytes of one are
    0xED and then a byte from 0xA0 on. *)
Fixpoint has_surrogate (s : string) : bool :=
  match s with
  | String a rest =>
      match rest with
      | String b _ =>
          (Ascii.nat_of_ascii a =? 237) && (160 <=? Ascii.nat_of_ascii b)
          || has_surrogate rest
      | EmptyString => false
      end
  | EmptyString => false
  end.

(** The strings that [f"{x}"] writes as they are: [x] itself when it is a
    [str]; inside a list or a dict a string is written by [repr], which
    escapes a surrogate. *)
Definition shown (x : json) : list string :=
  match x with
  | JStr s => [s]
  | _ => []
  end.

(** The strings that ['+'.join(keys)] puts together, when it returns. *)
Definition join_parts (keys : json) : list string :=
  match keys with
  | JArr items => flat_map shown items
  | JStr s => [s]
  | JObj items => map fst items
  | _ => []
  end.

(** ** Connections, exceptions, transport *)

Definition conn : Type := nat.

Inductive exn : Type :=
  | ConnectionClosed
  | TransportError
  | JSONDecodeError
  | AttributeError
  | TypeError
  | RuntimeError
  | UnicodeEncodeError.

(** What another handler does to the registry while a relay awaits a send:
    it runs [register_client(ws, client_type)] or [unregister_client(ws)]. *)
Inductive change : Type :=
  | Joins (ws : conn) (client_type : json)
  | Leaves (ws : conn).

(** The network as one handler sees it: [state_open c] is
    [c.state == State.OPEN], and [send_exn c x] is [None] when
    [c.send(json.dumps(x))] returns and the exception it raises otherwise;
    [meanwhile c x] is what another handler does to the registry while a
    relay awaits that send. *)
Record transport : Type := Transport {
  state_open : conn → bool;
  send_exn : conn → json → option exn;
  meanwhile : conn → json → option change
}.

(** What [await c.send(message)] does: it returns, it raises, or it never
    comes back. *)
Inductive awaited : Type :=
  | Returns
  | Raises (e : exn)
  | Pends.

(** A network on which a send may also never come back.  The handlers run
    on a [transport], whose sends return or raise; the relays are written
    for a [network], and a handler runs them on the network its transport
    is. *)
Record network : Type := Network {
  opened : conn → bool;
  awaiting : conn → json → awaited;
  changes : conn → json → option change
}.

Definition outcome (net : transport) (c : conn) (x : json) : awaited :=
  match send_exn net c x with
  | None => Returns
  | Some e => Raises e
  end.

Definition network_of (net : transport) : network :=
  {| opened := state_open net; awaiting := outcome net; changes := meanwhile net |}.

Coercion network_of : transport >-> network.

(** ** Traces *)

(** Lines written by [print], by the place that writes them. *)
Inductive line : Type :=
  | ProviderConnected (n : nat)
  | ControllerConnected (n : nat)
  | ViewerConnected (n : nat)
  | TotalConnections (n : nat)
  | ClientDisconnected (n : nat)
  | KindDisconnected (kind : string) (n : nat)
  | NewViewerSendFailed (e : exn)
  | SendScreenError (e : exn)
  | ScreenDataError (e : exn)
  | NoProvider
  | ForwardText (text : json)
  | ForwardHotkey (keys : json)
  | ForwardKey (key : json)
  | ForwardMouse (ev x y : json)
  | ForwardError (e : exn)
  | ControlEventError (e : exn)
  | InvalidJSON
  | ClientMessageError (e : exn)
  | NewConnection
  | ClosedNormally
  | ConnectionError (e : exn).

Inductive event : Type :=
  | Sent (c : conn) (payload : json)
  | SendFailed (c : conn) (payload : json) (e : exn)
  | Printed (l : line)
  | CallUnregister (c : conn).

(** The sends of a trace that arrived, and all the sends that were tried. *)
Definition delivered (t : list event) : list (conn * json) :=
  omap (λ ev, match ev with Sent c x => Some (c, x) | _ => None end) t.

Definition attempted (t : list event) : list (conn * json) :=
  omap (λ ev, match ev with
              | Sent c x => Some (c, x)
              | SendFailed c x _ => Some (c, x)
              | _ => None
              end) t.

Definition unregister_calls (t : list event) : list conn :=
  omap (λ ev, match ev with CallUnregister c => Some c | _ => None end) t.

(** ** The monad of coroutines *)

(** How far a coroutine gets: it returns, it raises, or it waits for good
    at an [await] that never comes back. *)
Inductive res (A : Type) : Type :=
  | Ok (a : A)
  | Raise (e : exn)
  | Pending.
Arguments Ok {A} a.
Arguments Raise {A} e.
Arguments Pending {A}.

Definition M (St A : Type) : Type := St → res A * St * list event.

Definition ret {St A} (a : A) : M St A := λ s, (Ok a, s, []).

Definition bind {St A B} (m : M St A) (k : A → M St B) : M St B := λ s,
  match m s with
  | (Ok a, s1, t1) => let '(r, s2, t2) := k a s1 in (r, s2, t1 ++ t2)
  | (Raise e, s1, t1) => (Raise e, s1, t1)
  | (Pending, s1, t1) => (Pending, s1, t1)
  end.

Definition raise {St A} (e : exn) : M St A := λ s, (Raise e, s, []).
Definition pending {St A} : M St A := λ s, (Pending, s, []).

(** [try: m except Exception as e: h e]. *)
Definition try_except {St A} (m : M St A) (h : exn → M St A) : M St A := λ s,
  match m s with
  | (Ok a, s1, t1) => (Ok a, s1, t1)
  | (Raise e, s1, t1) => let '(r, s2, t2) := h e s1 in (r, s2, t1 ++ t2)
  | (Pending, s1, t1) => (Pending, s1, t1)
  end.

Definition gets {St A} (f : St → A) : M St A := λ s, (Ok (f s), s, []).
Definition modify {St} (f : St → St) : M St unit := λ s, (Ok tt, f s, []).
Definition emit {St} (ev : event) : M St unit := λ s, (Ok tt, s, [ev]).
Definition print {St} (l : line) : M St unit := emit (Printed l).

Declare Scope coroutine_scope.
Delimit Scope coroutine_scope with co.
Notation "'let*' x := m 'in' k" := (bind m (λ x, k))
  (at level 10, x name, m at level 100, k at level 200) : coroutine_scope.
Notation "m >> k" := (bind m (λ _, k))
  (at level 100, k at level 200, right associativity) : coroutine_scope.
Open Scope coroutine_scope.

(** [for x in xs: body x]. *)
Fixpoint for_each {St A} (xs : list A) (body : A → M St unit) : M St unit :=
  match xs with
  | [] => ret tt
  | x :: rest => body x >> for_each rest body
  end.

(** A [for] loop that carries a local variable. *)
Fixpoint for_fold {St A B} (xs : list A) (acc : B) (body : B → A → M St B) : M St B :=
  match xs with
  | [] => ret acc
  | x :: rest => let* acc' := body acc x in for_fold rest acc' body
  end.

Definition state_of {St A} (r : res A * St * list event) : St := r.1.2.
Definition trace_of {St A} (r : res A * St * list event) : list event := r.2.
Definition result_of {St A} (r : res A * St * list event) : res A := r.1.1.

(** [await c.send(json.dumps(x))], by what the send does. *)
Definition await_send {St} (o : awaited) (c : conn) (x : json) : M St unit :=
  match o with
  | Returns => emit (Sent c x)
  | Raises e => emit (SendFailed c x e) >> raise e
  | Pends => pending
  end.

(** [await websocket.send(json.dumps(x))] on a transport. *)
Definition send {St} (net : transport) (c : conn) (x : json) : M St unit :=
  await_send (outcome net c x) c x.

(** [m], with [f] for what other handlers do to the server object while
    [m] waits. *)
Definition during {St A} (f : St → St) (m : M St A) : M St A := λ s,
  let '(r, s1, t1) := m s in (r, f s1, t1).

(** [print(line)] of a line into which the strings [texts] are written as
    they are. *)
Definition print_text {St} (l : line) (texts : list string) : M St unit :=
  if existsb has_surrogate texts then raise UnicodeEncodeError else print l.

(** ** The server object *)

Record screen_info_t : Type := ScreenInfo {
  width : json;
  height : json;
  original_width : json;
  original_height : json
}.

Definition screen_info_json (i : screen_info_t) : json :=
  JObj [("width", width i); ("height", height i);
        ("original_width", original_width i);
        ("original_height", original_height i)]%string.

(** The fields [__init__] of [muma.py] sets. *)
Record server : Type := Server {
  clients : gset conn;
  screen_providers : gset conn;
  screen_viewers : gset conn;
  control_clients : gset conn;
  running : bool;
  current_screen_data : option json;
  screen_info : screen_info_t
}.

Definition init : server :=
  {| clients := ∅; screen_providers := ∅; screen_viewers := ∅;
     control_clients := ∅; running := true; current_screen_data := None;
     screen_info := ScreenInfo (JInt 0) (JInt 0) (JInt 0) (JInt 0) |}.

Definition set_clients (f : gset conn → gset conn) (s : server) : server :=
  {| clients := f (clients s); screen_providers := screen_providers s;
     screen_viewers := screen_viewers s; control_clients := control_clients s;
     running := running s; current_screen_data := current_screen_data s;
     screen_info := screen_info s |}.

Definition set_screen_providers (f : gset conn → gset conn) (s : server) : server :=
  {| clients := clients s; screen_providers := f (screen_providers s);
     screen_viewers := screen_viewers s; control_clients := control_clients s;
     running := running s; current_screen_data := current_screen_data s;
     screen_info := screen_info s |}.

Definition set_screen_viewers (f : gset conn → gset conn) (s : server) : server :=
  {| clients := clients s; screen_providers := screen_providers s;
     screen_viewers := f (screen_viewers s); control_clients := control_clients s;
     running := running s; current_screen_data := current_screen_data s;
     screen_info := screen_info s |}.

Definition set_control_clients (f : gset conn → gset conn) (s : server) : server :=
  {| clients := clients s; screen_providers := screen_providers s;
     screen_viewers := screen_viewers s; control_clients := f (control_clients s);
     running := running s; current_screen_data := current_screen_data s;
     screen_info := screen_info s |}.

Definition set_current_screen_data (d : option json) (s : server) : server :=
  {| clients := clients s; screen_providers := screen_providers s;
     screen_viewers := screen_viewers s; control_clients := control_clients s;
     running := running s; current_screen_data := d;
     screen_info := screen_info s |}.

Definition set_screen_info (i : screen_info_t) (s : server) : server :=
  {| clients := clients s; screen_providers := screen_providers s;
     screen_viewers := screen_viewers s; control_clients := control_clients s;
     running := running s; current_screen_data := current_screen_data s;
     screen_info := i |}.

(** [s.add(x)] and [s.discard(x)] of a Python set, and its truth value. *)
Definition add (x : conn) (s : gset conn) : gset conn := s ∪ {[x]}.
Definition discard (x : conn) (s : gset conn) : gset conn := s ∖ {[x]}.
Definition nonempty (s : gset conn) : bool := negb (bool_decide (s = ∅)).
Arguments add : simpl never.
Arguments discard : simpl never.
Arguments nonempty : simpl never.

(** [json.dumps(self.current_screen_data)]; [None] is written [null]. *)
Definition dumps_current (d : option json) : json := default JNull d.

(** The dict [handle_screen_data] stores in [current_screen_data]; [now] is
    what [time.time()] returns. *)
Definition screenshot_record (data : list (string * json)) (now : string) : json :=
  JObj [("type", JStr "screenshot");
        ("data", dict_get data "data" JNull);
        ("width", dict_get data "width" (JInt 0));
        ("height", dict_get data "height" (JInt 0));
        ("original_width", dict_get data "original_width" (JInt 0));
        ("original_height", dict_get data "original_height" (JInt 0));
        ("timestamp", JFloat now)]%string.

Definition screen_info_of (data : list (string * json)) : screen_info_t :=
  {| width := dict_get data "width" (JInt 0);
     height := dict_get data "height" (JInt 0);
     original_width := dict_get data "original_width" (JInt 0);
     original_height := dict_get data "original_height" (JInt 0) |}.

Definition error_record : json :=
  JObj [("type", JStr "error"); ("message", JStr "当前没有可用的屏幕数据")]%string.

Definition pong_record : json := JObj [("type", JStr "pong")]%string.

Definition register_ack (client_type : json) (i : screen_info_t) : json :=
  JObj [("type", JStr "register_ack"); ("client_type", client_type);
        ("screen_info", screen_info_json i)]%string.

(** [x is not None]. *)
Definition is_not_None {A} (x : option A) : bool :=
  match x with
  | Some _ => true
  | None => false
  end.

(** What [get_server_status] of [muma.py] returns. *)
Record status : Type := Status {
  total_clients : nat;
  st_screen_providers : nat;
  st_screen_viewers : nat;
  st_control_clients : nat;
  has_screen_data : bool;
  st_screen_info : screen_info_t
}.

Definition get_server_status (s : server) : status :=
  {| total_clients := size (clients s);
     st_screen_providers := size (screen_providers s);
     st_screen_viewers := size (screen_viewers s);
     st_control_clients := size (control_clients s);
     has_screen_data := is_not_None (current_screen_data s);
     st_screen_info := screen_info s |}.

(** The server object after [register_client] and after
    [unregister_client]. *)
Definition registered (ws : conn) (client_type : json) (s : server) : server :=
  let s1 := set_clients (add ws) s in
  if py_eq client_type "provider" then set_screen_providers (add ws) s1
  else if py_eq client_type "controller" then set_control_clients (add ws) s1
  else set_screen_viewers (add ws) s1.

Definition unregistered (ws : conn) (s : server) : server :=
  set_control_clients (discard ws)
    (set_screen_viewers (discard ws)
       (set_screen_providers (discard ws) (set_clients (discard ws) s))).

(** The server object after what another handler did to the registry. *)
Definition interfere (ch : option change) (s : server) : server :=
  match ch with
  | Some (Joins ws client_type) => registered ws client_type s
  | Some (Leaves ws) => unregistered ws s
  | None => s
  end.

(** The operations on the registry, as the handlers call them:
    [register_client(ws, client_type)], [unregister_client(ws)] and
    [handle_client_message(ws, message)]. *)
Inductive op : Type :=
  | Register (ws : conn) (client_type : json)
  | Unregister (ws : conn)
  | Dispatch (ws : conn) (message : option json).

(** The default of parameter [client_type] of [register_client]. *)
Definition default_client_type : json := JStr "viewer".

(** What [handle_client] does when a session is accepted and when it ends. *)
Definition Accept (ws : conn) : op := Register ws default_client_type.
Definition Close (ws : conn) : op := Unregister ws.

(** One operation with the transport and the clock it runs under. *)
Record step : Type := Step {
  step_net : transport;
  step_now : string;
  step_op : op
}.

(** ** [muma.py] *)

Module Muma.

(** The loop over the targets that [handle_screen_data] and
    [handle_control_event] each write out, [for target in self.targets:],
    over the set itself: every step of the iteration compares the size of
    the set with its size when the loop began and raises [RuntimeError] when
    they differ.  A target whose send raises is collected;
    [ConnectionClosed] is silent, any other exception is printed, with the
    text of the handler, [report]. *)
Section Relay.
Variable nw : network.
Variable targets_of : server → gset conn.
Variable message : json.
Variable report : exn → line.

Definition relay_send (target : conn) : M server unit :=
  during (interfere (changes nw target message))
    (await_send (awaiting nw target message) target message).

Fixpoint visit (used : nat) (rest : list conn) (disconnected : gset conn)
    : M server (gset conn) :=
  let* n := gets (λ self, size (targets_of self)) in
  if negb (n =? used) then raise RuntimeError
  else
    match rest with
    | [] => ret disconnected
    | target :: rest =>
        let* disconnected :=
          try_except
            (relay_send target >> ret disconnected)
            (λ e, match e with
                  | ConnectionClosed => ret (add target disconnected)
                  | _ => print (report e) >> ret (add target disconnected)
                  end) in
        visit used rest disconnected
    end.

Definition send_all : M server (gset conn) :=
  let* targets := gets targets_of in
  visit (size targets) (elements targets) ∅.
End Relay.

Section Handlers.
Variable net : transport.
Variable now : string.

Definition register_client (websocket : conn) (client_type : json) : M server unit :=
  modify (set_clients (add websocket)) >>
  (if py_eq client_type "provider" then
     modify (set_screen_providers (add websocket)) >>
     let* n := gets (λ self, size (screen_providers self)) in
     print (ProviderConnected n)
   else if py_eq client_type "controller" then
     modify (set_control_clients (add websocket)) >>
     let* n := gets (λ self, size (control_clients self)) in
     print (ControllerConnected n)
   else
     modify (set_screen_viewers (add websocket)) >>
     let* n := gets (λ self, size (screen_viewers self)) in
     print (ViewerConnected n)) >>
  let* n := gets (λ self, size (clients self)) in
  print (TotalConnections n) >>
  let* current := gets current_screen_data in
  if py_eq client_type "viewer" then
    match current with
    | Some d => try_except (send net websocket d) (λ _, ret tt)
    | None => ret tt
    end
  else ret tt.

Definition unregister_client (websocket : conn) : M server unit :=
  emit (CallUnregister websocket) >>
  modify (set_clients (discard websocket)) >>
  modify (set_screen_providers (discard websocket)) >>
  modify (set_screen_viewers (discard websocket)) >>
  modify (set_control_clients (discard websocket)) >>
  let* n := gets (λ self, size (clients self)) in
  print (ClientDisconnected n).

Definition handle_screen_data (data : list (string * json)) : M server unit :=
  try_except
    (modify (set_current_screen_data (Some (screenshot_record data now))) >>
     modify (set_screen_info (screen_info_of data)) >>
     let* viewers := gets screen_viewers in
     if nonempty viewers then
       let* current := gets current_screen_data in
       let message := dumps_current current in
       let* disconnected := send_all net screen_viewers message SendScreenError in
       for_each (elements disconnected) unregister_client
     else ret tt)
    (λ e, print (ScreenDataError e)).

Definition handle_control_event (websocket : conn) (data : list (string * json))
    : M server unit :=
  try_except
    (let* providers := gets screen_providers in
     if negb (nonempty providers) then print NoProvider
     else
       let message := JObj data in
       let* disconnected := send_all net screen_providers message ForwardError in
       for_each (elements disconnected) unregister_client)
    (λ e, print (ControlEventError e)).

Definition handle_client_message (websocket : conn) (message : option json)
    : M server unit :=
  try_except
    match message with
    | None => raise JSONDecodeError
    | Some (JObj data) =>
        let msg_type := dict_get data "type" JNull in
        if py_eq msg_type "register" then
          let client_type := dict_get data "client_type" (JStr "viewer") in
          register_client websocket client_type >>
          let* info := gets screen_info in
          send net websocket (register_ack client_type info)
        else if py_eq msg_type "screen_data" then
          handle_screen_data data
        else if py_eq msg_type "mouse" || py_eq msg_type "keyboard" then
          handle_control_event websocket data
        else if py_eq msg_type "get_screenshot" then
          let* current := gets current_screen_data in
          match current with
          | Some d => send net websocket d
          | None => send net websocket error_record
          end
        else if py_eq msg_type "ping" then
          send net websocket pong_record
        else ret tt
    | Some _ => raise AttributeError
    end
    (λ e, match e with
          | JSONDecodeError => print InvalidJSON
          | _ => print (ClientMessageError e)
          end).

(** [handle_client] for a session that delivers [messages] and then ends:
    the iteration over the websocket stops ([None]) or raises. *)
Definition handle_client (websocket : conn) (messages : list (option json))
    (ending : option exn) : M server unit :=
  register_client websocket default_client_type >>
  try_except
    (for_each messages (handle_client_message websocket) >>
     match ending with
     | None => ret tt
     | Some e => raise e
     end)
    (λ e, match e with
          | ConnectionClosed => ret tt
          | _ => print (ConnectionError e)
          end) >>
  unregister_client websocket.

Definition perform (o : op) : M server unit :=
  match o with
  | Register ws client_type => register_client ws client_type
  | Unregister ws => unregister_client ws
  | Dispatch ws message => handle_client_message ws message
  end.
End Handlers.

Definition run_step (self : server) (st : step) : server :=
  state_of (perform (step_net st) (step_now st) (step_op st) self).

Definition run (steps : list step) (self : server) : server :=
  foldl run_step self steps.

End Muma.

(** ** [muma2.0.py] *)

(** The counters of [self.stats]; [start_time] is a float. *)
Record stats_t : Type := Stats {
  messages_received : nat;
  messages_sent : nat;
  start_time : string
}.

(** The server object of [muma2.0.py]: the fields of [muma.py] and [stats]. *)
Record server2 : Type := Server2 {
  base :> server;
  stats : stats_t
}.

Definition on_base (f : server → server) (s : server2) : server2 :=
  {| base := f (base s); stats := stats s |}.

(** [self.stats['messages_sent'] += 1] and
    [self.stats['messages_received'] += 1]. *)
Definition count_sent (s : server2) : server2 :=
  {| base := base s;
     stats := {| messages_received := messages_received (stats s);
                 messages_sent := messages_sent (stats s) + 1;
                 start_time := start_time (stats s) |} |}.

Definition count_received (s : server2) : server2 :=
  {| base := base s;
     stats := {| messages_received := messages_received (stats s) + 1;
                 messages_sent := messages_sent (stats s);
                 start_time := start_time (stats s) |} |}.

(** [asyncio.gather] of the tasks with [return_exceptions=True]: every task
    runs as far as it gets, and when all of them have finished the list of
    what each returned or raised comes back in the order of the tasks. *)
Definition capture {St A} (m : M St A) : M St (res A) := λ s,
  let '(r, s1, t1) := m s in (Ok r, s1, t1).

Fixpoint run_tasks {St A} (tasks : list (M St A)) : M St (list (res A)) :=
  match tasks with
  | [] => ret []
  | task :: rest =>
      let* r := capture task in
      let* rs := run_tasks rest in
      ret (r :: rs)
  end.

Definition finished {A} (r : res A) : bool :=
  match r with
  | Pending => false
  | _ => true
  end.

Definition gather {St A} (tasks : list (M St A)) : M St (list (res A)) :=
  let* results := run_tasks tasks in
  if forallb finished results then ret results else pending.

Module Muma2.

Definition init (start : string) : server2 :=
  {| base := init; stats := Stats 0 0 start |}.

Definition unregister_client (websocket : conn) : M server2 unit :=
  emit (CallUnregister websocket) >>
  modify (on_base (set_clients (discard websocket))) >>
  let* was_provider :=
    gets (λ self : server2, bool_decide (websocket ∈ screen_providers self)) in
  let* was_viewer :=
    gets (λ self : server2, bool_decide (websocket ∈ screen_viewers self)) in
  let* was_controller :=
    gets (λ self : server2, bool_decide (websocket ∈ control_clients self)) in
  modify (on_base (set_screen_providers (discard websocket))) >>
  modify (on_base (set_screen_viewers (discard websocket))) >>
  modify (on_base (set_control_clients (discard websocket))) >>
  let client_type :=
    if was_provider then "提供者"
    else if was_viewer then "观看者"
    else if was_controller then "控制者" else "未知" in
  let* n := gets (λ self : server2, size (clients self)) in
  print (KindDisconnected client_type n).

Section Broadcast.
Variable nw : network.

(** While [_send_to_client] awaits its send, another handler may change
    the registry. *)
Definition _send_to_client (client : conn) (message : json) : M server2 bool :=
  try_except
    (if opened nw client then
       during (on_base (interfere (changes nw client message)))
         (await_send (awaiting nw client message) client message) >>
       ret true
     else emit (SendFailed client message ConnectionClosed) >> raise ConnectionClosed)
    (λ e, raise e).

(** What both broadcasts do with the results of the sends: the targets
    are read again from the set, as it is when the gather has come back, and
    paired with the results.  No result of a gather that came back is
    [Pending]. *)
Definition collect_failed (targets : list conn) (results : list (res bool))
    (report : exn → line) : M server2 (gset conn) :=
  for_fold (zip targets results) ∅ (λ disconnected pair,
    match pair.2 with
    | Raise e => print (report e) >> ret (add pair.1 disconnected)
    | Ok _ => modify count_sent >> ret disconnected
    | Pending => ret disconnected
    end).

Definition _broadcast_to_viewers (message : json) : M server2 unit :=
  let* viewers := gets (λ self : server2, screen_viewers self) in
  if negb (nonempty viewers) then ret tt
  else
    let send_tasks := map (λ viewer, _send_to_client viewer message) (elements viewers) in
    let* results := gather send_tasks in
    let* viewers' := gets (λ self : server2, screen_viewers self) in
    let* disconnected := collect_failed (elements viewers') results SendScreenError in
    for_each (elements disconnected) unregister_client.

Definition _broadcast_to_providers (message : json) : M server2 unit :=
  let* providers := gets (λ self : server2, screen_providers self) in
  if negb (nonempty providers) then ret tt
  else
    let send_tasks :=
      map (λ provider, _send_to_client provider message) (elements providers) in
    let* results := gather send_tasks in
    let* providers' := gets (λ self : server2, screen_providers self) in
    let* disconnected := collect_failed (elements providers') results ForwardError in
    for_each (elements disconnected) unregister_client.

End Broadcast.

Section Handlers.
Variable net : transport.
Variable now : string.

Definition register_client (websocket : conn) (client_type : json) : M server2 unit :=
  modify (on_base (set_clients (add websocket))) >>
  (if py_eq client_type "provider" then
     modify (on_base (set_screen_providers (add websocket))) >>
     let* n := gets (λ self : server2, size (screen_providers self)) in
     print (ProviderConnected n)
   else if py_eq client_type "controller" then
     modify (on_base (set_control_clients (add websocket))) >>
     let* n := gets (λ self : server2, size (control_clients self)) in
     print (ControllerConnected n)
   else
     modify (on_base (set_screen_viewers (add websocket))) >>
     let* n := gets (λ self : server2, size (screen_viewers self)) in
     print (ViewerConnected n)) >>
  let* n := gets (λ self : server2, size (clients self)) in
  print (TotalConnections n) >>
  let* current := gets (λ self : server2, current_screen_data self) in
  if py_eq client_type "viewer" then
    match current with
    | Some d =>
        try_except
          (send net websocket d >> modify count_sent)
          (λ e, print (NewViewerSendFailed e))
    | None => ret tt
    end
  else ret tt.

Definition handle_screen_data (data : list (string * json)) : M server2 unit :=
  try_except
    (modify (on_base (set_current_screen_data (Some (screenshot_record data now)))) >>
     modify (on_base (set_screen_info (screen_info_of data))) >>
     let* viewers := gets (λ self : server2, screen_viewers self) in
     if nonempty viewers then
       let* current := gets (λ self : server2, current_screen_data self) in
       _broadcast_to_viewers net (dumps_current current)
     else ret tt)
    (λ e, print (ScreenDataError e)).

(** The line [handle_control_event] prints before it forwards; building
    the line of a hotkey joins [keys] and may raise. *)
Definition log_control_event (data : list (string * json)) : M server2 unit :=
  let event_type := dict_get data "type" JNull in
  if py_eq event_type "keyboard" then
    let keyboard_event := dict_get data "event_type" JNull in
    if py_eq keyboard_event "type" then
      let text := dict_get data "text" (JStr "") in
      print_text (ForwardText text) (shown text)
    else if py_eq keyboard_event "hotkey" then
      let keys := dict_get data "keys" (JArr []) in
      if join_ok keys then print_text (ForwardHotkey keys) (join_parts keys)
      else raise TypeError
    else
      let key := dict_get data "key" (JStr "") in
      print_text (ForwardKey key) (shown key)
  else if py_eq event_type "mouse" then
    let mouse_event := dict_get data "event_type" JNull in
    let x := dict_get data "x" (JInt 0) in
    let y := dict_get data "y" (JInt 0) in
    print_text (ForwardMouse mouse_event x y) (shown mouse_event ++ shown x ++ shown y)
  else ret tt.

Definition handle_control_event (websocket : conn) (data : list (string * json))
    : M server2 unit :=
  try_except
    (let* providers := gets (λ self : server2, screen_providers self) in
     if negb (nonempty providers) then print NoProvider
     else
       log_control_event data >>
       _broadcast_to_providers net (JObj data))
    (λ e, print (ControlEventError e)).

Definition handle_client_message (websocket : conn) (message : option json)
    : M server2 unit :=
  try_except
    match message with
    | None => raise JSONDecodeError
    | Some (JObj data) =>
        let msg_type := dict_get data "type" JNull in
        modify count_received >>
        if py_eq msg_type "register" then
          let client_type := dict_get data "client_type" (JStr "viewer") in
          register_client websocket client_type >>
          let* info := gets (λ self : server2, screen_info self) in
          send net websocket (register_ack client_type info) >>
          modify count_sent
        else if py_eq msg_type "screen_data" then
          handle_screen_data data
        else if py_eq msg_type "mouse" || py_eq msg_type "keyboard" then
          handle_control_event websocket data
        else if py_eq msg_type "get_screenshot" then
          let* current := gets (λ self : server2, current_screen_data self) in
          match current with
          | Some d => send net websocket d >> modify count_sent
          | None => send net websocket error_record >> modify count_sent
          end
        else if py_eq msg_type "ping" then
          send net websocket pong_record >> modify count_sent
        else ret tt
    | Some _ => raise AttributeError
    end
    (λ e, match e with
          | JSONDecodeError => print InvalidJSON
          | _ => print (ClientMessageError e)
          end).

Definition handle_client (websocket : conn) (messages : list (option json))
    (ending : option exn) : M server2 unit :=
  print NewConnection >>
  register_client websocket default_client_type >>
  try_except
    (for_each messages (handle_client_message websocket) >>
     match ending with
     | None => ret tt
     | Some e => raise e
     end)
    (λ e, match e with
          | ConnectionClosed => print ClosedNormally
          | _ => print (ConnectionError e)
          end) >>
  unregister_client websocket.

Definition perform (o : op) : M server2 unit :=
  match o with
  | Register ws client_type => register_client ws client_type
  | Unregister ws => unregister_client ws
  | Dispatch ws message => handle_client_message ws message
  end.
End Handlers.

Definition run_step (self : server2) (st : step) : server2 :=
  state_of (perform (step_net st) (step_now st) (step_op st) self).

Definition run (steps : list step) (self : server2) : server2 :=
  foldl run_step self steps.

(** The counts and flags of [get_server_status]; its [runtime] and
    [avg_msg_per_sec] are floats computed from the clock and are left out. *)
Definition get_server_status (self : server2) : status * nat * nat :=
  (get_server_status self, messages_received (stats self), messages_sent (stats self)).

End Muma2.

(** * Vocabulary of the properties *)

Definition role_sets (s : server) : gset conn :=
  screen_providers s ∪ screen_viewers s ∪ control_clients s.

(** Every connection of a role set is in [clients]. *)
Definition roles_in_clients (s : server) : Prop := role_sets s ⊆ clients s.

(** Connection [c] is in at most one of the three role sets. *)
Definition at_most_one_role (s : server) (c : conn) : Prop :=
  ¬ (c ∈ screen_providers s ∧ c ∈ screen_viewers s) ∧
  ¬ (c ∈ screen_providers s ∧ c ∈ control_clients s) ∧
  ¬ (c ∈ screen_viewers s ∧ c ∈ control_clients s).

Definition exclusive (s : server) : Prop := ∀ c, at_most_one_role s c.

(** Relations between the server object before and after a coroutine. *)
Definition inv_kept (P : server → Prop) : relation server := λ s s', P s → P s'.

Definition roles_shrink : relation server := λ s s',
  screen_providers s' ⊆ screen_providers s ∧
  screen_viewers s' ⊆ screen_viewers s ∧
  control_clients s' ⊆ control_clients s.

Definition frame_kept : relation server := λ s s',
  current_screen_data s' = current_screen_data s ∧ screen_info s' = screen_info s.

Definition frame_replaced : relation server := λ s s',
  current_screen_data s' = current_screen_data s ∨ is_Some (current_screen_data s').

(** A relation on the fields of [muma.py], read on a server object of
    [muma2.0.py]. *)
Definition on2 (R : relation server) : relation server2 := λ s s', R (base s) (base s').

(** The registration an operation performs, if it is one: the connection
    and the [client_type] that [register_client] is called with. *)
Definition registration (o : op) : option (conn * json) :=
  match o with
  | Register ws client_type => Some (ws, client_type)
  | Dispatch ws (Some (JObj data)) =>
      if py_eq (dict_get data "type" JNull) "register"
      then Some (ws, dict_get data "client_type" (JStr "viewer"))
      else None
  | _ => None
  end.

(** The role sets that [register_client] does not select for [client_type]. *)
Definition other_roles (client_type : json) (s : server) : gset conn :=
  if py_eq client_type "provider" then screen_viewers s ∪ control_clients s
  else if py_eq client_type "controller" then screen_providers s ∪ screen_viewers s
  else screen_providers s ∪ control_clients s.

(** Whether an operation hands a frame to [handle_screen_data]. *)
Definition frame_submission (o : op) : bool :=
  match o with
  | Dispatch ws (Some (JObj data)) =>
      negb (py_eq (dict_get data "type" JNull) "register")
      && py_eq (dict_get data "type" JNull) "screen_data"
  | _ => false
  end.

(** No other handler changes the registry while a relay on [net] awaits a
    send. *)
Definition quiet (net : transport) : Prop := ∀ c x, meanwhile net c x = None.

(** No other handler registers a connection meanwhile; one may unregister. *)
Definition no_joins (net : transport) : Prop :=
  ∀ c x ws client_type, meanwhile net c x ≠ Some (Joins ws client_type).

(** Whoever registers meanwhile lands in [screen_viewers], as a session
    that is accepted does. *)
Definition joins_as_viewer (net : transport) : Prop :=
  ∀ c x ws client_type,
    meanwhile net c x = Some (Joins ws client_type) →
    py_eq client_type "provider" || py_eq client_type "controller" = false.

(** Whether a send of [message] to [c] raises, in [muma.py], and whether
    [_send_to_client] raises for it, in [muma2.0.py]. *)
Definition send_fails (net : transport) (message : json) (c : conn) : bool :=
  match send_exn net c message with
  | Some _ => true
  | None => false
  end.

Definition refused (net : transport) (message : json) (c : conn) : bool :=
  negb (state_open net c) || send_fails net message c.

(** The exception the relay loop of [muma.py] prints for target [c]: its
    [except websockets.exceptions.ConnectionClosed:] clause prints nothing. *)
Definition printed_failure (net : transport) (message : json) (c : conn) : option exn :=
  match send_exn net c message with
  | Some ConnectionClosed | None => None
  | Some e => Some e
  end.

(** The targets of a relay over [targets], by what became of their send. *)
Definition failed_of (fails : conn → bool) (targets : gset conn) : list conn :=
  filter (λ c, fails c = true) (elements targets).

Definition reached_of (fails : conn → bool) (targets : gset conn) : list conn :=
  filter (λ c, fails c = false) (elements targets).

(** The failures a trace reports: the lines printed for a failed send. *)
Definition reported_failures (t : list event) : list exn :=
  omap (λ ev, match ev with
              | Printed (SendScreenError e) => Some e
              | Printed (ForwardError e) => Some e
              | _ => None
              end) t.

(** The server object after [unregister_client] for each of [cs] in turn. *)
Definition unregistered_all (cs : list conn) (s : server) : server :=
  foldl (λ s c, unregistered c s) s cs.

(** What [_send_to_client] returns or raises. *)
Definition send_result (net : transport) (message : json) (c : conn) : res bool :=
  if state_open net c then
    match send_exn net c message with
    | None => Ok true
    | Some e => Raise e
    end
  else Raise ConnectionClosed.

(** The server object of [muma2.0.py] after [n] more sends were counted. *)
Definition sent_more (n : nat) (s : server2) : server2 := Nat.iter n count_sent s.

(** What the line that [handle_control_event] of [muma2.0.py] prints for
    the event raises, if it does: [TypeError] when the [keys] of a hotkey
    cannot be joined, [UnicodeEncodeError] when a string written into the
    line holds a surrogate.  The line does not depend on the server
    object. *)
Definition log_error (data : list (string * json)) : option exn :=
  match result_of (Muma2.log_control_event data (Muma2.init "0.0")) with
  | Raise e => Some e
  | _ => None
  end.

Definition log_raises (data : list (string * json)) : bool :=
  bool_decide (is_Some (log_error data)).

(** ** Inputs of the examples *)

(** A transport on which every connection is open and every send returns. *)
Definition net_up : transport := Transport (λ _, true) (λ _ _, None) (λ _ _, None).

Definition register_message (client_type : string) : option json :=
  Some (JObj [("type", JStr "register"); ("client_type", JStr client_type)]%string).

(** A session is accepted and then registers as provider. *)
Definition accept_then_provider : list step :=
  [Step net_up "0.0" (Accept 1);
   Step net_up "0.0" (Dispatch 1 (register_message "provider"))].

Definition get_screenshot_message : list (string * json) :=
  [("type", JStr "get_screenshot")]%string.

(** Two frames, the second with width and height 0. *)
Definition frame_one : list (string * json) :=
  [("type", JStr "screen_data"); ("data", JStr "data:image/jpeg;base64,AAAA");
   ("width", JInt 800); ("height", JInt 600);
   ("original_width", JInt 1920); ("original_height", JInt 1080)]%string.

Definition frame_two : list (string * json) :=
  [("type", JStr "screen_data"); ("data", JStr "data:image/jpeg;base64,BBBB");
   ("width", JInt 0); ("height", JInt 0)]%string.

(** Three viewers, of which connection 2 is closed. *)
Definition net_two_closed : transport :=
  Transport (λ c, negb (c =? 2)) (λ c _, if c =? 2 then Some ConnectionClosed else None)
    (λ _ _, None).

(** Connection 2 is closed, and while a relay awaits a send to another
    connection the handler of connection 2, whose session has ended,
    unregisters it. *)
Definition net_two_leaves : transport :=
  Transport (λ c, negb (c =? 2)) (λ c _, if c =? 2 then Some ConnectionClosed else None)
    (λ c _, if c =? 2 then None else Some (Leaves 2)).

(** While a relay awaits a send, a session is accepted: connection 9 is
    registered with the default [client_type]. *)
Definition net_nine_joins : transport :=
  Transport (λ _, true) (λ _ _, None) (λ _ _, Some (Joins 9 default_client_type)).


Definition three_viewers : server2 :=
  Muma2.run [Step net_up "0.0" (Accept 1); Step net_up "0.0" (Accept 2);
             Step net_up "0.0" (Accept 3)] (Muma2.init "0.0").

(** A viewer, a provider and a controller, each registered once. *)
Definition one_of_each : server2 :=
  Muma2.run [Step net_up "0.0" (Register 1 (JStr "viewer"));
             Step net_up "0.0" (Register 2 (JStr "provider"));
             Step net_up "0.0" (Register 3 (JStr "controller"))] (Muma2.init "0.0").

(** A hotkey event that names its keys by key code. *)
Definition hotkey_codes : list (string * json) :=
  [("type", JStr "keyboard"); ("event_type", JStr "hotkey");
   ("keys", JArr [JInt 17; JInt 67])]%string.

Definition mouse_click : list (string * json) :=
  [("type", JStr "mouse"); ("event_type", JStr "click");
   ("x", JInt 10); ("y", JInt 20); ("button", JStr "left")]%string.

(** The send to connection 2 never comes back, every other send returns. *)
Definition two_pends : network :=
  Network (λ _, true) (λ c _, if c =? 2 then Pends else Returns) (λ _ _, None).

(** Two viewers. *)
Definition two_viewers : server2 :=
  Muma2.run [Step net_up "0.0" (Accept 1); Step net_up "0.0" (Accept 2)]
    (Muma2.init "0.0").


(** A typed text that holds the surrogate U+D800. *)
Definition text_with_surrogate : list (string * json) :=
  [("type", JStr "keyboard"); ("event_type", JStr "type");
   ("text", JStr (String (Ascii.ascii_of_nat 237)
                    (String (Ascii.ascii_of_nat 160)
                       (String (Ascii.ascii_of_nat 128) EmptyString))))]%string.

(** The server of [muma2.0.py] after a first frame. *)
Definition with_frame : server2 :=
  state_of (Muma2.handle_screen_data net_up "1.0" frame_one (Muma2.init "0.0")).

(** * Vocabulary of the further properties *)

(** The message types [handle_client_message] has a branch for. *)
Definition recognized (msg_type : json) : bool :=
  py_eq msg_type "register" || py_eq msg_type "screen_data"
  || py_eq msg_type "mouse" || py_eq msg_type "keyboard"
  || py_eq msg_type "get_screenshot" || py_eq msg_type "ping".

(** A message no branch takes: it cannot be decoded, is no JSON object, or
    is an object whose [type] is missing or is none of the six. *)
Definition unrecognized (message : option json) : bool :=
  match message with
  | Some (JObj data) => negb (recognized (dict_get data "type" JNull))
  | _ => true
  end.

(** How often [handle_client_message] of [muma2.0.py] counts the message as
    received: once, when it got as far as reading its [type]. *)
Definition counted_received (o : op) : nat :=
  match o with
  | Dispatch _ (Some (JObj _)) => 1
  | _ => 0
  end.

(** The operations of a session of [handle_client], in their order. *)
Definition session (net : transport) (now : string) (ws : conn)
    (messages : list (option json)) : list step :=
  Step net now (Accept ws)
  :: map (λ message, Step net now (Dispatch ws message)) messages
  ++ [Step net now (Close ws)].

(** Every connection of [clients] is in a role set. *)
Definition clients_in_roles (s : server) : Prop := clients s ⊆ role_sets s.

(** [screen_info] and the cached frame go together: both are as [__init__]
    left them, or both come from the same [screen_data] message. *)
Definition frame_matches_info (s : server) : Prop :=
  match current_screen_data s with
  | None => screen_info s = screen_info init
  | Some d => ∃ data now, d = screenshot_record data now ∧
                          screen_info s = screen_info_of data
  end.

(** The counters of [muma2.0.py] follow the trace: [messages_sent] grows by
    the number of sends that arrived, [messages_received] stays. *)
Definition accounts {A} (m : M server2 A) : Prop :=
  ∀ s, messages_sent (stats (state_of (m s)))
       = messages_sent (stats s) + length (delivered (trace_of (m s))) ∧
       messages_received (stats (state_of (m s))) = messages_received (stats s).

(** Between [s] and [s'] no connection outside [calls] has left one of the
    four sets. *)
Definition retained (calls : list conn) (s s' : server) : Prop :=
  ∀ c, c ∉ calls →
       (c ∈ clients s → c ∈ clients s') ∧
       (c ∈ screen_providers s → c ∈ screen_providers s') ∧
       (c ∈ screen_viewers s → c ∈ screen_viewers s') ∧
       (c ∈ control_clients s → c ∈ control_clients s').

(** A coroutine that takes a connection out of a set only by a call of
    [unregister_client], and calls it only on a connection for which one of
    its own sends has failed.  [view] reads the fields of [muma.py] off the
    server object. *)
Definition drops_for_cause {St A} (view : St → server) (m : M St A) : Prop :=
  ∀ s, retained (unregister_calls (trace_of (m s))) (view s) (view (state_of (m s))) ∧
       ∀ c, c ∈ unregister_calls (trace_of (m s)) →
            ∃ x e, SendFailed c x e ∈ trace_of (m s).

(** A registration as provider or controller comes from a connection that
    is still a viewer, as it is from its accept on unless a failed send took
    it out of the sets. *)
Definition registers_while_viewer (s : server) (o : op) : Prop :=
  match registration o with
  | Some (ws, client_type) =>
      py_eq client_type "provider" || py_eq client_type "controller" = true →
      ws ∈ screen_viewers s
  | None => True
  end.


(** * The page served at [/] *)

(** The script of [HTML_TEMPLATE], as far as it decides what the page sends
    to the server.  The variables of the script are the fields of [page];
    [socket_open] is [ws && ws.readyState === WebSocket.OPEN], and
    [reconnectAttempts] is a variable of [muma2.0.py] only.  What a handler
    reads from the DOM, the event and the clock is an argument of it: the
    coordinates are passed as [JSON.stringify] writes them, [now] is
    [Date.now()], [button] is [event.button], [down] is [event.deltaY > 0].
    A handler returns the page and the messages given to [ws.send], each as
    the value the server decodes. *)
Record page : Type := Page {
  clientType : string;
  isConnected : bool;
  socket_open : bool;
  lastClick : Z;
  reconnectAttempts : nat
}.

Definition set_lastClick (now : Z) (p : page) : page :=
  {| clientType := clientType p; isConnected := isConnected p;
     socket_open := socket_open p; lastClick := now;
     reconnectAttempts := reconnectAttempts p |}.

Definition set_reconnectAttempts (n : nat) (p : page) : page :=
  {| clientType := clientType p; isConnected := isConnected p;
     socket_open := socket_open p; lastClick := lastClick p;
     reconnectAttempts := n |}.

(** What the handlers are called with. *)
Inductive action : Type :=
  | Open
  | Click (x y : json) (now button : Z)
  | Wheel (x y : json) (down : bool)
  | Text (text : string)
  | Key (key : string)
  | Hotkey (keys : list string)
  | Screenshot
  | Heartbeat.

(** The object literals of the handlers. *)
Definition register_of (client_type : string) : json :=
  JObj [("type", JStr "register"); ("client_type", JStr client_type)]%string.

Definition mouse_button (event_type : string) (x y : json) (button : string) : json :=
  JObj [("type", JStr "mouse"); ("event_type", JStr event_type);
        ("x", x); ("y", y); ("button", JStr button)]%string.

Definition mouse_scroll (x y : json) (delta : Z) : json :=
  JObj [("type", JStr "mouse"); ("event_type", JStr "scroll");
        ("x", x); ("y", y); ("delta", JInt delta)]%string.

Definition keyboard_type (text : string) : json :=
  JObj [("type", JStr "keyboard"); ("event_type", JStr "type");
        ("text", JStr text)]%string.

Definition keyboard_key (key : string) : json :=
  JObj [("type", JStr "keyboard"); ("event_type", JStr "key");
        ("key", JStr key)]%string.

Definition keyboard_hotkey (keys : list string) : json :=
  JObj [("type", JStr "keyboard"); ("event_type", JStr "hotkey");
        ("keys", JArr (map JStr keys))]%string.

Definition get_screenshot_request : json := JObj [("type", JStr "get_screenshot")]%string.

Definition ping_request : json := JObj [("type", JStr "ping")]%string.

(** The script of [muma.py]. *)
Module Page.

Definition sendMessage (p : page) (message : json) : list json :=
  if socket_open p then [message] else [].

Definition onopen (p : page) : page * list json :=
  (p, sendMessage p (register_of (clientType p))).

Definition handleClick (p : page) (x y : json) (now button : Z) : page * list json :=
  if String.eqb (clientType p) "provider" then (p, [])
  else
    let sent :=
      if (now - lastClick p <? 300)%Z then
        sendMessage p (mouse_button "double_click" x y "left")
      else
        sendMessage p (mouse_button "click" x y (if (button =? 2)%Z then "right" else "left")) in
    (set_lastClick now p, sent).

Definition handleWheel (p : page) (x y : json) (down : bool) : page * list json :=
  if String.eqb (clientType p) "provider" then (p, [])
  else (p, sendMessage p (mouse_scroll x y (if down then (-3)%Z else 3%Z))).

(** [text] is [textInput.value]. *)
Definition sendText (p : page) (text : string) : page * list json :=
  if String.eqb (clientType p) "provider" then (p, [])
  else if negb (String.eqb text "") then (p, sendMessage p (keyboard_type text))
  else (p, []).

Definition sendKey (p : page) (key : string) : page * list json :=
  if String.eqb (clientType p) "provider" then (p, [])
  else (p, sendMessage p (keyboard_key key)).

Definition sendHotkey (p : page) (keys : list string) : page * list json :=
  if String.eqb (clientType p) "provider" then (p, [])
  else (p, sendMessage p (keyboard_hotkey keys)).

Definition takeScreenshot (p : page) : page * list json :=
  (p, sendMessage p get_screenshot_request).

(** The function that [setInterval] runs every 30 seconds. *)
Definition heartbeat (p : page) : page * list json :=
  if socket_open p then (p, sendMessage p ping_request) else (p, []).

Definition act (a : action) (p : page) : page * list json :=
  match a with
  | Open => onopen p
  | Click x y now button => handleClick p x y now button
  | Wheel x y down => handleWheel p x y down
  | Text text => sendText p text
  | Key key => sendKey p key
  | Hotkey keys => sendHotkey p keys
  | Screenshot => takeScreenshot p
  | Heartbeat => heartbeat p
  end.

End Page.

(** The script of [muma2.0.py]: the handlers of the controls also return
    while the page has no [register_ack] yet. *)
Module Page2.

Definition sendMessage (p : page) (message : json) : list json :=
  if socket_open p then [message] else [].

Definition onopen (p : page) : page * list json :=
  let p := set_reconnectAttempts 0 p in
  (p, sendMessage p (register_of (clientType p))).

Definition handleClick (p : page) (x y : json) (now button : Z) : page * list json :=
  if String.eqb (clientType p) "provider" || negb (isConnected p) then (p, [])
  else
    let sent :=
      if (now - lastClick p <? 300)%Z then
        sendMessage p (mouse_button "double_click" x y "left")
      else
        let button := if (button =? 2)%Z then "right" else "left" in
        sendMessage p (mouse_button "click" x y button) in
    (set_lastClick now p, sent).

Definition handleWheel (p : page) (x y : json) (down : bool) : page * list json :=
  if String.eqb (clientType p) "provider" || negb (isConnected p) then (p, [])
  else
    let delta := (if down then -3 else 3)%Z in
    (p, sendMessage p (mouse_scroll x y delta)).

(** [text] is [textInput.value.trim()]. *)
Definition sendText (p : page) (text : string) : page * list json :=
  if String.eqb (clientType p) "provider" || negb (isConnected p) then (p, [])
  else if negb (String.eqb text "") then (p, sendMessage p (keyboard_type text))
  else (p, []).

Definition sendKey (p : page) (key : string) : page * list json :=
  if String.eqb (clientType p) "provider" || negb (isConnected p) then (p, [])
  else (p, sendMessage p (keyboard_key key)).

Definition sendHotkey (p : page) (keys : list string) : page * list json :=
  if String.eqb (clientType p) "provider" || negb (isConnected p) then (p, [])
  else (p, sendMessage p (keyboard_hotkey keys)).

Definition takeScreenshot (p : page) : page * list json :=
  if negb (isConnected p) then (p, [])
  else (p, sendMessage p get_screenshot_request).

Definition heartbeat (p : page) : page * list json :=
  if socket_open p then (p, sendMessage p ping_request) else (p, []).

Definition act (a : action) (p : page) : page * list json :=
  match a with
  | Open => onopen p
  | Click x y now button => handleClick p x y now button
  | Wheel x y down => handleWheel p x y down
  | Text text => sendText p text
  | Key key => sendKey p key
  | Hotkey keys => sendHotkey p keys
  | Screenshot => takeScreenshot p
  | Heartbeat => heartbeat p
  end.

End Page2.

(** A mouse or keyboard event, by its [type]. *)
Definition is_control (data : list (string * json)) : bool :=
  py_eq (dict_get data "type" JNull) "mouse"
  || py_eq (dict_get data "type" JNull) "keyboard".

(** No string that the handler hands to the server as text, key, keys or
    coordinate holds a surrogate. *)
Definition plain (a : action) : bool :=
  match a with
  | Click x y _ _ => negb (existsb has_surrogate (shown x ++ shown y))
  | Wheel x y _ => negb (existsb has_surrogate (shown x ++ shown y))
  | Text text => negb (has_surrogate text)
  | Key key => negb (has_surrogate key)
  | Hotkey keys => negb (existsb has_surrogate keys)
  | _ => true
  end.

(** A page that shows the controls of a viewer. *)
Definition viewer_page : page := Page "viewer" true true 0%Z 0.

(** * Vocabulary of the proofs *)

(** [keeps R m]: the server object [m] ends with is related by [R] to the
    one it started with, whether [m] returns, raises or waits for good. *)
Definition keeps {St A} (R : relation St) (m : M St A) : Prop :=
  ∀ s, R s (state_of (m s)).

(** [settles m]: [m] returns or raises, it does not wait for good. *)
Definition settles {St A} (m : M St A) : Prop :=
  ∀ s, result_of (m s) ≠ Pending.

(** * Properties *)

(** ** Relations that a coroutine keeps *)

Section Keeps.
Context {St : Type} (R : relation St) `{!PreOrder R}.

Lemma keeps_ret {A} (a : A) : keeps R (ret a).
Proof. intros s. reflexivity. Qed.

Lemma keeps_raise {A} (e : exn) : keeps R (@raise St A e).
Proof. intros s. reflexivity. Qed.

Lemma keeps_pending {A} : keeps R (@pending St A).
Proof. intros s. reflexivity. Qed.

Lemma keeps_gets {A} (f : St → A) : keeps R (gets f).
Proof. intros s. reflexivity. Qed.

Lemma keeps_emit (ev : event) : keeps R (emit ev).
Proof. intros s. reflexivity. Qed.

Lemma keeps_print (l : line) : keeps R (print l).
Proof. apply keeps_emit. Qed.

Lemma keeps_print_text (l : line) (texts : list string) : keeps R (print_text l texts).
Proof.
  unfold print_text. destruct (existsb has_surrogate texts);
    [apply keeps_raise | apply keeps_print].
Qed.

Lemma keeps_modify (f : St → St) : (∀ s, R s (f s)) → keeps R (modify f).
Proof. intros Hf s. apply Hf. Qed.

Lemma keeps_bind {A B} (m : M St A) (k : A → M St B) :
  keeps R m → (∀ a, keeps R (k a)) → keeps R (bind m k).
Proof.
  intros Hm Hk s. specialize (Hm s). unfold bind, state_of in *.
  destruct (m s) as [[[a|e|] s1] t1]; simpl in *; [|done|done].
  specialize (Hk a s1). unfold state_of in Hk.
  destruct (k a s1) as [[r s2] t2]; simpl in *. by etrans.
Qed.

Lemma keeps_try_except {A} (m : M St A) (h : exn → M St A) :
  keeps R m → (∀ e, keeps R (h e)) → keeps R (try_except m h).
Proof.
  intros Hm Hh s. specialize (Hm s). unfold try_except, state_of in *.
  destruct (m s) as [[[a|e|] s1] t1]; simpl in *; [done| |done].
  specialize (Hh e s1). unfold state_of in Hh.
  destruct (h e s1) as [[r s2] t2]; simpl in *. by etrans.
Qed.

Lemma keeps_capture {A} (m : M St A) : keeps R m → keeps R (capture m).
Proof.
  intros Hm s. specialize (Hm s). unfold capture, state_of in *.
  by destruct (m s) as [[r s1] t1].
Qed.

Lemma keeps_during {A} (f : St → St) (m : M St A) :
  (∀ s, R s (f s)) → keeps R m → keeps R (during f m).
Proof.
  intros Hf Hm s. specialize (Hm s). unfold during, state_of in *.
  destruct (m s) as [[r s1] t1]; simpl in *. etrans; [exact Hm | apply Hf].
Qed.

Lemma keeps_await_send (o : awaited) (c : conn) (x : json) : keeps R (await_send o c x).
Proof.
  unfold await_send. destruct o.
  - apply keeps_emit.
  - apply keeps_bind; [apply keeps_emit | intros; apply keeps_raise].
  - apply keeps_pending.
Qed.

Lemma keeps_send (net : transport) (c : conn) (x : json) : keeps R (send net c x).
Proof. apply keeps_await_send. Qed.

Lemma keeps_for_each {A} (xs : list A) (body : A → M St unit) :
  (∀ x, keeps R (body x)) → keeps R (for_each xs body).
Proof.
  intros Hb. induction xs as [|x xs IH]; simpl.
  - apply keeps_ret.
  - apply keeps_bind; [apply Hb | intros; apply IH].
Qed.

Lemma keeps_for_fold {A B} (xs : list A) (acc : B) (body : B → A → M St B) :
  (∀ b x, keeps R (body b x)) → keeps R (for_fold xs acc body).
Proof.
  intros Hb. revert acc. induction xs as [|x xs IH]; intros acc; simpl.
  - apply keeps_ret.
  - apply keeps_bind; [apply Hb | intros; apply IH].
Qed.

Lemma keeps_run_tasks {A} (tasks : list (M St A)) :
  Forall (keeps R) tasks → keeps R (run_tasks tasks).
Proof.
  induction 1 as [|task tasks Ht _ IH]; simpl.
  - apply keeps_ret.
  - apply keeps_bind; [by apply keeps_capture|]. intros r.
    apply keeps_bind; [apply IH | intros; apply keeps_ret].
Qed.

Lemma keeps_gather {A} (tasks : list (M St A)) :
  Forall (keeps R) tasks → keeps R (gather tasks).
Proof.
  intros Ht. unfold gather. apply keeps_bind; [by apply keeps_run_tasks|].
  intros results. destruct (forallb finished results);
    [apply keeps_ret | apply keeps_pending].
Qed.
End Keeps.

(** Splits a goal [keeps R m] along the structure of [m], down to the
    calls and assignments, which [leaf] has to settle. *)
Ltac keeps_step leaf :=
  match goal with
  | |- keeps _ (ret _) => apply keeps_ret; exact _
  | |- keeps _ (raise _) => apply keeps_raise; exact _
  | |- keeps _ (gets _) => apply keeps_gets; exact _
  | |- keeps _ (print _) => apply keeps_print; exact _
  | |- keeps _ (print_text _ _) => apply keeps_print_text; exact _
  | |- keeps _ (emit _) => apply keeps_emit; exact _
  | |- keeps _ (send _ _ _) => apply keeps_send; exact _
  | |- keeps _ (await_send _ _ _) => apply keeps_await_send; exact _
  | |- keeps _ (bind _ _) => apply keeps_bind; [exact _| |intros ?]
  | |- keeps _ (try_except _ _) => apply keeps_try_except; [exact _| |intros ?]
  | |- keeps _ (for_each _ _) => apply keeps_for_each; [exact _|intros ?]
  | |- keeps _ (for_fold _ _ _) => apply keeps_for_fold; [exact _|intros ? ?]
  | |- keeps _ (if ?b then _ else _) => destruct b
  | |- keeps _ (match ?x with _ => _ end) => destruct x
  | |- keeps _ _ => leaf ()
  end.

Ltac keeps_auto leaf := repeat (keeps_step leaf).

Lemma keeps_of_state {St A} (R : relation St) (m : M St A) (f : St → St) :
  (∀ s, state_of (m s) = f s) → (∀ s, R s (f s)) → keeps R m.
Proof. intros Hm Hf s. rewrite Hm. apply Hf. Qed.

(** ** Coroutines that come back *)

Section Settles.
Context {St : Type}.

Lemma settles_ret {A} (a : A) : settles (@ret St A a).
Proof. by intros s. Qed.

Lemma settles_raise {A} (e : exn) : settles (@raise St A e).
Proof. by intros s. Qed.

Lemma settles_gets {A} (f : St → A) : settles (gets f).
Proof. by intros s. Qed.

Lemma settles_modify (f : St → St) : settles (modify f).
Proof. by intros s. Qed.

Lemma settles_emit (ev : event) : settles (@emit St ev).
Proof. by intros s. Qed.

Lemma settles_print (l : line) : settles (@print St l).
Proof. by intros s. Qed.

Lemma settles_print_text (l : line) (texts : list string) :
  settles (@print_text St l texts).
Proof. unfold print_text. by destruct (existsb has_surrogate texts). Qed.

Lemma settles_bind {A B} (m : M St A) (k : A → M St B) :
  settles m → (∀ a, settles (k a)) → settles (bind m k).
Proof.
  intros Hm Hk s. specialize (Hm s). unfold bind, result_of in *.
  destruct (m s) as [[[a|e|] s1] t1]; simpl in *; [|done|done].
  specialize (Hk a s1). unfold result_of in Hk.
  by destruct (k a s1) as [[r s2] t2].
Qed.

Lemma settles_try_except {A} (m : M St A) (h : exn → M St A) :
  settles m → (∀ e, settles (h e)) → settles (try_except m h).
Proof.
  intros Hm Hh s. specialize (Hm s). unfold try_except, result_of in *.
  destruct (m s) as [[[a|e|] s1] t1]; simpl in *; [done| |done].
  specialize (Hh e s1). unfold result_of in Hh.
  by destruct (h e s1) as [[r s2] t2].
Qed.

Lemma settles_during {A} (f : St → St) (m : M St A) : settles m → settles (during f m).
Proof.
  intros Hm s. specialize (Hm s). unfold during, result_of in *.
  by destruct (m s) as [[r s1] t1].
Qed.

Lemma settles_await_send (o : awaited) (c : conn) (x : json) :
  o ≠ Pends → settles (@await_send St o c x).
Proof. intros Ho s. by destruct o. Qed.

Lemma settles_send (net : transport) (c : conn) (x : json) : settles (@send St net c x).
Proof.
  apply settles_await_send. unfold outcome. by destruct (send_exn net c x).
Qed.

Lemma settles_for_each {A} (xs : list A) (body : A → M St unit) :
  (∀ x, settles (body x)) → settles (for_each xs body).
Proof.
  intros Hb. induction xs as [|x xs IH]; simpl.
  - apply settles_ret.
  - apply settles_bind; [apply Hb | intros; apply IH].
Qed.

Lemma settles_for_fold {A B} (xs : list A) (acc : B) (body : B → A → M St B) :
  (∀ b x, settles (body b x)) → settles (for_fold xs acc body).
Proof.
  intros Hb. revert acc. induction xs as [|x xs IH]; intros acc; simpl.
  - apply settles_ret.
  - apply settles_bind; [apply Hb | intros; apply IH].
Qed.

(** The results of tasks that come back are all there. *)
Lemma run_tasks_finished {A} (tasks : list (M St A)) s :
  Forall settles tasks →
  ∃ results, result_of (run_tasks tasks s) = Ok results ∧
             forallb finished results = true.
Proof.
  intros Ht. revert s. induction Ht as [|task tasks Ht _ IH]; intros s.
  - by exists [].
  - cbn [run_tasks]. unfold bind at 1, capture. specialize (Ht s).
    unfold result_of in *.
    destruct (task s) as [[r s1] t1]. simpl in Ht.
    destruct (IH s1) as (rs & Hrs & Hfin).
    unfold bind. destruct (run_tasks tasks s1) as [[r' s2] t2].
    simpl in Hrs. subst r'. exists (r :: rs). split; [done|].
    simpl. rewrite Hfin. by destruct r.
Qed.

Lemma settles_gather {A} (tasks : list (M St A)) :
  Forall settles tasks → settles (gather tasks).
Proof.
  intros Ht s. destruct (run_tasks_finished tasks s Ht) as (rs & Hrs & Hfin).
  unfold gather, bind, result_of in *.
  destruct (run_tasks tasks s) as [[r s1] t1]. simpl in Hrs. subst r.
  by rewrite Hfin.
Qed.
End Settles.

Ltac settles_step leaf :=
  match goal with
  | |- settles (ret _) => apply settles_ret
  | |- settles (raise _) => apply settles_raise
  | |- settles (gets _) => apply settles_gets
  | |- settles (modify _) => apply settles_modify
  | |- settles (print _) => apply settles_print
  | |- settles (print_text _ _) => apply settles_print_text
  | |- settles (emit _) => apply settles_emit
  | |- settles (send _ _ _) => apply settles_send
  | |- settles (bind _ _) => apply settles_bind; [|intros ?]
  | |- settles (try_except _ _) => apply settles_try_except; [|intros ?]
  | |- settles (for_each _ _) => apply settles_for_each; intros ?
  | |- settles (for_fold _ _ _) => apply settles_for_fold; intros ? ?
  | |- settles (if ?b then _ else _) => destruct b
  | |- settles (match ?x with _ => _ end) => destruct x
  | |- settles (let _ := _ in _) => cbv zeta
  | |- settles _ => leaf ()
  end.

Ltac settles_auto leaf := repeat (settles_step leaf).


#[local] Instance inv_kept_preorder (P : server → Prop) : PreOrder (inv_kept P).
Proof. split; unfold inv_kept; [intros s; tauto | intros s1 s2 s3; tauto]. Qed.

#[local] Instance roles_shrink_preorder : PreOrder roles_shrink.
Proof.
  split; unfold roles_shrink.
  - by intros s.
  - intros s1 s2 s3 (?&?&?) (?&?&?). repeat split; by etrans.
Qed.

#[local] Instance frame_kept_preorder : PreOrder frame_kept.
Proof.
  split; unfold frame_kept.
  - by intros s.
  - intros s1 s2 s3 [-> ->] [-> ->]. done.
Qed.

#[local] Instance frame_replaced_preorder : PreOrder frame_replaced.
Proof.
  split; unfold frame_replaced.
  - intros s. by left.
  - intros s1 s2 s3 [H12|H12] [H23|H23]; try (by right).
    + left. congruence.
    + right. by rewrite H23.
Qed.

#[local] Instance on2_preorder (R : relation server) `{!PreOrder R} : PreOrder (on2 R).
Proof.
  split; unfold on2.
  - intros s. reflexivity.
  - intros s1 s2 s3 ??. by etrans.
Qed.

(** ** The registry after [register_client] and [unregister_client] *)

Ltac run_coroutine :=
  unfold state_of, trace_of, result_of, bind, try_except, capture, send, await_send,
    outcome, print, emit, modify, gets, ret, raise in *; simpl in *.

Lemma register_client_state net ws client_type s :
  state_of (Muma.register_client net ws client_type s) = registered ws client_type s.
Proof.
  unfold Muma.register_client, registered.
  destruct (py_eq client_type "provider") eqn:Hp;
    [|destruct (py_eq client_type "controller") eqn:Hc];
    run_coroutine; rewrite ?Hp, ?Hc; simpl;
    destruct (py_eq client_type "viewer"); try done;
    destruct (current_screen_data s); try done;
    by destruct (send_exn net ws _).
Qed.

Lemma unregister_client_state ws s :
  state_of (Muma.unregister_client ws s) = unregistered ws s.
Proof. done. Qed.

Lemma register_client2_state net ws client_type (s : server2) :
  base (state_of (Muma2.register_client net ws client_type s))
  = registered ws client_type s.
Proof.
  unfold Muma2.register_client, registered.
  destruct (py_eq client_type "provider") eqn:Hp;
    [|destruct (py_eq client_type "controller") eqn:Hc];
    run_coroutine; rewrite ?Hp, ?Hc; simpl;
    destruct (py_eq client_type "viewer"); try done;
    destruct (current_screen_data s); try done;
    by destruct (send_exn net ws _).
Qed.

Lemma unregister_client2_state ws (s : server2) :
  state_of (Muma2.unregister_client ws s) = on_base (unregistered ws) s.
Proof. done. Qed.

(** ** Handlers keep what the registry operations keep *)

Lemma keeps_interfere (R : relation server) `{!PreOrder R} :
  (∀ ws s, R s (unregistered ws s)) →
  (∀ ws client_type s, R s (registered ws client_type s)) →
  ∀ ch s, R s (interfere ch s).
Proof. intros Hu Hr [[ws client_type|ws]|] s; simpl; [apply Hr | apply Hu | reflexivity]. Qed.

(** The relays, on a network whose changes [R] allows. *)
Section Relays.
Context (R : relation server) `{!PreOrder R}.
Variable nw : network.
Hypothesis R_unregistered : ∀ ws s, R s (unregistered ws s).
Hypothesis R_changes : ∀ c x s, R s (interfere (changes nw c x) s).

Lemma keeps_unregister_client ws : keeps R (Muma.unregister_client ws).
Proof. by apply (keeps_of_state R _ (unregistered ws)). Qed.

Lemma keeps_relay_send message target : keeps R (Muma.relay_send nw message target).
Proof.
  unfold Muma.relay_send. apply keeps_during; [exact _ | apply R_changes|].
  by apply keeps_await_send.
Qed.

Lemma keeps_visit targets_of message report used rest acc :
  keeps R (Muma.visit nw targets_of message report used rest acc).
Proof.
  revert acc. induction rest as [|target rest IH]; intros acc; cbn [Muma.visit];
    keeps_auto ltac:(fun _ => first [apply keeps_relay_send | apply IH]).
Qed.

Lemma keeps_send_all targets_of message report :
  keeps R (Muma.send_all nw targets_of message report).
Proof.
  unfold Muma.send_all. apply keeps_bind; [exact _ | by apply keeps_gets|].
  intros targets. apply keeps_visit.
Qed.

Lemma on2_count_sent (s : server2) : on2 R s (count_sent s).
Proof. unfold on2. simpl. reflexivity. Qed.

Lemma on2_count_received (s : server2) : on2 R s (count_received s).
Proof. unfold on2. simpl. reflexivity. Qed.

Lemma keeps_unregister_client2 ws : keeps (on2 R) (Muma2.unregister_client ws).
Proof. intros s. apply R_unregistered. Qed.

Lemma keeps_send_to_client client message :
  keeps (on2 R) (Muma2._send_to_client nw client message).
Proof.
  unfold Muma2._send_to_client.
  keeps_auto ltac:(fun _ =>
    apply keeps_during;
      [exact _ | intros s; unfold on2; apply R_changes
      | apply keeps_await_send; exact _]).
Qed.

Lemma keeps_collect_failed targets results report :
  keeps (on2 R) (Muma2.collect_failed targets results report).
Proof.
  unfold Muma2.collect_failed.
  keeps_auto ltac:(fun _ => apply keeps_modify; intros ?; apply on2_count_sent).
Qed.

Lemma keeps_gather_sends targets message :
  keeps (on2 R)
    (gather (map (λ c, Muma2._send_to_client nw c message) targets)).
Proof.
  apply keeps_gather; [exact _|]. apply Forall_map, Forall_forall.
  intros c _. apply keeps_send_to_client.
Qed.

Ltac keeps_call :=
  match goal with
  | |- keeps _ (gather _) => apply keeps_gather_sends
  | |- keeps _ (Muma2.collect_failed _ _ _) => apply keeps_collect_failed
  | |- keeps _ (Muma2.unregister_client _) => apply keeps_unregister_client2
  | |- keeps _ (let _ := _ in _) => cbv zeta
  end.

Lemma keeps_broadcast_to_viewers message :
  keeps (on2 R) (Muma2._broadcast_to_viewers nw message).
Proof. unfold Muma2._broadcast_to_viewers. keeps_auto ltac:(fun _ => keeps_call). Qed.

Lemma keeps_broadcast_to_providers message :
  keeps (on2 R) (Muma2._broadcast_to_providers nw message).
Proof. unfold Muma2._broadcast_to_providers. keeps_auto ltac:(fun _ => keeps_call). Qed.

End Relays.

(** The handlers that relay, on a transport whose changes [R] allows. *)
Section Relaying.
Context (R : relation server) `{!PreOrder R}.
Variable net : transport.
Hypothesis R_unregistered : ∀ ws s, R s (unregistered ws s).
Hypothesis R_meanwhile : ∀ c x s, R s (interfere (meanwhile net c x) s).
Hypothesis R_data : ∀ d s, R s (set_current_screen_data (Some d) s).
Hypothesis R_info : ∀ i s, R s (set_screen_info i s).

Lemma keeps_handle_control_event ws data :
  keeps R (Muma.handle_control_event net ws data).
Proof.
  unfold Muma.handle_control_event.
  keeps_auto ltac:(fun _ =>
    first [ by apply (keeps_send_all R net) | by apply keeps_unregister_client ]).
Qed.

Lemma keeps_handle_screen_data now data :
  keeps R (Muma.handle_screen_data net now data).
Proof.
  unfold Muma.handle_screen_data.
  keeps_auto ltac:(fun _ =>
    first [ by apply (keeps_send_all R net) | by apply keeps_unregister_client
          | apply keeps_modify; intros ?; solve [auto] ]).
Qed.

Lemma keeps_log_control_event data :
  keeps (on2 R) (Muma2.log_control_event data).
Proof.
  unfold Muma2.log_control_event.
  keeps_auto ltac:(fun _ => cbv zeta).
Qed.

Lemma keeps_handle_control_event2 ws data :
  keeps (on2 R) (Muma2.handle_control_event net ws data).
Proof.
  unfold Muma2.handle_control_event.
  keeps_auto ltac:(fun _ =>
    first [ by apply (keeps_broadcast_to_providers R net)
          | apply keeps_log_control_event ]).
Qed.

Lemma keeps_handle_screen_data2 now data :
  keeps (on2 R) (Muma2.handle_screen_data net now data).
Proof.
  unfold Muma2.handle_screen_data.
  keeps_auto ltac:(fun _ =>
    first [ by apply (keeps_broadcast_to_viewers R net)
          | apply keeps_modify; intros ?; first [apply R_data | apply R_info] ]).
Qed.

End Relaying.

Section Stable.
Context (R : relation server) `{!PreOrder R}.
Hypothesis R_unregistered : ∀ ws s, R s (unregistered ws s).
Hypothesis R_data : ∀ d s, R s (set_current_screen_data (Some d) s).
Hypothesis R_info : ∀ i s, R s (set_screen_info i s).
Hypothesis R_registered : ∀ ws client_type s, R s (registered ws client_type s).

Lemma R_interfere ch s : R s (interfere ch s).
Proof. by apply keeps_interfere. Qed.

Lemma keeps_register_client net ws client_type :
  keeps R (Muma.register_client net ws client_type).
Proof.
  apply (keeps_of_state R _ (registered ws client_type)); [|done].
  apply register_client_state.
Qed.

Lemma keeps_handle_client_message net now ws message :
  keeps R (Muma.handle_client_message net now ws message).
Proof.
  unfold Muma.handle_client_message.
  keeps_auto ltac:(fun _ =>
    first [ apply keeps_register_client
          | apply keeps_handle_screen_data;
              [exact _ | done | intros; apply R_interfere | done | done]
          | apply keeps_handle_control_event;
              [exact _ | done | intros; apply R_interfere] ]).
Qed.

Lemma keeps_perform net now o : keeps R (Muma.perform net now o).
Proof.
  destruct o; simpl;
    [apply keeps_register_client | by apply keeps_unregister_client
    | apply keeps_handle_client_message].
Qed.

Lemma keeps_run steps s : R s (Muma.run steps s).
Proof.
  revert s. induction steps as [|st steps IH]; intros s; simpl; [reflexivity|].
  etrans; [|apply IH]. apply keeps_perform.
Qed.

Lemma keeps_register_client2 net ws client_type :
  keeps (on2 R) (Muma2.register_client net ws client_type).
Proof. intros s. unfold on2. rewrite register_client2_state. apply R_registered. Qed.

Lemma keeps_handle_client_message2 net now ws message :
  keeps (on2 R) (Muma2.handle_client_message net now ws message).
Proof.
  unfold Muma2.handle_client_message.
  keeps_auto ltac:(fun _ =>
    first [ apply keeps_register_client2
          | apply keeps_handle_screen_data2;
              [exact _ | done | intros; apply R_interfere | done | done]
          | apply keeps_handle_control_event2;
              [exact _ | done | intros; apply R_interfere]
          | apply keeps_modify; intros ?;
              first [by apply on2_count_sent | by apply on2_count_received] ]).
Qed.

Lemma keeps_perform2 net now o : keeps (on2 R) (Muma2.perform net now o).
Proof.
  destruct o; simpl;
    [apply keeps_register_client2 | by apply keeps_unregister_client2
    | apply keeps_handle_client_message2].
Qed.

Lemma keeps_run2 steps s : on2 R s (Muma2.run steps s).
Proof.
  revert s. induction steps as [|st steps IH]; intros s; simpl; [reflexivity|].
  etrans; [|apply IH]. apply keeps_perform2.
Qed.
End Stable.

(** ** Set facts about [registered] and [unregistered] *)

Lemma registered_sets ws client_type s :
  clients (registered ws client_type s) = add ws (clients s) ∧
  screen_providers (registered ws client_type s)
    = (if py_eq client_type "provider" then add ws (screen_providers s)
       else screen_providers s) ∧
  control_clients (registered ws client_type s)
    = (if py_eq client_type "provider" then control_clients s
       else if py_eq client_type "controller" then add ws (control_clients s)
       else control_clients s) ∧
  screen_viewers (registered ws client_type s)
    = (if py_eq client_type "provider" then screen_viewers s
       else if py_eq client_type "controller" then screen_viewers s
       else add ws (screen_viewers s)).
Proof.
  unfold registered.
  destruct (py_eq client_type "provider"); [done|].
  by destruct (py_eq client_type "controller").
Qed.

Lemma registered_frame ws client_type s : frame_kept s (registered ws client_type s).
Proof.
  unfold registered, frame_kept.
  destruct (py_eq client_type "provider"); [done|].
  by destruct (py_eq client_type "controller").
Qed.

Lemma registered_roles_in_clients ws client_type s :
  inv_kept roles_in_clients s (registered ws client_type s).
Proof.
  unfold inv_kept, roles_in_clients, role_sets.
  destruct (registered_sets ws client_type s) as (-> & -> & -> & ->).
  unfold add.
  destruct (py_eq client_type "provider"); [set_solver|].
  destruct (py_eq client_type "controller"); set_solver.
Qed.

Lemma unregistered_roles_in_clients ws s :
  inv_kept roles_in_clients s (unregistered ws s).
Proof.
  unfold inv_kept, roles_in_clients, role_sets, unregistered, discard. simpl.
  set_solver.
Qed.

Lemma unregistered_shrink ws s : roles_shrink s (unregistered ws s).
Proof. unfold roles_shrink, unregistered, discard. simpl. set_solver. Qed.

Lemma frame_kept_replaced s s' : frame_kept s s' → frame_replaced s s'.
Proof. intros [? _]. by left. Qed.

Lemma shrink_exclusive s s' : roles_shrink s s' → exclusive s → exclusive s'.
Proof.
  intros (Hp & Hv & Hc) Hex c. specialize (Hex c).
  unfold at_most_one_role in *. set_solver.
Qed.

Lemma registered_exclusive ws client_type s :
  ws ∉ other_roles client_type s → exclusive s →
  exclusive (registered ws client_type s).
Proof.
  intros Hws Hex c. specialize (Hex c). unfold at_most_one_role, other_roles in *.
  destruct (registered_sets ws client_type s) as (_ & -> & -> & ->).
  unfold add.
  destruct (py_eq client_type "provider"); [set_solver|].
  destruct (py_eq client_type "controller"); set_solver.
Qed.

Lemma data_shrink d s : roles_shrink s (set_current_screen_data (Some d) s).
Proof. by unfold roles_shrink. Qed.

Lemma info_shrink i s : roles_shrink s (set_screen_info i s).
Proof. by unfold roles_shrink. Qed.

(** ** Operations that are no registration *)

(** An operation that is no registration keeps what unregistering, storing
    a frame and the changes of other handlers meanwhile keep. *)
Section Other.
Context (R : relation server) `{!PreOrder R}.
Variable net : transport.
Hypothesis R_unregistered : ∀ ws s, R s (unregistered ws s).
Hypothesis R_meanwhile : ∀ c x s, R s (interfere (meanwhile net c x) s).
Hypothesis R_data : ∀ d s, R s (set_current_screen_data (Some d) s).
Hypothesis R_info : ∀ i s, R s (set_screen_info i s).

Lemma perform_other_keeps now o s :
  registration o = None → R s (state_of (Muma.perform net now o s)).
Proof.
  destruct o as [ws client_type|ws|ws message]; simpl; [done| |].
  - intros _. apply R_unregistered.
  - intros Hreg. revert s.
    change (keeps R (Muma.handle_client_message net now ws message)).
    unfold Muma.handle_client_message.
    destruct message as [[]|]; simpl in Hreg;
      try destruct (py_eq _ "register") eqn:Hr; try discriminate;
      keeps_auto ltac:(fun _ =>
        first [ by apply keeps_handle_screen_data
              | by apply keeps_handle_control_event ]).
Qed.

Lemma perform2_other_keeps now o (s : server2) :
  registration o = None → on2 R s (state_of (Muma2.perform net now o s)).
Proof.
  destruct o as [ws client_type|ws|ws message]; simpl; [done| |].
  - intros _. apply R_unregistered.
  - intros Hreg. revert s.
    change (keeps (on2 R) (Muma2.handle_client_message net now ws message)).
    unfold Muma2.handle_client_message.
    destruct message as [[]|]; simpl in Hreg;
      try destruct (py_eq _ "register") eqn:Hr; try discriminate;
      keeps_auto ltac:(fun _ =>
        match goal with
        | |- keeps _ (Muma2.handle_screen_data _ _ _) =>
            by apply keeps_handle_screen_data2
        | |- keeps _ (Muma2.handle_control_event _ _ _) =>
            by apply keeps_handle_control_event2
        | |- keeps _ (modify count_sent) =>
            apply keeps_modify; intros ?; by apply on2_count_sent
        | |- keeps _ (modify count_received) =>
            apply keeps_modify; intros ?; by apply on2_count_received
        end).
Qed.

End Other.

Lemma interfere_shrink net :
  no_joins net → ∀ c x s, roles_shrink s (interfere (meanwhile net c x) s).
Proof.
  intros Hnet c x s. specialize (Hnet c x).
  destruct (meanwhile net c x) as [[ws client_type|ws]|]; simpl.
  - by destruct (Hnet ws client_type).
  - apply unregistered_shrink.
  - reflexivity.
Qed.

Lemma perform_other_shrinks net now o s :
  no_joins net → registration o = None →
  roles_shrink s (state_of (Muma.perform net now o s)).
Proof.
  intros Hnet. apply (perform_other_keeps roles_shrink);
    [apply unregistered_shrink | by apply interfere_shrink | apply data_shrink
    | apply info_shrink].
Qed.

Lemma perform2_other_shrinks net now o (s : server2) :
  no_joins net → registration o = None →
  on2 roles_shrink s (state_of (Muma2.perform net now o s)).
Proof.
  intros Hnet. apply (perform2_other_keeps roles_shrink);
    [apply unregistered_shrink | by apply interfere_shrink | apply data_shrink
    | apply info_shrink].
Qed.

Lemma perform_registration net now o ws client_type s :
  registration o = Some (ws, client_type) →
  state_of (Muma.perform net now o s) = registered ws client_type s.
Proof.
  destruct o as [ws' client_type'|ws'|ws' message]; simpl; [|done|].
  - intros [= -> ->]. apply register_client_state.
  - destruct message as [[]|]; try done.
    destruct (py_eq _ "register") eqn:Hr; [|done]. intros [= -> <-].
    unfold Muma.handle_client_message. rewrite Hr.
    rewrite <- (register_client_state net ws _ s).
    run_coroutine.
    destruct (Muma.register_client net ws _ s) as [[[[]|e|] s1] t1]; simpl;
      [|by destruct e|done].
    by destruct (send_exn net ws _) as [[]|].
Qed.

Lemma perform2_registration net now o ws client_type (s : server2) :
  registration o = Some (ws, client_type) →
  base (state_of (Muma2.perform net now o s)) = registered ws client_type s.
Proof.
  destruct o as [ws' client_type'|ws'|ws' message]; simpl; [|done|].
  - intros [= -> ->]. apply register_client2_state.
  - destruct message as [[]|]; try done.
    destruct (py_eq _ "register") eqn:Hr; [|done]. intros [= -> <-].
    unfold Muma2.handle_client_message. rewrite Hr.
    change (registered ws ?ct (base s)) with (registered ws ct (base (count_received s))).
    rewrite <- (register_client2_state net ws _ (count_received s)).
    run_coroutine.
    destruct (Muma2.register_client net ws _ (count_received s))
      as [[[[]|e|] s1] t1]; simpl; [|by destruct e|done].
    by destruct (send_exn net ws _) as [[]|].
Qed.

(** ** C1: role sets and the set of all connections *)

Lemma init_roles_in_clients : roles_in_clients init.
Proof. unfold roles_in_clients, role_sets. simpl. set_solver. Qed.

Lemma init_exclusive : exclusive init.
Proof. intros c. unfold at_most_one_role. simpl. set_solver. Qed.

Lemma data_roles_in_clients d s :
  inv_kept roles_in_clients s (set_current_screen_data (Some d) s).
Proof. by unfold inv_kept. Qed.

Lemma info_roles_in_clients i s : inv_kept roles_in_clients s (set_screen_info i s).
Proof. by unfold inv_kept. Qed.

Lemma run_roles_in_clients steps s :
  roles_in_clients s → roles_in_clients (Muma.run steps s).
Proof.
  apply (keeps_run (inv_kept roles_in_clients));
    [ apply unregistered_roles_in_clients | apply data_roles_in_clients
    | apply info_roles_in_clients | apply registered_roles_in_clients ].
Qed.

Lemma run2_roles_in_clients steps (s : server2) :
  roles_in_clients s → roles_in_clients (Muma2.run steps s).
Proof.
  apply (keeps_run2 (inv_kept roles_in_clients));
    [ apply unregistered_roles_in_clients | apply data_roles_in_clients
    | apply info_roles_in_clients | apply registered_roles_in_clients ].
Qed.

(** C1, as the code has it.  In every state that [register_client],
    [unregister_client] and [handle_client_message] can reach, in [muma.py]
    and in [muma2.0.py], a connection of a role set is in [clients].  A
    registration adds the connection to [clients] and to the role set its
    [client_type] selects and takes no connection out of any set.  So an
    operation keeps the role sets disjoint when it registers a connection
    that is in none of the other two role sets, or when it is no
    registration and no other handler registers a connection while it
    relays. *)
Theorem C1_roles_within_clients :
  (∀ steps, roles_in_clients (Muma.run steps init)) ∧
  (∀ steps start, roles_in_clients (Muma2.run steps (Muma2.init start))) ∧
  (∀ net now o (s : server2) ws client_type,
     registration o = Some (ws, client_type) →
     let s1 := state_of (Muma.perform net now o s) in
     let s2 := state_of (Muma2.perform net now o s) in
     (clients s1 = clients s ∪ {[ws]} ∧
      screen_providers s1
        = (if py_eq client_type "provider" then screen_providers s ∪ {[ws]}
           else screen_providers s) ∧
      control_clients s1
        = (if py_eq client_type "provider" then control_clients s
           else if py_eq client_type "controller" then control_clients s ∪ {[ws]}
           else control_clients s) ∧
      screen_viewers s1
        = (if py_eq client_type "provider" then screen_viewers s
           else if py_eq client_type "controller" then screen_viewers s
           else screen_viewers s ∪ {[ws]})) ∧
     (clients s2 = clients s ∪ {[ws]} ∧
      screen_providers s2
        = (if py_eq client_type "provider" then screen_providers s ∪ {[ws]}
           else screen_providers s) ∧
      control_clients s2
        = (if py_eq client_type "provider" then control_clients s
           else if py_eq client_type "controller" then control_clients s ∪ {[ws]}
           else control_clients s) ∧
      screen_viewers s2
        = (if py_eq client_type "provider" then screen_viewers s
           else if py_eq client_type "controller" then screen_viewers s
           else screen_viewers s ∪ {[ws]}))) ∧
  (∀ net now o (s : server2),
     exclusive s →
     (registration o = None → no_joins net) →
     (∀ ws client_type,
        registration o = Some (ws, client_type) → ws ∉ other_roles client_type s) →
     exclusive (state_of (Muma.perform net now o s)) ∧
     exclusive (state_of (Muma2.perform net now o s))).
Proof.
  split; [|split; [|split]].
  - intros steps. apply run_roles_in_clients, init_roles_in_clients.
  - intros steps start. apply run2_roles_in_clients, init_roles_in_clients.
  - intros net now o s ws client_type Hreg s1 s2. subst s1 s2.
    change (clients (state_of (Muma2.perform net now o s)))
      with (clients (base (state_of (Muma2.perform net now o s)))).
    change (screen_providers (state_of (Muma2.perform net now o s)))
      with (screen_providers (base (state_of (Muma2.perform net now o s)))).
    change (control_clients (state_of (Muma2.perform net now o s)))
      with (control_clients (base (state_of (Muma2.perform net now o s)))).
    change (screen_viewers (state_of (Muma2.perform net now o s)))
      with (screen_viewers (base (state_of (Muma2.perform net now o s)))).
    rewrite (perform2_registration _ _ _ _ _ _ Hreg),
      (perform_registration _ _ _ _ _ _ Hreg).
    by destruct (registered_sets ws client_type s) as (-> & -> & -> & ->).
  - intros net now o s Hex Hnet Hreg.
    destruct (registration o) as [[ws client_type]|] eqn:Ho.
    + rewrite (perform2_registration _ _ _ _ _ _ Ho),
        (perform_registration _ _ _ _ _ _ Ho).
      split; apply registered_exclusive; auto.
    + split.
      * eapply shrink_exclusive; [apply perform_other_shrinks; auto|done].
      * eapply shrink_exclusive; [|exact Hex].
        apply (perform2_other_shrinks net now o s); auto.
Qed.

Lemma C1_roles_within_clients_witness :
  screen_providers
    (state_of (Muma.perform net_up "0.0" (Register 1 (JStr "provider"))
                 (Muma2.init "0.0")))
  = screen_providers (Muma2.init "0.0") ∪ {[1]} ∧
  exclusive
    (state_of (Muma.perform net_up "0.0" (Register 1 (JStr "provider"))
                 (Muma2.init "0.0"))).
Proof.
  split.
  - apply (proj1 (proj2 (proj1
             (proj1 (proj2 (proj2 C1_roles_within_clients)) net_up "0.0"
                (Register 1 (JStr "provider")) (Muma2.init "0.0") 1 (JStr "provider")
                eq_refl)))).
  - apply (proj2 (proj2 (proj2 C1_roles_within_clients)) net_up "0.0"
             (Register 1 (JStr "provider")) (Muma2.init "0.0")).
    + exact init_exclusive.
    + discriminate.
    + intros ws client_type [= <- <-]. apply (bool_decide_unpack _). by vm_compute.
Defined.

(** C1 as stated fails: after a session is accepted and registers as
    provider, connection 1 is both a viewer and a provider. *)
Lemma C1_counterexample :
  ¬ at_most_one_role (Muma.run accept_then_provider init) 1 ∧
  ¬ at_most_one_role (Muma2.run accept_then_provider (Muma2.init "0.0")) 1.
Proof.
  split; intros (H & _ & _); apply H; split; by vm_compute.
Qed.


(** ** The handlers come back *)

Lemma transport_answers (net : transport) c x : awaiting net c x ≠ Pends.
Proof. simpl. unfold outcome. by destruct (send_exn net c x). Qed.

Section Comes_back.
Variable nw : network.
Hypothesis answers : ∀ c x, awaiting nw c x ≠ Pends.

Lemma settles_unregister_client ws : settles (Muma.unregister_client ws).
Proof. unfold Muma.unregister_client. settles_auto ltac:(fun _ => idtac). Qed.

Lemma settles_relay_send message target : settles (Muma.relay_send nw message target).
Proof. apply settles_during, settles_await_send, answers. Qed.

Lemma settles_visit targets_of message report used rest acc :
  settles (Muma.visit nw targets_of message report used rest acc).
Proof.
  revert acc. induction rest as [|target rest IH]; intros acc; simpl;
    settles_auto ltac:(fun _ =>
      first [ apply settles_relay_send | apply IH ]).
Qed.

Lemma settles_send_all targets_of message report :
  settles (Muma.send_all nw targets_of message report).
Proof.
  unfold Muma.send_all. apply settles_bind; [apply settles_gets|].
  intros targets. apply settles_visit.
Qed.

Lemma settles_unregister_client2 ws : settles (Muma2.unregister_client ws).
Proof. unfold Muma2.unregister_client. settles_auto ltac:(fun _ => idtac). Qed.

Lemma settles_send_to_client client message :
  settles (Muma2._send_to_client nw client message).
Proof.
  unfold Muma2._send_to_client.
  settles_auto ltac:(fun _ => apply settles_during, settles_await_send, answers).
Qed.

Lemma settles_collect_failed targets results report :
  settles (Muma2.collect_failed targets results report).
Proof. unfold Muma2.collect_failed. settles_auto ltac:(fun _ => idtac). Qed.

Lemma settles_gather_sends targets message :
  settles (gather (map (λ c, Muma2._send_to_client nw c message) targets)).
Proof.
  apply settles_gather, Forall_map, Forall_forall. intros c _.
  apply settles_send_to_client.
Qed.

Lemma settles_broadcast_to_viewers message :
  settles (Muma2._broadcast_to_viewers nw message).
Proof.
  unfold Muma2._broadcast_to_viewers.
  settles_auto ltac:(fun _ =>
    first [ apply settles_gather_sends | apply settles_collect_failed
          | apply settles_unregister_client2 ]).
Qed.

Lemma settles_broadcast_to_providers message :
  settles (Muma2._broadcast_to_providers nw message).
Proof.
  unfold Muma2._broadcast_to_providers.
  settles_auto ltac:(fun _ =>
    first [ apply settles_gather_sends | apply settles_collect_failed
          | apply settles_unregister_client2 ]).
Qed.
End Comes_back.

Lemma try_except_returns {St} (m : M St unit) (h : exn → M St unit) s :
  settles m → (∀ e s1, result_of (h e s1) = Ok tt) →
  result_of (try_except m h s) = Ok tt.
Proof.
  intros Hm Hh. specialize (Hm s). unfold try_except, result_of in *.
  destruct (m s) as [[[[]|e|] s1] t1]; [done| |done].
  specialize (Hh e s1). unfold result_of in Hh.
  by destruct (h e s1) as [[r s2] t2].
Qed.

Lemma settles_register_client net ws client_type :
  settles (Muma.register_client net ws client_type).
Proof. unfold Muma.register_client. settles_auto ltac:(fun _ => idtac). Qed.

Lemma settles_register_client2 net ws client_type :
  settles (Muma2.register_client net ws client_type).
Proof. unfold Muma2.register_client. settles_auto ltac:(fun _ => idtac). Qed.

Lemma settles_log_control_event data : settles (Muma2.log_control_event data).
Proof. unfold Muma2.log_control_event. settles_auto ltac:(fun _ => idtac). Qed.

Lemma handle_screen_data_returns net now data s :
  result_of (Muma.handle_screen_data net now data s) = Ok tt.
Proof.
  unfold Muma.handle_screen_data. apply try_except_returns; [|done].
  settles_auto ltac:(fun _ =>
    first [ apply settles_send_all, transport_answers
          | apply settles_unregister_client ]).
Qed.

Lemma handle_control_event_returns net ws data s :
  result_of (Muma.handle_control_event net ws data s) = Ok tt.
Proof.
  unfold Muma.handle_control_event. apply try_except_returns; [|done].
  settles_auto ltac:(fun _ =>
    first [ apply settles_send_all, transport_answers
          | apply settles_unregister_client ]).
Qed.

Lemma handle_screen_data2_returns net now data (s : server2) :
  result_of (Muma2.handle_screen_data net now data s) = Ok tt.
Proof.
  unfold Muma2.handle_screen_data. apply try_except_returns; [|done].
  settles_auto ltac:(fun _ =>
    apply settles_broadcast_to_viewers, transport_answers).
Qed.

Lemma handle_control_event2_returns net ws data (s : server2) :
  result_of (Muma2.handle_control_event net ws data s) = Ok tt.
Proof.
  unfold Muma2.handle_control_event. apply try_except_returns; [|done].
  settles_auto ltac:(fun _ =>
    first [ apply settles_log_control_event
          | apply settles_broadcast_to_providers, transport_answers ]).
Qed.

Lemma settles_of_returns {St} (m : M St unit) :
  (∀ s, result_of (m s) = Ok tt) → settles m.
Proof. intros Hm s. by rewrite Hm. Qed.

Lemma handle_client_message_returns net now ws message s :
  result_of (Muma.handle_client_message net now ws message s) = Ok tt.
Proof.
  unfold Muma.handle_client_message. apply try_except_returns; [|by intros []].
  settles_auto ltac:(fun _ =>
    first [ apply settles_register_client
          | apply settles_of_returns, handle_screen_data_returns
          | apply settles_of_returns, handle_control_event_returns ]).
Qed.

Lemma handle_client_message2_returns net now ws message (s : server2) :
  result_of (Muma2.handle_client_message net now ws message s) = Ok tt.
Proof.
  unfold Muma2.handle_client_message. apply try_except_returns; [|by intros []].
  settles_auto ltac:(fun _ =>
    first [ apply settles_register_client2
          | apply settles_of_returns, handle_screen_data2_returns
          | apply settles_of_returns, handle_control_event2_returns ]).
Qed.

(** A handler that returns is its own [try: ... except] block. *)
Lemma try_except_same {St} (m : M St unit) (h : exn → M St unit) s :
  result_of (m s) = Ok tt → try_except m h s = m s.
Proof.
  unfold try_except, result_of. by destruct (m s) as [[[[]|e|] s1] t1].
Qed.

(** ** C8: unregistering twice *)

Lemma discard_twice ws (X : gset conn) : discard ws (discard ws X) = discard ws X.
Proof. unfold discard. set_solver. Qed.

Lemma server_eq (s s' : server) :
  clients s = clients s' → screen_providers s = screen_providers s' →
  screen_viewers s = screen_viewers s' → control_clients s = control_clients s' →
  running s = running s' → current_screen_data s = current_screen_data s' →
  screen_info s = screen_info s' → s = s'.
Proof. destruct s, s'. simpl. by intros -> -> -> -> -> -> ->. Qed.

Lemma unregistered_fields ws s :
  clients (unregistered ws s) = discard ws (clients s) ∧
  screen_providers (unregistered ws s) = discard ws (screen_providers s) ∧
  screen_viewers (unregistered ws s) = discard ws (screen_viewers s) ∧
  control_clients (unregistered ws s) = discard ws (control_clients s) ∧
  running (unregistered ws s) = running s ∧
  current_screen_data (unregistered ws s) = current_screen_data s ∧
  screen_info (unregistered ws s) = screen_info s.
Proof. by repeat split. Qed.

Lemma unregistered_twice ws s : unregistered ws (unregistered ws s) = unregistered ws s.
Proof.
  destruct (unregistered_fields ws (unregistered ws s))
    as (Hc & Hp & Hv & Hk & Hr & Hd & Hi).
  apply server_eq; try done.
  - rewrite Hc. destruct (unregistered_fields ws s) as (-> & _). apply discard_twice.
  - rewrite Hp. destruct (unregistered_fields ws s) as (_ & -> & _).
    apply discard_twice.
  - rewrite Hv. destruct (unregistered_fields ws s) as (_ & _ & -> & _).
    apply discard_twice.
  - rewrite Hk. destruct (unregistered_fields ws s) as (_ & _ & _ & -> & _).
    apply discard_twice.
Qed.

(** C8.  [unregister_client] returns for every server object and every
    connection, registered or not, and a second call in a row returns as
    well and leaves the server object, and so every count of the status, as
    the first call left it. *)
Theorem C8_unregister_idempotent :
  (∀ ws (s : server),
     let once := Muma.unregister_client ws s in
     let twice := Muma.unregister_client ws (state_of once) in
     result_of once = Ok tt ∧ result_of twice = Ok tt ∧
     state_of twice = state_of once ∧
     get_server_status (state_of twice) = get_server_status (state_of once)) ∧
  (∀ ws (s : server2),
     let once := Muma2.unregister_client ws s in
     let twice := Muma2.unregister_client ws (state_of once) in
     result_of once = Ok tt ∧ result_of twice = Ok tt ∧
     state_of twice = state_of once ∧
     Muma2.get_server_status (state_of twice)
       = Muma2.get_server_status (state_of once)).
Proof.
  split; intros ws s once twice; subst once twice.
  - rewrite !unregister_client_state, unregistered_twice. by repeat split.
  - rewrite !unregister_client2_state. unfold on_base. simpl.
    rewrite unregistered_twice. by repeat split.
Qed.

(** ** C5: the cached frame is never cleared *)

Lemma data_replaced d s : frame_replaced s (set_current_screen_data (Some d) s).
Proof. right. by eexists. Qed.

Lemma info_replaced i s : frame_replaced s (set_screen_info i s).
Proof. by left. Qed.

Lemma unregistered_frame ws s : frame_kept s (unregistered ws s).
Proof. by unfold frame_kept. Qed.

Lemma replaced_has_screen_data s s' :
  frame_replaced s s' →
  has_screen_data (get_server_status s) = true →
  has_screen_data (get_server_status s') = true.
Proof.
  unfold get_server_status. simpl. intros [->|[d ->]]; [done|]. by intros _.
Qed.

(** C5.  Every operation of either server leaves [current_screen_data] as
    it was or sets it to a record, so once [has_screen_data] is true it is
    true after every further sequence of operations. *)
Theorem C5_frame_never_cleared :
  (∀ net now o (s : server2),
     frame_replaced s (state_of (Muma.perform net now o s)) ∧
     frame_replaced s (state_of (Muma2.perform net now o s))) ∧
  (∀ steps (s : server2),
     has_screen_data (get_server_status s) = true →
     has_screen_data (get_server_status (Muma.run steps s)) = true ∧
     has_screen_data (Muma2.get_server_status (Muma2.run steps s)).1.1 = true).
Proof.
  split.
  - intros net now o s. split.
    + apply (keeps_perform frame_replaced); intros;
        first [ apply data_replaced | apply info_replaced
              | apply frame_kept_replaced, unregistered_frame
              | apply frame_kept_replaced, registered_frame ].
    + apply (keeps_perform2 frame_replaced); intros;
        first [ apply data_replaced | apply info_replaced
              | apply frame_kept_replaced, unregistered_frame
              | apply frame_kept_replaced, registered_frame ].
  - intros steps s Hs. split.
    + eapply replaced_has_screen_data; [|exact Hs].
      apply (keeps_run frame_replaced); intros;
        first [ apply data_replaced | apply info_replaced
              | apply frame_kept_replaced, unregistered_frame
              | apply frame_kept_replaced, registered_frame ].
    + simpl. eapply replaced_has_screen_data; [|exact Hs].
      apply (keeps_run2 frame_replaced); intros;
        first [ apply data_replaced | apply info_replaced
              | apply frame_kept_replaced, unregistered_frame
              | apply frame_kept_replaced, registered_frame ].
Qed.


(** ** C6: [get_screenshot] *)

Lemma attempted_app t1 t2 : attempted (t1 ++ t2) = attempted t1 ++ attempted t2.
Proof. apply omap_app. Qed.

Lemma delivered_app t1 t2 : delivered (t1 ++ t2) = delivered t1 ++ delivered t2.
Proof. apply omap_app. Qed.

Lemma unregister_calls_app t1 t2 :
  unregister_calls (t1 ++ t2) = unregister_calls t1 ++ unregister_calls t2.
Proof. apply omap_app. Qed.

Lemma get_screenshot_run net now ws data s :
  dict_get data "type" JNull = JStr "get_screenshot" →
  let r := Muma.handle_client_message net now ws (Some (JObj data)) s in
  result_of r = Ok tt ∧ state_of r = s ∧
  attempted (trace_of r) = [(ws, default error_record (current_screen_data s))] ∧
  unregister_calls (trace_of r) = [].
Proof.
  intros Hty. unfold Muma.handle_client_message. rewrite Hty. simpl.
  run_coroutine.
  destruct (current_screen_data s) as [d|]; simpl;
    destruct (send_exn net ws _) as [[]|]; done.
Qed.

Lemma get_screenshot2_run net now ws data (s : server2) :
  dict_get data "type" JNull = JStr "get_screenshot" →
  let r := Muma2.handle_client_message net now ws (Some (JObj data)) s in
  result_of r = Ok tt ∧ base (state_of r) = base s ∧
  attempted (trace_of r) = [(ws, default error_record (current_screen_data s))] ∧
  unregister_calls (trace_of r) = [].
Proof.
  intros Hty. unfold Muma2.handle_client_message. rewrite Hty. simpl.
  run_coroutine.
  destruct (current_screen_data s) as [d|]; simpl;
    destruct (send_exn net ws _) as [[]|]; done.
Qed.

Lemma interfere_frame ch s : frame_kept s (interfere ch s).
Proof.
  destruct ch as [[ws client_type|ws]|]; simpl;
    [apply registered_frame | apply unregistered_frame | reflexivity].
Qed.

Lemma perform_other_frame net now o s :
  frame_submission o = false → frame_kept s (state_of (Muma.perform net now o s)).
Proof.
  destruct o as [ws client_type|ws|ws message]; simpl.
  - intros _. rewrite register_client_state. apply registered_frame.
  - intros _. apply unregistered_frame.
  - intros Hfs. revert s.
    change (keeps frame_kept (Muma.handle_client_message net now ws message)).
    unfold Muma.handle_client_message.
    destruct message as [[]|]; simpl in Hfs;
      try destruct (py_eq _ "register") eqn:Hr; simpl in Hfs; try rewrite Hfs;
      keeps_auto ltac:(fun _ =>
        match goal with
        | |- keeps _ (Muma.register_client _ _ _) =>
            apply keeps_register_client; apply registered_frame
        | |- keeps _ (Muma.handle_control_event _ _ _) =>
            apply keeps_handle_control_event;
              first [ exact _ | apply unregistered_frame
                    | intros; apply interfere_frame ]
        end).
Qed.

Lemma perform2_other_frame net now o (s : server2) :
  frame_submission o = false →
  on2 frame_kept s (state_of (Muma2.perform net now o s)).
Proof.
  destruct o as [ws client_type|ws|ws message]; simpl.
  - intros _. unfold on2. rewrite register_client2_state. apply registered_frame.
  - intros _. apply unregistered_frame.
  - intros Hfs. revert s.
    change (keeps (on2 frame_kept) (Muma2.handle_client_message net now ws message)).
    unfold Muma2.handle_client_message.
    destruct message as [[]|]; simpl in Hfs;
      try destruct (py_eq _ "register") eqn:Hr; simpl in Hfs; try rewrite Hfs;
      keeps_auto ltac:(fun _ =>
        match goal with
        | |- keeps _ (Muma2.register_client _ _ _) =>
            apply keeps_register_client2; apply registered_frame
        | |- keeps _ (Muma2.handle_control_event _ _ _) =>
            apply keeps_handle_control_event2;
              first [ exact _ | apply unregistered_frame
                    | intros; apply interfere_frame ]
        | |- keeps _ (modify count_sent) =>
            apply keeps_modify; intros ?; apply on2_count_sent; exact _
        | |- keeps _ (modify count_received) =>
            apply keeps_modify; intros ?; apply on2_count_received; exact _
        end).
Qed.

Lemma run_no_frame steps s :
  Forall (λ st, frame_submission (step_op st) = false) steps →
  frame_kept s (Muma.run steps s).
Proof.
  intros Hsteps. revert s.
  induction Hsteps as [|st steps Hst _ IH]; intros s; simpl; [reflexivity|].
  etrans; [|apply IH]. by apply perform_other_frame.
Qed.

Lemma run2_no_frame steps (s : server2) :
  Forall (λ st, frame_submission (step_op st) = false) steps →
  on2 frame_kept s (Muma2.run steps s).
Proof.
  intros Hsteps. revert s.
  induction Hsteps as [|st steps Hst _ IH]; intros s; simpl; [reflexivity|].
  etrans; [|apply IH]. by apply perform2_other_frame.
Qed.

Lemma state_try_modify {St A} (f : St → St) (m : M St A) (h : exn → M St A) s :
  state_of (try_except (modify f >> m) h s) = state_of (try_except m h (f s)).
Proof.
  run_coroutine. destruct (m (f s)) as [[[a|e|] s1] t1]; simpl; [done| |done].
  by destruct (h e s1) as [[r s2] t2].
Qed.

Lemma handle_screen_data_frame net now data s :
  let s' := state_of (Muma.handle_screen_data net now data s) in
  current_screen_data s' = Some (screenshot_record data now) ∧
  screen_info s' = screen_info_of data.
Proof.
  cbv zeta. unfold Muma.handle_screen_data. rewrite !state_try_modify.
  match goal with
  | |- context [try_except ?m ?h ?s0] =>
      assert (keeps frame_kept (try_except m h)) as Hk
  end.
  { keeps_auto ltac:(fun _ =>
      first [ apply keeps_send_all;
                first [ exact _ | intros; apply interfere_frame ]
            | apply keeps_unregister_client; apply unregistered_frame ]). }
  by destruct (Hk (set_screen_info (screen_info_of data)
    (set_current_screen_data (Some (screenshot_record data now)) s))) as [-> ->].
Qed.

Lemma handle_screen_data2_frame net now data (s : server2) :
  let s' := state_of (Muma2.handle_screen_data net now data s) in
  current_screen_data s' = Some (screenshot_record data now) ∧
  screen_info s' = screen_info_of data.
Proof.
  cbv zeta. unfold Muma2.handle_screen_data. rewrite !state_try_modify.
  match goal with
  | |- context [try_except ?m ?h ?s0] =>
      assert (keeps (on2 frame_kept) (try_except m h)) as Hk
  end.
  { keeps_auto ltac:(fun _ =>
      apply keeps_broadcast_to_viewers;
        first [ exact _ | apply unregistered_frame
              | intros; apply interfere_frame ]). }
  by destruct (Hk (on_base (set_screen_info (screen_info_of data))
    (on_base (set_current_screen_data (Some (screenshot_record data now))) s)))
    as [-> ->].
Qed.

(** A message with [type] [screen_data] is what [handle_screen_data] makes
    of it, a [mouse] or [keyboard] message what [handle_control_event]
    does. *)
Lemma dispatch_screen_data net now ws data s :
  dict_get data "type" JNull = JStr "screen_data" →
  Muma.handle_client_message net now ws (Some (JObj data)) s
  = Muma.handle_screen_data net now data s.
Proof.
  intros Hty. unfold Muma.handle_client_message. rewrite Hty. simpl.
  apply try_except_same, handle_screen_data_returns.
Qed.

Lemma dispatch2_screen_data net now ws data (s : server2) :
  dict_get data "type" JNull = JStr "screen_data" →
  Muma2.handle_client_message net now ws (Some (JObj data)) s
  = Muma2.handle_screen_data net now data (count_received s).
Proof.
  intros Hty. unfold Muma2.handle_client_message. rewrite Hty. simpl.
  pose proof (handle_screen_data2_returns net now data (count_received s)) as Hr.
  unfold result_of in Hr. unfold try_except at 1, bind, modify.
  by destruct (Muma2.handle_screen_data net now data (count_received s))
    as [[[[]|e|] s1] t1].
Qed.

Lemma dispatch_control_event net now ws data s :
  dict_get data "type" JNull = JStr "mouse"
  ∨ dict_get data "type" JNull = JStr "keyboard" →
  Muma.handle_client_message net now ws (Some (JObj data)) s
  = Muma.handle_control_event net ws data s.
Proof.
  intros Hty. unfold Muma.handle_client_message.
  replace (py_eq (dict_get data "type" JNull) "register") with false
    by (by destruct Hty as [-> | ->]).
  replace (py_eq (dict_get data "type" JNull) "screen_data") with false
    by (by destruct Hty as [-> | ->]).
  replace (py_eq (dict_get data "type" JNull) "mouse"
           || py_eq (dict_get data "type" JNull) "keyboard") with true
    by (by destruct Hty as [-> | ->]).
  apply try_except_same, handle_control_event_returns.
Qed.

Lemma dispatch2_control_event net now ws data (s : server2) :
  dict_get data "type" JNull = JStr "mouse"
  ∨ dict_get data "type" JNull = JStr "keyboard" →
  Muma2.handle_client_message net now ws (Some (JObj data)) s
  = Muma2.handle_control_event net ws data (count_received s).
Proof.
  intros Hty. unfold Muma2.handle_client_message.
  replace (py_eq (dict_get data "type" JNull) "register") with false
    by (by destruct Hty as [-> | ->]).
  replace (py_eq (dict_get data "type" JNull) "screen_data") with false
    by (by destruct Hty as [-> | ->]).
  replace (py_eq (dict_get data "type" JNull) "mouse"
           || py_eq (dict_get data "type" JNull) "keyboard") with true
    by (by destruct Hty as [-> | ->]).
  pose proof (handle_control_event2_returns net ws data (count_received s)) as Hr.
  unfold result_of in Hr. unfold try_except at 1, bind, modify.
  by destruct (Muma2.handle_control_event net ws data (count_received s))
    as [[[[]|e|] s1] t1].
Qed.

Lemma py_eq_true x lit : py_eq x lit = true → x = JStr lit.
Proof.
  destruct x; simpl; try done. intros H. by apply String.eqb_eq in H as ->.
Qed.

Lemma frame_kept_matches s s' :
  frame_kept s s' → frame_matches_info s → frame_matches_info s'.
Proof. unfold frame_matches_info. by intros [-> ->]. Qed.

Lemma perform_matches net now o s :
  frame_matches_info s → frame_matches_info (state_of (Muma.perform net now o s)).
Proof.
  destruct (frame_submission o) eqn:Hfs.
  - intros _. destruct o as [| |ws [[]|]]; try done. simpl in Hfs.
    apply andb_true_iff in Hfs as [_ Hty%py_eq_true].
    cbn [Muma.perform]. rewrite dispatch_screen_data by done.
    destruct (handle_screen_data_frame net now items s) as [Hd Hi].
    unfold frame_matches_info. rewrite Hd, Hi. by do 2 eexists.
  - apply frame_kept_matches. by apply perform_other_frame.
Qed.

Lemma perform2_matches net now o (s : server2) :
  frame_matches_info s → frame_matches_info (state_of (Muma2.perform net now o s)).
Proof.
  destruct (frame_submission o) eqn:Hfs.
  - intros _. destruct o as [| |ws [[]|]]; try done. simpl in Hfs.
    apply andb_true_iff in Hfs as [_ Hty%py_eq_true].
    cbn [Muma2.perform]. rewrite dispatch2_screen_data by done.
    destruct (handle_screen_data2_frame net now items (count_received s)) as [Hd Hi].
    unfold frame_matches_info. rewrite Hd, Hi. by do 2 eexists.
  - apply frame_kept_matches. by apply (perform2_other_frame net now o s).
Qed.

Lemma run_matches steps s :
  frame_matches_info s → frame_matches_info (Muma.run steps s).
Proof.
  revert s. induction steps as [|st steps IH]; intros s Hs; [done|].
  simpl. apply IH. by apply perform_matches.
Qed.

Lemma run2_matches steps (s : server2) :
  frame_matches_info s → frame_matches_info (Muma2.run steps s).
Proof.
  revert s. induction steps as [|st steps IH]; intros s Hs; [done|].
  simpl. apply IH. by apply perform2_matches.
Qed.

Lemma matches_cached s d :
  frame_matches_info s → current_screen_data s = Some d →
  ∃ data now, d = screenshot_record data now.
Proof.
  unfold frame_matches_info. intros Hs Hd. rewrite Hd in Hs.
  destruct Hs as (data & now & -> & _). by do 2 eexists.
Qed.

(** C6.  As long as no operation has handed a frame to [handle_screen_data],
    [current_screen_data] is [None]; whenever it is not [None], in a state
    the operations reach, it is a record of [type] [screenshot] built by
    [handle_screen_data] from a message and the clock.  A [get_screenshot]
    message makes the server try exactly one send, to the sender: of the
    record [{type: error, message: 当前没有可用的屏幕数据}] when
    [current_screen_data] is [None], and of the cached record otherwise.
    Whether or not that send arrives, the server object is left as it was
    and [unregister_client] is not called. *)
Theorem C6_get_screenshot_reply :
  (∀ steps start,
     Forall (λ st, frame_submission (step_op st) = false) steps →
     current_screen_data (Muma.run steps init) = None ∧
     current_screen_data (Muma2.run steps (Muma2.init start)) = None) ∧
  (∀ steps start d,
     current_screen_data (Muma.run steps init) = Some d
     ∨ current_screen_data (Muma2.run steps (Muma2.init start)) = Some d →
     ∃ data now,
       d = JObj [("type", JStr "screenshot");
                 ("data", dict_get data "data" JNull);
                 ("width", dict_get data "width" (JInt 0));
                 ("height", dict_get data "height" (JInt 0));
                 ("original_width", dict_get data "original_width" (JInt 0));
                 ("original_height", dict_get data "original_height" (JInt 0));
                 ("timestamp", JFloat now)]%string) ∧
  (∀ net now ws data (s : server2),
     dict_get data "type" JNull = JStr "get_screenshot" →
     let r1 := Muma.handle_client_message net now ws (Some (JObj data)) s in
     let r2 := Muma2.handle_client_message net now ws (Some (JObj data)) s in
     let reply :=
       match current_screen_data s with
       | None =>
           JObj [("type", JStr "error");
                 ("message", JStr "当前没有可用的屏幕数据")]%string
       | Some d => d
       end in
     attempted (trace_of r1) = [(ws, reply)] ∧
     attempted (trace_of r2) = [(ws, reply)] ∧
     state_of r1 = base s ∧ base (state_of r2) = base s ∧
     unregister_calls (trace_of r1) = [] ∧ unregister_calls (trace_of r2) = []).
Proof.
  split; [|split].
  - intros steps start Hsteps. split.
    + by destruct (run_no_frame steps init Hsteps) as [-> _].
    + by destruct (run2_no_frame steps (Muma2.init start) Hsteps) as [-> _].
  - intros steps start d [Hd|Hd].
    + eapply matches_cached; [|exact Hd]. by apply run_matches.
    + eapply matches_cached; [|exact Hd]. by apply run2_matches.
  - intros net now ws data s Hty r1 r2 reply. subst r1 r2.
    destruct (get_screenshot_run net now ws data s Hty) as (_ & -> & -> & ->).
    destruct (get_screenshot2_run net now ws data s Hty) as (_ & -> & -> & ->).
    subst reply. by destruct (current_screen_data s).
Qed.

Lemma C6_get_screenshot_reply_witness :
  current_screen_data (Muma.run [Step net_up "0.0" (Accept 1)] init) = None ∧
  attempted
    (trace_of (Muma.handle_client_message net_up "0.0" 1
                 (Some (JObj get_screenshot_message)) (Muma2.init "0.0")))
  = [(1, JObj [("type", JStr "error");
               ("message", JStr "当前没有可用的屏幕数据")]%string)].
Proof.
  split.
  - apply (proj1 C6_get_screenshot_reply [Step net_up "0.0" (Accept 1)] "0.0").
    repeat constructor.
  - apply (proj2 (proj2 C6_get_screenshot_reply) net_up "0.0" 1
             get_screenshot_message (Muma2.init "0.0")).
    reflexivity.
Defined.

(** ** C7: the last frame wins *)




(** ** C10 and C2: registration messages *)

Lemma register_client_run net ws client_type s :
  let r := Muma.register_client net ws client_type s in
  result_of r = Ok tt ∧ state_of r = registered ws client_type s ∧
  attempted (trace_of r)
    = (if py_eq client_type "viewer"
       then match current_screen_data s with Some d => [(ws, d)] | None => [] end
       else []) ∧
  unregister_calls (trace_of r) = [].
Proof.
  cbv zeta. rewrite register_client_state.
  unfold Muma.register_client, registered.
  destruct (py_eq client_type "provider") eqn:Hp;
    [|destruct (py_eq client_type "controller") eqn:Hc];
    run_coroutine; rewrite ?Hp, ?Hc; simpl;
    destruct (py_eq client_type "viewer"); try done;
    destruct (current_screen_data s); try done;
    by destruct (send_exn net ws _).
Qed.

Lemma register_client2_run net ws client_type (s : server2) :
  let r := Muma2.register_client net ws client_type s in
  result_of r = Ok tt ∧ base (state_of r) = registered ws client_type s ∧
  attempted (trace_of r)
    = (if py_eq client_type "viewer"
       then match current_screen_data s with Some d => [(ws, d)] | None => [] end
       else []) ∧
  unregister_calls (trace_of r) = [].
Proof.
  cbv zeta. rewrite register_client2_state.
  unfold Muma2.register_client, registered.
  destruct (py_eq client_type "provider") eqn:Hp;
    [|destruct (py_eq client_type "controller") eqn:Hc];
    run_coroutine; rewrite ?Hp, ?Hc; simpl;
    destruct (py_eq client_type "viewer"); try done;
    destruct (current_screen_data s); try done;
    by destruct (send_exn net ws _).
Qed.

Lemma register_message_run net now ws data s :
  dict_get data "type" JNull = JStr "register" →
  let client_type := dict_get data "client_type" (JStr "viewer") in
  let r := Muma.handle_client_message net now ws (Some (JObj data)) s in
  result_of r = Ok tt ∧ state_of r = registered ws client_type s ∧
  attempted (trace_of r)
    = attempted (trace_of (Muma.register_client net ws client_type s))
      ++ [(ws, register_ack client_type (screen_info s))].
Proof.
  intros Hty client_type. cbv zeta.
  destruct (register_client_run net ws client_type s) as (Hres & Hst & _).
  assert (screen_info (registered ws client_type s) = screen_info s)
    as Hinfo by apply registered_frame.
  unfold Muma.handle_client_message. rewrite Hty. simpl. fold client_type.
  run_coroutine.
  destruct (Muma.register_client net ws client_type s) as [[r s1] t1].
  simpl in *. subst r s1. rewrite Hinfo.
  destruct (send_exn net ws _) as [[]|]; simpl;
    rewrite ?attempted_app; simpl; by rewrite ?app_nil_r.
Qed.

Lemma register_message2_run net now ws data (s : server2) :
  dict_get data "type" JNull = JStr "register" →
  let client_type := dict_get data "client_type" (JStr "viewer") in
  let r := Muma2.handle_client_message net now ws (Some (JObj data)) s in
  result_of r = Ok tt ∧ base (state_of r) = registered ws client_type s ∧
  attempted (trace_of r)
    = attempted (trace_of (Muma2.register_client net ws client_type
                             (count_received s)))
      ++ [(ws, register_ack client_type (screen_info s))].
Proof.
  intros Hty client_type. cbv zeta.
  destruct (register_client2_run net ws client_type (count_received s))
    as (Hres & Hst & _).
  assert (screen_info (registered ws client_type s) = screen_info s)
    as Hinfo by apply registered_frame.
  unfold Muma2.handle_client_message. rewrite Hty. simpl. fold client_type.
  run_coroutine.
  destruct (Muma2.register_client net ws client_type (count_received s))
    as [[r s1] t1].
  simpl in *. subst r. rewrite Hst, Hinfo.
  destruct (send_exn net ws _) as [[]|]; simpl;
    rewrite ?attempted_app; simpl; by rewrite ?app_nil_r.
Qed.

Lemma dict_get_lookup data key default v :
  dict_lookup key data = Some v → dict_get data key default = v.
Proof. unfold dict_get. by intros ->. Qed.

Lemma py_eq_other s lit : s ≠ lit → py_eq (JStr s) lit = false.
Proof. intros Hne. by apply String.eqb_neq. Qed.

(** C10.  A register message whose [client_type] is a string other than
    ["provider"] and ["controller"] puts the sender in [screen_viewers] and
    adds it to no other role set, and the last send the server tries is, to
    the sender, the record [{type: register_ack, client_type, screen_info}]
    whose [client_type] is that very string and whose [screen_info] holds
    the four dimensions of the server object. *)
Theorem C10_unknown_client_type_is_viewer :
  ∀ net now ws data declared (s : server2),
    dict_lookup "type" data = Some (JStr "register") →
    dict_lookup "client_type" data = Some (JStr declared) →
    declared ≠ "provider" → declared ≠ "controller" →
    let r1 := Muma.handle_client_message net now ws (Some (JObj data)) s in
    let r2 := Muma2.handle_client_message net now ws (Some (JObj data)) s in
    let ack :=
      JObj [("type", JStr "register_ack");
            ("client_type", JStr declared);
            ("screen_info",
             JObj [("width", width (screen_info s));
                   ("height", height (screen_info s));
                   ("original_width", original_width (screen_info s));
                   ("original_height", original_height (screen_info s))])]%string in
    (ws ∈ screen_viewers (state_of r1) ∧
     screen_providers (state_of r1) = screen_providers s ∧
     control_clients (state_of r1) = control_clients s ∧
     last (attempted (trace_of r1)) = Some (ws, ack)) ∧
    (ws ∈ screen_viewers (state_of r2) ∧
     screen_providers (state_of r2) = screen_providers s ∧
     control_clients (state_of r2) = control_clients s ∧
     last (attempted (trace_of r2)) = Some (ws, ack)).
Proof.
  intros net now ws data declared s Hty Hct Hp Hc r1 r2 ack. subst r1 r2.
  change ack with (register_ack (JStr declared) (screen_info s)). clear ack.
  apply (dict_get_lookup _ _ JNull) in Hty.
  apply (dict_get_lookup _ _ (JStr "viewer")) in Hct.
  destruct (register_message_run net now ws data s Hty) as (_ & -> & ->).
  destruct (register_message2_run net now ws data s Hty) as (_ & -> & ->).
  rewrite Hct, !last_snoc.
  destruct (registered_sets ws (JStr declared) s) as (_ & -> & -> & ->).
  rewrite (py_eq_other _ _ Hp), (py_eq_other _ _ Hc).
  unfold add. repeat split; set_solver.
Qed.

Lemma C10_unknown_client_type_is_viewer_witness :
  last (attempted (trace_of (Muma.handle_client_message net_up "0.0" 1
                               (register_message "admin") (Muma2.init "0.0"))))
  = Some (1, JObj [("type", JStr "register_ack");
                   ("client_type", JStr "admin");
                   ("screen_info",
                    JObj [("width", JInt 0); ("height", JInt 0);
                          ("original_width", JInt 0);
                          ("original_height", JInt 0)])]%string).
Proof.
  apply (C10_unknown_client_type_is_viewer net_up "0.0" 1
           [("type", JStr "register"); ("client_type", JStr "admin")]%string
           "admin" (Muma2.init "0.0")).
  - reflexivity.
  - reflexivity.
  - discriminate.
  - discriminate.
Defined.

Lemma size_add ws (X : gset conn) : ws ∉ X → size (add ws X) = S (size X).
Proof.
  intros Hws. unfold add. rewrite size_union by set_solver.
  rewrite size_singleton. lia.
Qed.

Lemma add_twice ws (X : gset conn) : add ws (add ws X) = add ws X.
Proof. unfold add. set_solver. Qed.

Lemma accept_then_register net1 now1 net2 now2 ws data (s : server2) :
  dict_lookup "type" data = Some (JStr "register") →
  let client_type := dict_get data "client_type" (JStr "viewer") in
  let steps := [Step net1 now1 (Accept ws);
                Step net2 now2 (Dispatch ws (Some (JObj data)))] in
  Muma.run steps s = registered ws client_type (registered ws default_client_type s) ∧
  base (Muma2.run steps s)
    = registered ws client_type (registered ws default_client_type s).
Proof.
  intros Hty client_type steps. subst steps.
  apply (dict_get_lookup _ _ JNull) in Hty.
  assert (registration (Dispatch ws (Some (JObj data))) = Some (ws, client_type))
    as Hreg by (simpl; by rewrite Hty).
  unfold Muma.run, Muma2.run. cbn [foldl].
  unfold Muma.run_step, Muma2.run_step. cbn [step_net step_now step_op].
  rewrite (perform_registration _ _ _ _ _ _ Hreg),
    (perform2_registration _ _ _ _ _ _ Hreg).
  cbn [Accept Muma.perform Muma2.perform].
  by rewrite register_client_state, register_client2_state.
Qed.

(** C2, as the code has it.  [handle_client] registers an accepted
    connection with the default [client_type], so a connection that was in
    no set is in [screen_viewers] from the accept on.  When it then
    registers as provider, the status shows [screen_providers] and
    [screen_viewers] each one above their value before the accept,
    [control_clients] as before and [total_clients] one above. *)
Theorem C2_accept_then_provider :
  ∀ net1 now1 net2 now2 ws data (s : server2),
    ws ∉ clients s → ws ∉ role_sets s →
    dict_lookup "type" data = Some (JStr "register") →
    dict_lookup "client_type" data = Some (JStr "provider") →
    let steps := [Step net1 now1 (Accept ws);
                  Step net2 now2 (Dispatch ws (Some (JObj data)))] in
    let before := get_server_status s in
    let after := get_server_status (Muma.run steps s) in
    let after2 := (Muma2.get_server_status (Muma2.run steps s)).1.1 in
    ws ∈ screen_viewers (Muma.run [Step net1 now1 (Accept ws)] s) ∧
    ws ∈ screen_viewers (Muma2.run [Step net1 now1 (Accept ws)] s) ∧
    (st_screen_providers after = S (st_screen_providers before) ∧
     st_screen_viewers after = S (st_screen_viewers before) ∧
     st_control_clients after = st_control_clients before ∧
     total_clients after = S (total_clients before)) ∧
    (st_screen_providers after2 = S (st_screen_providers before) ∧
     st_screen_viewers after2 = S (st_screen_viewers before) ∧
     st_control_clients after2 = st_control_clients before ∧
     total_clients after2 = S (total_clients before)).
Proof.
  intros net1 now1 net2 now2 ws data s Hcl Hro Hty Hct steps before after after2.
  destruct (accept_then_register net1 now1 net2 now2 ws data s Hty) as [H1 H2].
  apply (dict_get_lookup _ _ (JStr "viewer")) in Hct. rewrite Hct in H1, H2.
  subst before after after2 steps.
  unfold Muma2.get_server_status, get_server_status. cbn [fst].
  rewrite H1, H2. clear H1 H2.
  unfold Muma.run, Muma2.run. cbn [foldl].
  unfold Muma.run_step, Muma2.run_step.
  cbn [step_net step_now step_op Accept Muma.perform Muma2.perform].
  rewrite register_client_state, register_client2_state.
  unfold role_sets in Hro.
  assert ((ws ∉ screen_providers s) ∧ (ws ∉ screen_viewers s)) as [Hp Hv].
  { set_solver. }
  unfold registered, default_client_type. simpl.
  rewrite add_twice, !size_add by done.
  unfold add. repeat split; set_solver.
Qed.

Lemma C2_accept_then_provider_witness :
  1 ∈ screen_viewers (Muma.run [Step net_up "0.0" (Accept 1)] (Muma2.init "0.0")).
Proof.
  apply (C2_accept_then_provider net_up "0.0" net_up "0.0" 1
           [("type", JStr "register"); ("client_type", JStr "provider")]%string
           (Muma2.init "0.0")).
  - apply (bool_decide_unpack _). by vm_compute.
  - apply (bool_decide_unpack _). by vm_compute.
  - reflexivity.
  - reflexivity.
Defined.

(** C2 as stated fails: a session is accepted on the initial server and
    registers as provider; [screen_providers] is 1, but [screen_viewers]
    went from 0 to 1, and the connection was a viewer as soon as it was
    accepted. *)
Lemma C2_counterexample :
  (st_screen_providers (get_server_status (Muma.run accept_then_provider init)) = 1 ∧
   st_screen_viewers (get_server_status (Muma.run accept_then_provider init))
     ≠ st_screen_viewers (get_server_status init) ∧
   1 ∈ screen_viewers (Muma.run [Step net_up "0.0" (Accept 1)] init)) ∧
  (st_screen_providers
     (get_server_status (Muma2.run accept_then_provider (Muma2.init "0.0"))) = 1 ∧
   st_screen_viewers
     (get_server_status (Muma2.run accept_then_provider (Muma2.init "0.0")))
     ≠ st_screen_viewers (get_server_status (Muma2.init "0.0")) ∧
   1 ∈ screen_viewers (Muma2.run [Step net_up "0.0" (Accept 1)] (Muma2.init "0.0"))).
Proof.
  repeat split; try (intros H; vm_compute in H; discriminate); by vm_compute.
Qed.

(** ** The relay loops, undisturbed *)

Lemma difference_cons (X : gset conn) c cs :
  X ∖ {[c]} ∖ list_to_set cs = X ∖ list_to_set (c :: cs).
Proof. simpl. set_solver. Qed.

Lemma unregistered_all_sets cs s :
  clients (unregistered_all cs s) = clients s ∖ list_to_set cs ∧
  screen_providers (unregistered_all cs s) = screen_providers s ∖ list_to_set cs ∧
  screen_viewers (unregistered_all cs s) = screen_viewers s ∖ list_to_set cs ∧
  control_clients (unregistered_all cs s) = control_clients s ∖ list_to_set cs ∧
  frame_kept s (unregistered_all cs s).
Proof.
  unfold unregistered_all. revert s.
  induction cs as [|c cs IH]; intros s.
  - simpl. rewrite !difference_empty_L. by repeat split.
  - cbn [foldl]. destruct (IH (unregistered c s)) as (-> & -> & -> & -> & Hf).
    rewrite <- !difference_cons. repeat split; try done.
    + by destruct Hf as [-> _].
    + by destruct Hf as [_ ->].
Qed.

Lemma bind_eq {St A B} (m : M St A) (k : A → M St B) s a s1 t1 r s2 t2 :
  m s = (Ok a, s1, t1) → k a s1 = (r, s2, t2) → bind m k s = (r, s2, t1 ++ t2).
Proof. intros Hm Hk. unfold bind. by rewrite Hm, Hk. Qed.

Lemma try_except_ok {St A} (m : M St A) (h : exn → M St A) s a s1 t1 :
  m s = (Ok a, s1, t1) → try_except m h s = (Ok a, s1, t1).
Proof. intros Hm. unfold try_except. by rewrite Hm. Qed.

Lemma nonempty_false (X : gset conn) : nonempty X = false → X = ∅.
Proof.
  unfold nonempty. intros H. apply negb_false_iff in H.
  by apply bool_decide_eq_true in H.
Qed.

Lemma failed_of_empty fails : failed_of fails ∅ = [].
Proof. unfold failed_of. by rewrite elements_empty. Qed.

Lemma reached_of_empty fails : reached_of fails ∅ = [].
Proof. unfold reached_of. by rewrite elements_empty. Qed.

Lemma unregister_client_eq ws s :
  Muma.unregister_client ws s
  = (Ok tt, unregistered ws s,
     [CallUnregister ws; Printed (ClientDisconnected (size (clients (unregistered ws s))))]).
Proof. done. Qed.

Lemma unregister_loop_run cs s :
  ∃ t, for_each cs Muma.unregister_client s = (Ok tt, unregistered_all cs s, t) ∧
       unregister_calls t = cs ∧ attempted t = [] ∧ delivered t = [] ∧
       reported_failures t = [].
Proof.
  unfold unregistered_all. revert s.
  induction cs as [|c cs IH]; intros s.
  - by exists [].
  - destruct (IH (unregistered c s)) as (t & Hloop & Hu & Ha & Hd & Hf).
    eexists. split.
    + cbn [for_each foldl].
      eapply bind_eq; [apply unregister_client_eq | exact Hloop].
    + rewrite unregister_calls_app, attempted_app, delivered_app.
      unfold reported_failures. rewrite omap_app.
      fold (reported_failures t). rewrite Hu, Ha, Hd, Hf. done.
Qed.

Lemma sent_more_fields n (s : server2) :
  base (sent_more n s) = base s ∧
  messages_sent (stats (sent_more n s)) = messages_sent (stats s) + n ∧
  messages_received (stats (sent_more n s)) = messages_received (stats s).
Proof.
  unfold sent_more. induction n as [|n (IH1 & IH2 & IH3)]; simpl.
  - repeat split; lia.
  - rewrite IH1, IH2, IH3. repeat split; lia.
Qed.

Lemma unregister_client2_eq ws (s : server2) :
  ∃ kind n, Muma2.unregister_client ws s
            = (Ok tt, on_base (unregistered ws) s,
               [CallUnregister ws; Printed (KindDisconnected kind n)]).
Proof. by do 2 eexists. Qed.

Lemma unregister_loop2_run cs (s : server2) :
  ∃ t, for_each cs Muma2.unregister_client s
       = (Ok tt, on_base (unregistered_all cs) s, t) ∧
       unregister_calls t = cs ∧ attempted t = [] ∧ delivered t = [] ∧
       reported_failures t = [].
Proof.
  unfold unregistered_all. revert s.
  induction cs as [|c cs IH]; intros s.
  - exists []. by destruct s.
  - destruct (IH (on_base (unregistered c) s)) as (t & Hloop & Hu & Ha & Hd & Hf).
    destruct (unregister_client2_eq c s) as (kind & n & Hun).
    eexists. split.
    + cbn [for_each foldl]. eapply bind_eq; [exact Hun | exact Hloop].
    + rewrite unregister_calls_app, attempted_app, delivered_app.
      unfold reported_failures. rewrite omap_app.
      fold (reported_failures t). rewrite Hu, Ha, Hd, Hf. done.
Qed.

Lemma send_result_refused net message c :
  refused net message c
  = match send_result net message c with Raise _ => true | _ => false end.
Proof.
  unfold refused, send_result, send_fails.
  destruct (state_open net c); simpl; [|done].
  by destruct (send_exn net c message).
Qed.

Lemma send_result_finished net message targets :
  forallb finished (map (send_result net message) targets) = true.
Proof.
  induction targets as [|c targets IH]; [done|]. simpl. rewrite IH.
  unfold send_result. destruct (state_open net c); [|done].
  by destruct (send_exn net c message).
Qed.

Lemma on_base_nil (s : server2) :
  on_base (unregistered_all (elements (list_to_set [] : gset conn)))
    (sent_more (length (@nil conn)) s) = s.
Proof. rewrite list_to_set_nil, elements_empty. by destruct s. Qed.

(** The line of [handle_control_event] is the same on every server
    object: it is printed, or building it raises. *)
Lemma log_control_event_run data (s : server2) :
  match log_error data with
  | Some e => Muma2.log_control_event data s = (Raise e, s, [])
  | None => ∃ l, Muma2.log_control_event data s = (Ok tt, s, l) ∧
                 attempted l = [] ∧ delivered l = [] ∧ unregister_calls l = [] ∧
                 reported_failures l = []
  end.
Proof.
  unfold log_error, Muma2.log_control_event, print_text.
  repeat match goal with
         | |- context [if ?b then _ else _] => destruct b
         end; simpl; try done; by eexists.
Qed.


Lemma log_raises_false data : log_raises data = false → log_error data = None.
Proof.
  unfold log_raises. intros H%bool_decide_eq_false.
  destruct (log_error data); [|done]. by destruct H.
Qed.


(** What the relays do while no other handler changes the registry. *)
Section Undisturbed.
Variable net : transport.
Hypothesis undisturbed : quiet net.

Lemma relay_send_quiet message c (s : server) :
  Muma.relay_send net message c s = send net c message s.
Proof.
  unfold Muma.relay_send, during, send. simpl. rewrite undisturbed. simpl.
  by destruct (await_send (outcome net c message) c message s) as [[r s1] t1].
Qed.

(** One turn of the loop of [send_all]. *)
Lemma send_all_turn message report (acc : gset conn) c (s : server) :
  ∃ t, try_except (Muma.relay_send net message c >> ret acc)
         (λ e, match e with
               | ConnectionClosed => ret (add c acc)
               | _ => print (report e) >> ret (add c acc)
               end) s
       = (Ok (if send_fails net message c then add c acc else acc), s, t) ∧
       attempted t = [(c, message)] ∧
       delivered t = (if send_fails net message c then [] else [(c, message)]) ∧
       unregister_calls t = [] ∧
       ((∀ e, reported_failures [Printed (report e)] = [e]) →
        reported_failures t = option_list (printed_failure net message c)).
Proof.
  unfold try_except, bind. rewrite relay_send_quiet.
  unfold send_fails, printed_failure, send, await_send, outcome, bind, print, emit,
    ret, raise.
  destruct (send_exn net c message) as [[]|]; eexists;
    (split; [reflexivity|]); repeat split; intros Hreport; try done;
    simpl; apply (Hreport _).
Qed.

Lemma visit_run targets_of message report rest acc s :
  (∀ e, reported_failures [Printed (report e)] = [e]) →
  ∃ t, Muma.visit net targets_of message report (size (targets_of s)) rest acc s
       = (Ok (acc ∪ list_to_set
                (filter (λ c, send_fails net message c = true) rest)), s, t) ∧
       attempted t = map (λ c, (c, message)) rest ∧
       delivered t
         = map (λ c, (c, message))
             (filter (λ c, send_fails net message c = false) rest) ∧
       unregister_calls t = [] ∧
       reported_failures t = omap (printed_failure net message) rest.
Proof.
  intros Hreport. revert acc. induction rest as [|c rest IH]; intros acc.
  - exists []. split; [|done]. cbn [Muma.visit]. unfold bind, gets.
    rewrite Nat.eqb_refl. simpl. unfold ret.
    by rewrite (right_id_L ∅ (∪)).
  - destruct (send_all_turn message report acc c s)
      as (t0 & Hturn & Ha0 & Hd0 & Hu0 & Hf0).
    specialize (Hf0 Hreport).
    destruct (IH (if send_fails net message c then add c acc else acc))
      as (t & Hloop & Ha & Hd & Hu & Hf).
    exists (t0 ++ t). split; [|split; [|split; [|split]]].
    + cbn [Muma.visit].
      erewrite (bind_eq _ _ s (size (targets_of s)) s []); [|reflexivity|].
      2:{ rewrite Nat.eqb_refl. cbn [negb].
          eapply bind_eq; [exact Hturn | exact Hloop]. }
      do 3 f_equal.
      destruct (send_fails net message c) eqn:Hc;
        [rewrite filter_cons_True by done | rewrite filter_cons_False by congruence];
        simpl; unfold add; set_solver.
    + by rewrite attempted_app, Ha0, Ha.
    + rewrite delivered_app, Hd0, Hd.
      destruct (send_fails net message c) eqn:Hc;
        [rewrite filter_cons_False by congruence | rewrite filter_cons_True by done];
        done.
    + by rewrite unregister_calls_app, Hu0, Hu.
    + unfold reported_failures in *. rewrite omap_app, Hf0, Hf. simpl.
      by destruct (printed_failure net message c).
Qed.

Lemma send_all_run targets_of message report s :
  (∀ e, reported_failures [Printed (report e)] = [e]) →
  ∃ t, Muma.send_all net targets_of message report s
       = (Ok (list_to_set (failed_of (send_fails net message) (targets_of s))),
          s, t) ∧
       attempted t = map (λ c, (c, message)) (elements (targets_of s)) ∧
       delivered t
         = map (λ c, (c, message)) (reached_of (send_fails net message) (targets_of s)) ∧
       unregister_calls t = [] ∧
       reported_failures t
         = omap (printed_failure net message) (elements (targets_of s)).
Proof.
  intros Hreport.
  destruct (visit_run targets_of message report (elements (targets_of s)) ∅ s Hreport)
    as (t & Hrun & Hrest).
  exists t. split; [|exact Hrest].
  unfold Muma.send_all.
  erewrite (bind_eq _ _ s (targets_of s) s []); [|reflexivity|exact Hrun].
  by rewrite (left_id_L ∅ (∪)).
Qed.

(** The loop of sends followed by the loop of [unregister_client]. *)
Lemma relay_run targets_of message report s :
  (∀ e, reported_failures [Printed (report e)] = [e]) →
  let X := targets_of s in
  ∃ t, (let* disconnected := Muma.send_all net targets_of message report in
        for_each (elements disconnected) Muma.unregister_client) s
       = (Ok tt,
          unregistered_all
            (elements (list_to_set (failed_of (send_fails net message) X) : gset conn))
            s, t) ∧
       attempted t = map (λ c, (c, message)) (elements X) ∧
       delivered t = map (λ c, (c, message)) (reached_of (send_fails net message) X) ∧
       unregister_calls t
         = elements (list_to_set (failed_of (send_fails net message) X) : gset conn) ∧
       reported_failures t = omap (printed_failure net message) (elements X).
Proof.
  intros Hreport X. subst X.
  destruct (send_all_run targets_of message report s Hreport)
    as (t1 & Hsend & Ha1 & Hd1 & Hu1 & Hf1).
  destruct (unregister_loop_run
              (elements (list_to_set (failed_of (send_fails net message) (targets_of s))
                         : gset conn)) s)
    as (t2 & Hloop & Hu2 & Ha2 & Hd2 & Hf2).
  exists (t1 ++ t2). split; [|split; [|split; [|split]]].
  - eapply bind_eq; [exact Hsend | exact Hloop].
  - by rewrite attempted_app, Ha1, Ha2, app_nil_r.
  - by rewrite delivered_app, Hd1, Hd2, app_nil_r.
  - by rewrite unregister_calls_app, Hu1, Hu2.
  - unfold reported_failures in *. by rewrite omap_app, Hf1, Hf2, app_nil_r.
Qed.

Lemma handle_screen_data_run now data s :
  let message := screenshot_record data now in
  let failed := failed_of (send_fails net message) (screen_viewers s) in
  ∃ t, Muma.handle_screen_data net now data s
       = (Ok tt,
          unregistered_all (elements (list_to_set failed : gset conn))
            (set_screen_info (screen_info_of data)
               (set_current_screen_data (Some message) s)), t) ∧
       attempted t = map (λ c, (c, message)) (elements (screen_viewers s)) ∧
       delivered t
         = map (λ c, (c, message))
             (reached_of (send_fails net message) (screen_viewers s)) ∧
       unregister_calls t = elements (list_to_set failed : gset conn) ∧
       reported_failures t
         = omap (printed_failure net message) (elements (screen_viewers s)).
Proof.
  intros message failed. subst failed. unfold Muma.handle_screen_data.
  set (s0 := set_screen_info (screen_info_of data)
               (set_current_screen_data (Some message) s)).
  destruct (nonempty (screen_viewers s)) eqn:Hne.
  - destruct (relay_run screen_viewers message SendScreenError s0)
      as (t & Hrelay & Ha & Hd & Hu); [done|].
    exists t. split; [|done].
    apply try_except_ok.
    eapply (bind_eq _ _ _ tt _ []); [reflexivity|].
    eapply (bind_eq _ _ _ tt s0 []); [reflexivity|].
    eapply (bind_eq _ _ _ (screen_viewers s) s0 []); [reflexivity|].
    rewrite Hne.
    eapply (bind_eq _ _ _ (Some message) s0 []); [reflexivity|].
    exact Hrelay.
  - apply nonempty_false in Hne. rewrite Hne.
    rewrite failed_of_empty, reached_of_empty, elements_empty. simpl.
    rewrite elements_empty.
    exists []. split; [|done].
    apply try_except_ok.
    eapply (bind_eq _ _ _ tt _ []); [reflexivity|].
    eapply (bind_eq _ _ _ tt s0 []); [reflexivity|].
    eapply (bind_eq _ _ _ (screen_viewers s) s0 []); [reflexivity|].
    rewrite Hne. reflexivity.
Qed.

Lemma handle_control_event_run ws data s :
  let message := JObj data in
  let failed := failed_of (send_fails net message) (screen_providers s) in
  ∃ t, Muma.handle_control_event net ws data s
       = (Ok tt, unregistered_all (elements (list_to_set failed : gset conn)) s, t) ∧
       attempted t = map (λ c, (c, message)) (elements (screen_providers s)) ∧
       delivered t
         = map (λ c, (c, message))
             (reached_of (send_fails net message) (screen_providers s)) ∧
       unregister_calls t = elements (list_to_set failed : gset conn) ∧
       reported_failures t
         = omap (printed_failure net message) (elements (screen_providers s)).
Proof.
  intros message failed. subst failed. unfold Muma.handle_control_event.
  destruct (nonempty (screen_providers s)) eqn:Hne.
  - destruct (relay_run screen_providers message ForwardError s)
      as (t & Hrelay & Ha & Hd & Hu); [done|].
    exists t. split; [|done].
    apply try_except_ok.
    eapply (bind_eq _ _ _ (screen_providers s) s []); [reflexivity|].
    rewrite Hne. exact Hrelay.
  - apply nonempty_false in Hne. rewrite Hne.
    rewrite failed_of_empty, reached_of_empty, elements_empty. simpl.
    rewrite elements_empty.
    exists [Printed NoProvider]. split; [|done].
    apply try_except_ok.
    eapply (bind_eq _ _ _ (∅ : gset conn) s []); [by rewrite <- Hne|].
    reflexivity.
Qed.

Lemma send_to_client_run c message (s : server2) :
  ∃ t, Muma2._send_to_client net c message s = (send_result net message c, s, t) ∧
       attempted t = [(c, message)] ∧
       delivered t = (if refused net message c then [] else [(c, message)]) ∧
       unregister_calls t = [] ∧ reported_failures t = [].
Proof.
  unfold Muma2._send_to_client, send_result, refused, send_fails,
    try_except, bind, during, await_send, emit, ret, raise. simpl.
  rewrite undisturbed. unfold outcome.
  destruct (state_open net c); simpl;
    [destruct (send_exn net c message)|]; destruct s; eexists; done.
Qed.

Lemma run_sends_run targets message (s : server2) :
  ∃ t, run_tasks (map (λ c, Muma2._send_to_client net c message) targets) s
       = (Ok (map (send_result net message) targets), s, t) ∧
       attempted t = map (λ c, (c, message)) targets ∧
       delivered t
         = map (λ c, (c, message))
             (filter (λ c, refused net message c = false) targets) ∧
       unregister_calls t = [] ∧ reported_failures t = [].
Proof.
  induction targets as [|c targets (t & Hrest & Ha & Hd & Hu & Hf)].
  - by exists [].
  - destruct (send_to_client_run c message s) as (t0 & Hc & Ha0 & Hd0 & Hu0 & Hf0).
    exists (t0 ++ t ++ []). split; [|split; [|split; [|split]]].
    + cbn [map run_tasks].
      eapply (bind_eq _ _ _ (send_result net message c) s t0).
      { unfold capture. by rewrite Hc. }
      eapply bind_eq; [exact Hrest | reflexivity].
    + by rewrite app_nil_r, attempted_app, Ha0, Ha.
    + rewrite app_nil_r, delivered_app, Hd0, Hd.
      destruct (refused net message c) eqn:Hr;
        [rewrite filter_cons_False by congruence | rewrite filter_cons_True by done];
        done.
    + by rewrite app_nil_r, unregister_calls_app, Hu0, Hu.
    + unfold reported_failures in *. by rewrite app_nil_r, omap_app, Hf0, Hf.
Qed.

Lemma gather_sends_run targets message (s : server2) :
  ∃ t, gather (map (λ c, Muma2._send_to_client net c message) targets) s
       = (Ok (map (send_result net message) targets), s, t) ∧
       attempted t = map (λ c, (c, message)) targets ∧
       delivered t
         = map (λ c, (c, message))
             (filter (λ c, refused net message c = false) targets) ∧
       unregister_calls t = [] ∧ reported_failures t = [].
Proof.
  destruct (run_sends_run targets message s) as (t & Hrun & Hrest).
  exists t. split; [|exact Hrest].
  unfold gather. rewrite <- (app_nil_r t).
  eapply bind_eq; [exact Hrun|]. by rewrite send_result_finished.
Qed.

Lemma collect_failed_run message targets report (s : server2) :
  (∀ e, reported_failures [Printed (report e)] = [e]) →
  ∃ t, Muma2.collect_failed targets (map (send_result net message) targets) report s
       = (Ok (list_to_set (filter (λ c, refused net message c = true) targets)),
          sent_more (length (filter (λ c, refused net message c = false) targets)) s,
          t) ∧
       attempted t = [] ∧ delivered t = [] ∧ unregister_calls t = [] ∧
       length (reported_failures t)
         = length (filter (λ c, refused net message c = true) targets).
Proof.
  intros Hreport. unfold Muma2.collect_failed.
  cut (∀ acc s, ∃ t,
    for_fold (zip targets (map (send_result net message) targets)) acc
      (λ disconnected pair,
         match pair.2 with
         | Raise e => print (report e) >> ret (add pair.1 disconnected)
         | Ok _ => modify count_sent >> ret disconnected
         | Pending => ret disconnected
         end) s
    = (Ok (acc ∪ list_to_set (filter (λ c, refused net message c = true) targets)),
       sent_more (length (filter (λ c, refused net message c = false) targets)) s,
       t) ∧
    attempted t = [] ∧ delivered t = [] ∧ unregister_calls t = [] ∧
    length (reported_failures t)
      = length (filter (λ c, refused net message c = true) targets)).
  { intros Hgen. destruct (Hgen ∅ s) as (t & Hrun & Hrest).
    exists t. split; [|done]. rewrite Hrun. by rewrite (left_id_L ∅ (∪)). }
  clear s. induction targets as [|c targets IH]; intros acc s.
  - exists []. split; [|done]. cbn [map zip zip_with for_fold]. unfold ret.
    rewrite !filter_nil. simpl. by rewrite (right_id_L ∅ (∪)).
  - cbn [map zip zip_with for_fold snd fst].
    pose proof (send_result_refused net message c) as Hr.
    pose proof (send_result_finished net message [c]) as Hfin.
    simpl in Hfin.
    destruct (send_result net message c) as [b|e|]; [| |done].
    + destruct (IH acc (count_sent s)) as (t & Hloop & Ha & Hd & Hu & Hf).
      exists t. split; [|split; [|split; [|split]]]; try done.
      * erewrite (bind_eq _ _ s acc (count_sent s) []); [|reflexivity|exact Hloop].
        rewrite filter_cons_False by congruence.
        rewrite filter_cons_True by done.
        simpl. unfold sent_more. by rewrite Nat.iter_swap.
      * by rewrite filter_cons_False by congruence.
    + destruct (IH (add c acc) s) as (t & Hloop & Ha & Hd & Hu & Hf).
      exists (Printed (report e) :: t). split; [|split; [|split; [|split]]]; try done.
      * erewrite (bind_eq _ _ s (add c acc) s [Printed (report e)]);
          [|reflexivity|exact Hloop].
        rewrite filter_cons_True by done.
        rewrite filter_cons_False by congruence.
        simpl. do 3 f_equal. unfold add. set_solver.
      * rewrite filter_cons_True by done.
        change (Printed (report e) :: t) with ([Printed (report e)] ++ t).
        unfold reported_failures in *. rewrite omap_app, Hreport. simpl.
        by rewrite Hf.
Qed.

Ltac broadcast_run message s targets report :=
  destruct (nonempty targets) eqn:Hne;
  [ destruct (gather_sends_run (elements targets) message s)
      as (t1 & Hgather & Ha1 & Hd1 & Hu1 & Hf1);
    destruct (collect_failed_run message (elements targets) report s)
      as (t2 & Hcollect & Ha2 & Hd2 & Hu2 & Hf2); [done|];
    destruct (unregister_loop2_run
                (elements (list_to_set (failed_of (refused net message) targets)
                           : gset conn))
                (sent_more (length (reached_of (refused net message) targets)) s))
      as (t3 & Hloop & Hu3 & Ha3 & Hd3 & Hf3);
    exists (t1 ++ t2 ++ t3); split; [|split; [|split; [|split]]];
    [ eapply (bind_eq _ _ _ targets s []); [reflexivity|];
      rewrite Hne; cbn [negb]; cbv zeta;
      eapply bind_eq; [exact Hgather|];
      eapply (bind_eq _ _ _ targets s []); [reflexivity|];
      eapply bind_eq; [exact Hcollect | exact Hloop]
    | by rewrite !attempted_app, Ha1, Ha2, Ha3, !app_nil_r
    | by rewrite !delivered_app, Hd1, Hd2, Hd3, !app_nil_r
    | by rewrite !unregister_calls_app, Hu1, Hu2, Hu3
    | unfold reported_failures in *;
      rewrite !omap_app, Hf1, Hf3, app_nil_r; simpl; by rewrite Hf2 ]
  | pose proof (nonempty_false _ Hne) as Hempty;
    exists []; split;
    [ eapply (bind_eq _ _ _ targets s []); [reflexivity|];
      rewrite Hne; cbn [negb];
      rewrite Hempty, failed_of_empty, reached_of_empty; simpl;
      rewrite elements_empty; by destruct s
    | rewrite Hempty, failed_of_empty, reached_of_empty, elements_empty; simpl;
      by rewrite elements_empty ] ].

Lemma broadcast_to_viewers_run message (s : server2) :
  let failed := failed_of (refused net message) (screen_viewers s) in
  let reached := reached_of (refused net message) (screen_viewers s) in
  ∃ t, Muma2._broadcast_to_viewers net message s
       = (Ok tt,
          on_base (unregistered_all (elements (list_to_set failed : gset conn)))
            (sent_more (length reached) s), t) ∧
       attempted t = map (λ c, (c, message)) (elements (screen_viewers s)) ∧
       delivered t = map (λ c, (c, message)) reached ∧
       unregister_calls t = elements (list_to_set failed : gset conn) ∧
       length (reported_failures t) = length failed.
Proof.
  intros failed reached. subst failed reached. unfold Muma2._broadcast_to_viewers.
  broadcast_run message s (screen_viewers s) SendScreenError.
Qed.

Lemma broadcast_to_providers_run message (s : server2) :
  let failed := failed_of (refused net message) (screen_providers s) in
  let reached := reached_of (refused net message) (screen_providers s) in
  ∃ t, Muma2._broadcast_to_providers net message s
       = (Ok tt,
          on_base (unregistered_all (elements (list_to_set failed : gset conn)))
            (sent_more (length reached) s), t) ∧
       attempted t = map (λ c, (c, message)) (elements (screen_providers s)) ∧
       delivered t = map (λ c, (c, message)) reached ∧
       unregister_calls t = elements (list_to_set failed : gset conn) ∧
       length (reported_failures t) = length failed.
Proof.
  intros failed reached. subst failed reached. unfold Muma2._broadcast_to_providers.
  broadcast_run message s (screen_providers s) ForwardError.
Qed.

Lemma handle_screen_data2_run now data (s : server2) :
  let message := screenshot_record data now in
  let failed := failed_of (refused net message) (screen_viewers s) in
  let reached := reached_of (refused net message) (screen_viewers s) in
  ∃ t, Muma2.handle_screen_data net now data s
       = (Ok tt,
          on_base (unregistered_all (elements (list_to_set failed : gset conn)))
            (sent_more (length reached)
               (on_base (set_screen_info (screen_info_of data))
                  (on_base (set_current_screen_data (Some message)) s))), t) ∧
       attempted t = map (λ c, (c, message)) (elements (screen_viewers s)) ∧
       delivered t = map (λ c, (c, message)) reached ∧
       unregister_calls t = elements (list_to_set failed : gset conn) ∧
       length (reported_failures t) = length failed.
Proof.
  intros message failed reached. subst failed reached.
  unfold Muma2.handle_screen_data.
  set (s0 := on_base (set_screen_info (screen_info_of data))
               (on_base (set_current_screen_data (Some message)) s)).
  destruct (nonempty (screen_viewers s)) eqn:Hne.
  - destruct (broadcast_to_viewers_run message s0) as (t & Hrun & Hrest).
    exists t. split; [|exact Hrest].
    apply try_except_ok.
    eapply (bind_eq _ _ _ tt _ []); [reflexivity|].
    eapply (bind_eq _ _ _ tt s0 []); [reflexivity|].
    eapply (bind_eq _ _ _ (screen_viewers s) s0 []); [reflexivity|].
    rewrite Hne.
    eapply (bind_eq _ _ _ (Some message) s0 []); [reflexivity|].
    exact Hrun.
  - pose proof (nonempty_false _ Hne) as Hempty.
    rewrite Hempty, failed_of_empty, reached_of_empty, elements_empty.
    rewrite on_base_nil, list_to_set_nil, elements_empty.
    exists []. split; [|done].
    apply try_except_ok.
    eapply (bind_eq _ _ _ tt _ []); [reflexivity|].
    eapply (bind_eq _ _ _ tt s0 []); [reflexivity|].
    eapply (bind_eq _ _ _ (screen_viewers s) s0 []); [reflexivity|].
    by rewrite Hne.
Qed.

Lemma handle_control_event2_run ws data (s : server2) :
  log_raises data = false →
  let message := JObj data in
  let failed := failed_of (refused net message) (screen_providers s) in
  let reached := reached_of (refused net message) (screen_providers s) in
  ∃ t, Muma2.handle_control_event net ws data s
       = (Ok tt,
          on_base (unregistered_all (elements (list_to_set failed : gset conn)))
            (sent_more (length reached) s), t) ∧
       attempted t = map (λ c, (c, message)) (elements (screen_providers s)) ∧
       delivered t = map (λ c, (c, message)) reached ∧
       unregister_calls t = elements (list_to_set failed : gset conn) ∧
       length (reported_failures t) = length failed.
Proof.
  intros Hlog%log_raises_false message failed reached. subst failed reached.
  unfold Muma2.handle_control_event.
  destruct (nonempty (screen_providers s)) eqn:Hne.
  - pose proof (log_control_event_run data s) as Hl. rewrite Hlog in Hl.
    destruct Hl as (l & Hl & Ha0 & Hd0 & Hu0 & Hf0).
    destruct (broadcast_to_providers_run message s)
      as (t & Hrun & Ha & Hd & Hu & Hf).
    exists (l ++ t). split; [|split; [|split; [|split]]].
    + apply try_except_ok.
      eapply (bind_eq _ _ _ (screen_providers s) s []); [reflexivity|].
      rewrite Hne. cbn [negb].
      eapply bind_eq; [exact Hl | exact Hrun].
    + by rewrite attempted_app, Ha0, Ha.
    + by rewrite delivered_app, Hd0, Hd.
    + by rewrite unregister_calls_app, Hu0, Hu.
    + unfold reported_failures in *. by rewrite omap_app, Hf0, <- Hf.
  - pose proof (nonempty_false _ Hne) as Hempty.
    rewrite Hempty, failed_of_empty, reached_of_empty, elements_empty.
    rewrite on_base_nil, list_to_set_nil, elements_empty.
    exists [Printed NoProvider]. split; [|done].
    apply try_except_ok.
    eapply (bind_eq _ _ _ (screen_providers s) s []); [reflexivity|].
    by rewrite Hne.
Qed.
End Undisturbed.

(** ** C3: what a broadcast prunes *)

Lemma filter_split_length (fails : conn → bool) (l : list conn) :
  length (filter (λ c, fails c = true) l) + length (filter (λ c, fails c = false) l)
  = length l.
Proof.
  induction l as [|c l IH]; [done|].
  destruct (fails c) eqn:Hc.
  - rewrite filter_cons_True, filter_cons_False by congruence. simpl. lia.
  - rewrite filter_cons_False, filter_cons_True by congruence. simpl. lia.
Qed.

Lemma prune_facts (fails : conn → bool) (X : gset conn) :
  let failed := failed_of fails X in
  let reached := reached_of fails X in
  length failed + length reached = size X ∧
  NoDup failed ∧
  elements (list_to_set failed : gset conn) ≡ₚ failed ∧
  size (X ∖ list_to_set failed) = size X - length failed ∧
  list_to_set (elements (list_to_set failed : gset conn)) = (list_to_set failed : gset conn) ∧
  (∀ c, c ∈ X ∖ list_to_set failed ↔ c ∈ reached).
Proof.
  intros failed reached. subst failed reached. unfold failed_of, reached_of.
  assert (NoDup (filter (λ c, fails c = true) (elements X))) as Hnd.
  { apply NoDup_filter, NoDup_elements. }
  split; [apply filter_split_length|].
  split; [done|].
  split; [by apply elements_list_to_set|].
  split.
  { rewrite size_difference.
    - by rewrite size_list_to_set.
    - intros c. rewrite elem_of_list_to_set, list_elem_of_filter, elem_of_elements.
      tauto. }
  split; [apply list_to_set_elements_L|].
  intros c.
  rewrite elem_of_difference, elem_of_list_to_set, !list_elem_of_filter,
    elem_of_elements.
  destruct (fails c); intuition congruence.
Qed.

(** C3 at a viewer that is unregistered while the frame is relayed.  Of
    the viewers 1, 2 and 3, visited in the order 2, 3, 1, connection 2 is
    closed, and while the relay awaits a send to another viewer the handler
    of connection 2 unregisters it.  One target fails, two are reached.

    [_broadcast_to_viewers] of [muma2.0.py] delivers to 3 and 1, then pairs
    the results with the viewers it reads again, 3 and 1: the failure of 2
    is put down to 3.  It prints one failure and counts one send where two
    arrived, calls [unregister_client] on 3, which got the frame, and leaves
    one viewer where two were reached.

    The loop of [muma.py] runs over the set itself: after the send to 3
    the set has changed, the iteration raises [RuntimeError], which
    [handle_screen_data] prints; viewer 1 is not sent the frame, and
    [unregister_client] is not called.

    Without any such change, on a transport where connection 2 is closed
    and stays registered, [muma.py] prints no failure for it:
    [ConnectionClosed] is caught in silence. *)
Theorem C3_unregistration_during_broadcast :
  let message :=
    JObj [("type", JStr "screenshot");
          ("data", JStr "data:image/jpeg;base64,BBBB");
          ("width", JInt 0); ("height", JInt 0);
          ("original_width", JInt 0); ("original_height", JInt 0);
          ("timestamp", JFloat "1.0")]%string in
  let r1 := Muma.handle_screen_data net_two_leaves "1.0" frame_two three_viewers in
  let r2 := Muma2._broadcast_to_viewers net_two_leaves message three_viewers in
  let r0 := Muma.handle_screen_data net_two_closed "1.0" frame_two three_viewers in
  (elements (screen_viewers three_viewers) = [2; 3; 1] ∧
   failed_of (refused net_two_leaves message) (screen_viewers three_viewers) = [2] ∧
   reached_of (refused net_two_leaves message) (screen_viewers three_viewers) = [3; 1] ∧
   failed_of (send_fails net_two_leaves message) (screen_viewers three_viewers) = [2]) ∧
  (delivered (trace_of r2) = [(3, message); (1, message)] ∧
   length (reported_failures (trace_of r2)) = 1 ∧
   messages_sent (stats (state_of r2)) = messages_sent (stats three_viewers) + 1 ∧
   unregister_calls (trace_of r2) = [3] ∧
   elements (screen_viewers (state_of r2)) = [1]) ∧
  (attempted (trace_of r1) = [(2, message); (3, message)] ∧
   delivered (trace_of r1) = [(3, message)] ∧
   last (trace_of r1) = Some (Printed (ScreenDataError RuntimeError)) ∧
   unregister_calls (trace_of r1) = [] ∧
   elements (screen_viewers (state_of r1)) = [3; 1]) ∧
  (failed_of (send_fails net_two_closed message) (screen_viewers three_viewers) = [2] ∧
   unregister_calls (trace_of r0) = [2] ∧
   reported_failures (trace_of r0) = []).
Proof. by vm_compute. Qed.

(** While no other handler changes the registry, a broadcast prunes
    exactly the targets that failed.  A broadcast of [muma2.0.py] over the
    [N] viewers, [M] of which fail, prints [M] failure lines and counts the
    other [N - M] sends in [messages_sent]; [unregister_client] is called
    once on each target that failed and on no other; afterwards
    [screen_viewers] is the set of the targets that did not fail, its size
    is [N - M], and these are the targets the payload was delivered to.
    The relay of a frame in [muma.py], which keeps no counters, calls
    [unregister_client], shrinks the set and delivers in the same way; it
    prints a failure line for the targets whose send raised something other
    than [ConnectionClosed], and for no other. *)
Theorem undisturbed_broadcast_prunes_failed net :
  quiet net →
  (∀ message (s : server2),
     let N := size (screen_viewers s) in
     let failed := failed_of (refused net message) (screen_viewers s) in
     let reached := reached_of (refused net message) (screen_viewers s) in
     let M := length failed in
     let r := Muma2._broadcast_to_viewers net message s in
     M ≤ N ∧ length reached = N - M ∧
     length (reported_failures (trace_of r)) = M ∧
     messages_sent (stats (state_of r)) = messages_sent (stats s) + (N - M) ∧
     unregister_calls (trace_of r) ≡ₚ failed ∧
     NoDup (unregister_calls (trace_of r)) ∧
     screen_viewers (state_of r) = screen_viewers s ∖ list_to_set failed ∧
     size (screen_viewers (state_of r)) = N - M ∧
     delivered (trace_of r) = map (λ c, (c, message)) reached ∧
     (∀ c, c ∈ screen_viewers (state_of r) ↔ c ∈ reached)) ∧
  (∀ now data (s : server),
     let message :=
       JObj [("type", JStr "screenshot");
             ("data", dict_get data "data" JNull);
             ("width", dict_get data "width" (JInt 0));
             ("height", dict_get data "height" (JInt 0));
             ("original_width", dict_get data "original_width" (JInt 0));
             ("original_height", dict_get data "original_height" (JInt 0));
             ("timestamp", JFloat now)]%string in
     let N := size (screen_viewers s) in
     let failed := failed_of (send_fails net message) (screen_viewers s) in
     let reached := reached_of (send_fails net message) (screen_viewers s) in
     let M := length failed in
     let r := Muma.handle_screen_data net now data s in
     M ≤ N ∧ length reached = N - M ∧
     reported_failures (trace_of r)
       = omap (printed_failure net message) (elements (screen_viewers s)) ∧
     unregister_calls (trace_of r) ≡ₚ failed ∧
     NoDup (unregister_calls (trace_of r)) ∧
     screen_viewers (state_of r) = screen_viewers s ∖ list_to_set failed ∧
     size (screen_viewers (state_of r)) = N - M ∧
     delivered (trace_of r) = map (λ c, (c, message)) reached ∧
     (∀ c, c ∈ screen_viewers (state_of r) ↔ c ∈ reached)).
Proof.
  intros Hquiet. split.
  - intros message s N failed reached M r.
    destruct (prune_facts (refused net message) (screen_viewers s))
      as (Hlen & Hnd & Hperm & Hsize & Hset & Hin).
    fold failed reached in Hlen, Hnd, Hperm, Hsize, Hset, Hin.
    destruct (broadcast_to_viewers_run net Hquiet message s)
      as (t & Hrun & _ & Hd & Hu & Hf).
    fold failed reached in Hrun, Hd, Hu, Hf. subst r. rewrite Hrun.
    unfold state_of, trace_of. cbn [fst snd].
    destruct (unregistered_all_sets
                (elements (list_to_set failed : gset conn))
                (sent_more (length reached) s)) as (_ & _ & Hv & _).
    destruct (sent_more_fields (length reached) s) as (Hbase & Hsent & _).
    cbn [on_base base stats]. rewrite Hv, Hset, Hbase, Hsent, Hu, Hf, Hd.
    subst N M. repeat split; try done; try lia.
    + by rewrite Hperm.
    + apply Hin.
    + apply Hin.
  - intros now data s message N failed reached M r.
    change message with (screenshot_record data now) in *. clear message.
    set (message := screenshot_record data now) in *.
    destruct (prune_facts (send_fails net message) (screen_viewers s))
      as (Hlen & Hnd & Hperm & Hsize & Hset & Hin).
    fold failed reached in Hlen, Hnd, Hperm, Hsize, Hset, Hin.
    destruct (handle_screen_data_run net Hquiet now data s)
      as (t & Hrun & _ & Hd & Hu & Hf).
    fold message failed reached in Hrun, Hd, Hu, Hf. subst r. rewrite Hrun.
    unfold state_of, trace_of. cbn [fst snd].
    destruct (unregistered_all_sets
                (elements (list_to_set failed : gset conn))
                (set_screen_info (screen_info_of data)
                   (set_current_screen_data (Some message) s))) as (_ & _ & Hv & _).
    rewrite Hv, Hset, Hu, Hd, Hf.
    change (screen_viewers (set_screen_info _ (set_current_screen_data _ s)))
      with (screen_viewers s).
    subst N M. repeat split; try done; try lia.
    + by rewrite Hperm.
    + apply Hin.
    + apply Hin.
Qed.

Lemma undisturbed_broadcast_prunes_failed_witness :
  size (screen_viewers
          (state_of (Muma2._broadcast_to_viewers net_two_closed
                       (screenshot_record frame_two "1.0") three_viewers)))
  = size (screen_viewers three_viewers)
    - length (failed_of (refused net_two_closed (screenshot_record frame_two "1.0"))
                (screen_viewers three_viewers)).
Proof.
  refine (proj1 (proj2 (proj2 (proj2 (proj2 (proj2 (proj2 (proj2
    (proj1 (undisturbed_broadcast_prunes_failed net_two_closed _)
       (screenshot_record frame_two "1.0") three_viewers))))))))).
  intros c x. reflexivity.
Defined.

(** ** C4: who a relayed message goes to *)

Lemma net_up_quiet : quiet net_up.
Proof. by intros c x. Qed.

Lemma one_of_each_exclusive : exclusive one_of_each.
Proof.
  unfold one_of_each, Muma2.run. cbn [foldl]. unfold Muma2.run_step.
  cbn [step_net step_now step_op Muma2.perform].
  rewrite !register_client2_state.
  repeat (apply registered_exclusive;
          [apply (bool_decide_unpack _); by vm_compute|]).
  apply init_exclusive.
Qed.



(** C4 at a hotkey sent with key codes.  A viewer 1, a provider 2 and a
    controller 3 are registered, each with one role, and the controller
    sends a keyboard hotkey whose keys are numbers.  [muma.py] sends the
    event to the provider.  [muma2.0.py] sends it to no one: joining the
    keys for the line it prints raises [TypeError], which
    [handle_control_event] catches and prints. *)
Theorem C4_hotkey_with_key_codes :
  exclusive one_of_each ∧
  elements (screen_providers one_of_each) = [2] ∧
  trace_of (Muma2.handle_client_message net_up "1.0" 3 (Some (JObj hotkey_codes))
              one_of_each)
    = [Printed (ControlEventError TypeError)] ∧
  attempted (trace_of (Muma.handle_client_message net_up "1.0" 3
                         (Some (JObj hotkey_codes)) one_of_each))
    = [(2, JObj hotkey_codes)] ∧
  attempted (trace_of (Muma2.handle_client_message net_up "1.0" 3
                         (Some (JObj mouse_click)) one_of_each))
    = [(2, JObj mouse_click)].
Proof.
  split; [apply one_of_each_exclusive|]. repeat split; by vm_compute.
Qed.

(** ** C9: a target that never answers *)

Lemma bind_trace {St A B} (m : M St A) (k : A → M St B) s :
  ∃ t, trace_of (bind m k s) = trace_of (m s) ++ t.
Proof.
  unfold bind, trace_of. destruct (m s) as [[[a|e|] s1] t1]; simpl.
  - destruct (k a s1) as [[r s2] t2]. by exists t2.
  - exists []. by rewrite app_nil_r.
  - exists []. by rewrite app_nil_r.
Qed.

Lemma elem_of_delivered_app_l p t1 t2 : p ∈ delivered t1 → p ∈ delivered (t1 ++ t2).
Proof. rewrite delivered_app, elem_of_app. by left. Qed.

Section Fan_out.
Variable nw : network.

Lemma send_to_client_delivers c message (s : server2) :
  opened nw c = true → awaiting nw c message = Returns →
  (c, message) ∈ delivered (trace_of (Muma2._send_to_client nw c message s)).
Proof.
  intros Hopen Hret.
  unfold Muma2._send_to_client, try_except, bind, during, await_send, emit, ret.
  rewrite Hopen, Hret. simpl. left.
Qed.

Lemma run_sends_delivers targets c message (s : server2) :
  c ∈ targets → opened nw c = true → awaiting nw c message = Returns →
  (c, message)
    ∈ delivered (trace_of (run_tasks
                   (map (λ viewer, Muma2._send_to_client nw viewer message) targets) s)).
Proof.
  intros Hc Hopen Hret. revert s.
  induction targets as [|b targets IH]; intros s; [by apply elem_of_nil in Hc|].
  cbn [map run_tasks]. unfold bind at 1, capture.
  destruct (decide (c = b)) as [<-|Hne].
  - pose proof (send_to_client_delivers c message s Hopen Hret) as Hd.
    unfold trace_of in *.
    destruct (Muma2._send_to_client nw c message s) as [[r s1] t1].
    destruct (bind _ _ s1) as [[r2 s2] t2]. simpl in *.
    by apply elem_of_delivered_app_l.
  - apply elem_of_cons in Hc as [->|Hc]; [done|].
    destruct (Muma2._send_to_client nw b message s) as [[r s1] t1].
    destruct (bind_trace
                (run_tasks (map (λ viewer, Muma2._send_to_client nw viewer message)
                              targets))
                (λ rs, ret (r :: rs)) s1) as (t & Ht).
    specialize (IH Hc s1). unfold trace_of in *.
    destruct (bind _ _ s1) as [[r2 s2] t2]. simpl in *. subst t2.
    rewrite !delivered_app, !elem_of_app. auto.
Qed.

Lemma broadcast_to_viewers_delivers c message (s : server2) :
  c ∈ screen_viewers s → opened nw c = true → awaiting nw c message = Returns →
  (c, message) ∈ delivered (trace_of (Muma2._broadcast_to_viewers nw message s)).
Proof.
  intros Hc Hopen Hret.
  assert (nonempty (screen_viewers s) = true) as Hne.
  { unfold nonempty. apply negb_true_iff, bool_decide_eq_false. set_solver. }
  unfold Muma2._broadcast_to_viewers. unfold bind at 1, gets. rewrite Hne.
  cbn [negb]. cbv zeta.
  match goal with
  | |- context [bind (gather ?tasks) ?k s] =>
      destruct (bind_trace (gather tasks) k s) as (t & Ht);
      destruct (bind_trace (run_tasks tasks)
                  (λ results, if forallb finished results then ret results
                              else pending) s) as (t' & Ht');
      pose proof (run_sends_delivers (elements (screen_viewers s)) c message s) as Hd
  end.
  unfold gather in Ht at 2. rewrite Ht' in Ht.
  unfold trace_of in *.
  destruct (bind (gather _) _ s) as [[r2 s2] t2]. simpl in *. subst t2.
  apply elem_of_delivered_app_l, elem_of_delivered_app_l, Hd; [|done|done].
  by apply elem_of_elements.
Qed.

Section Loop.
Variable targets_of : server → gset conn.
Variable message : json.
Variable report : exn → line.

(** The loop of [muma.py] stops as soon as the set has changed. *)
Lemma visit_changed used rest acc s :
  size (targets_of s) ≠ used →
  Muma.visit nw targets_of message report used rest acc s = (Raise RuntimeError, s, []).
Proof.
  intros Hne%Nat.eqb_neq. destruct rest; cbn [Muma.visit];
    unfold bind, gets, raise; by rewrite Hne.
Qed.

Lemma visit_nil used acc s :
  trace_of (Muma.visit nw targets_of message report used [] acc s) = [].
Proof.
  cbn [Muma.visit]. unfold bind, gets, raise, ret, trace_of.
  by destruct (size (targets_of s) =? used).
Qed.

(** One turn of the loop, while the set is as it was. *)
Lemma visit_cons used b rest acc s :
  size (targets_of s) = used →
  let s' := interfere (changes nw b message) s in
  trace_of (Muma.visit nw targets_of message report used (b :: rest) acc s)
  = match awaiting nw b message with
    | Returns =>
        Sent b message
        :: trace_of (Muma.visit nw targets_of message report used rest acc s')
    | Raises e =>
        SendFailed b message e
        :: match e with ConnectionClosed => [] | _ => [Printed (report e)] end
        ++ trace_of (Muma.visit nw targets_of message report used rest (add b acc) s')
    | Pends => []
    end.
Proof.
  intros Hsize s'. subst s'. cbn [Muma.visit].
  unfold bind at 1, gets. rewrite Hsize, Nat.eqb_refl. cbn [negb].
  unfold bind at 1, try_except, bind at 2, Muma.relay_send, during, await_send, emit,
    raise, ret, print, bind, trace_of.
  destruct (awaiting nw b message) as [|e|]; simpl.
  - by destruct (Muma.visit _ _ _ _ _ _ _ _) as [[r s2] t2].
  - destruct e; simpl;
      by destruct (Muma.visit _ _ _ _ _ _ _ _) as [[r s2] t2].
  - done.
Qed.

(** Whoever gets the payload is one of the targets. *)
Lemma visit_delivered_sound used rest acc s x :
  x ∈ delivered (trace_of (Muma.visit nw targets_of message report used rest acc s)) →
  ∃ c, x = (c, message) ∧ c ∈ rest.
Proof.
  revert acc s. induction rest as [|b rest IH]; intros acc s.
  - rewrite visit_nil. intros H. by apply elem_of_nil in H.
  - destruct (decide (size (targets_of s) = used)) as [Hsize|Hsize].
    + rewrite (visit_cons used b rest acc s Hsize). cbv zeta.
      destruct (awaiting nw b message) as [|e|].
      * intros [->|H]%elem_of_cons.
        -- exists b. split; [done|left].
        -- destruct (IH _ _ H) as (c & -> & Hc). exists c. split; [done|by right].
      * change (SendFailed b message e :: ?l) with ([SendFailed b message e] ++ l).
        rewrite !delivered_app, !elem_of_app.
        intros [H|[H|H]].
        -- by apply elem_of_nil in H.
        -- destruct e; simpl in H; by apply elem_of_nil in H.
        -- destruct (IH _ _ H) as (c & -> & Hc). exists c. split; [done|by right].
      * intros H. by apply elem_of_nil in H.
    + rewrite visit_changed by done. intros H. by apply elem_of_nil in H.
Qed.

Lemma visit_delivers used before c after acc s :
  size (targets_of s) = used → NoDup (before ++ c :: after) →
  (∀ b, b ∈ before → changes nw b message = None) →
  (c, message)
    ∈ delivered (trace_of (Muma.visit nw targets_of message report used
                             (before ++ c :: after) acc s))
  ↔ awaiting nw c message = Returns
    ∧ Forall (λ b, awaiting nw b message ≠ Pends) before.
Proof.
  intros Hsize. revert acc.
  induction before as [|b before IH]; intros acc Hnd Hquiet.
  - cbn [app] in *. rewrite (visit_cons used c after acc s Hsize). cbv zeta.
    apply NoDup_cons in Hnd as [Hc _].
    destruct (awaiting nw c message) as [|e|].
    + split; [done|]. intros _. left.
    + split; [|by intros [? _]].
      change (SendFailed c message e :: ?l) with ([SendFailed c message e] ++ l).
      rewrite !delivered_app, !elem_of_app.
      intros [H|[H|H]].
      * by apply elem_of_nil in H.
      * destruct e; simpl in H; by apply elem_of_nil in H.
      * destruct (visit_delivered_sound _ _ _ _ _ H) as (c' & [= <-] & Hin). done.
    + split; [|by intros [? _]]. intros H. by apply elem_of_nil in H.
  - cbn [app] in *. rewrite (visit_cons used b _ acc s Hsize). cbv zeta.
    apply NoDup_cons in Hnd as [Hb Hnd].
    assert (c ≠ b) as Hcb by (intros ->; apply Hb; set_solver).
    rewrite (Hquiet b) by left. cbn [interfere].
    assert (∀ x, x ∈ before → changes nw x message = None) as Hquiet'
      by (intros x Hx; apply Hquiet; by right).
    rewrite Forall_cons.
    destruct (awaiting nw b message) as [|e|].
    + change (Sent b message :: ?l) with ([Sent b message] ++ l).
      rewrite delivered_app, elem_of_app, (IH acc Hnd Hquiet'). simpl.
      rewrite list_elem_of_singleton. split.
      * intros [[= ?]|[? ?]]; [done|]. by repeat split.
      * intros (? & _ & ?). by right.
    + change (SendFailed b message e :: ?l) with ([SendFailed b message e] ++ l).
      rewrite !delivered_app, !elem_of_app, (IH (add b acc) Hnd Hquiet'). split.
      * intros [H|[H|[? ?]]].
        -- by apply elem_of_nil in H.
        -- destruct e; simpl in H; by apply elem_of_nil in H.
        -- by repeat split.
      * intros (? & _ & ?). right. by right.
    + split; [|by intros (_ & ? & _)]. intros H. by apply elem_of_nil in H.
Qed.

Lemma visit_aborts used before b after acc s c :
  size (targets_of s) = used → NoDup (before ++ b :: after) →
  (∀ x, x ∈ before → changes nw x message = None) →
  size (targets_of (interfere (changes nw b message) s)) ≠ used →
  c ∈ after →
  (c, message)
    ∉ delivered (trace_of (Muma.visit nw targets_of message report used
                             (before ++ b :: after) acc s)).
Proof.
  intros Hsize. revert acc.
  induction before as [|x before IH]; intros acc Hnd Hquiet Hchanged Hc.
  - cbn [app] in *. rewrite (visit_cons used b after acc s Hsize). cbv zeta.
    apply NoDup_cons in Hnd as [Hb _].
    assert (c ≠ b) as Hcb by (by intros ->).
    rewrite !visit_changed by done.
    destruct (awaiting nw b message) as [|e|]; simpl.
    + rewrite list_elem_of_singleton. by intros [= ?].
    + destruct e; simpl; by intros H%elem_of_nil.
    + by intros H%elem_of_nil.
  - cbn [app] in *. rewrite (visit_cons used x _ acc s Hsize). cbv zeta.
    apply NoDup_cons in Hnd as [Hx Hnd].
    assert (c ≠ x) as Hcx by (intros ->; apply Hx; set_solver).
    rewrite (Hquiet x) by left. cbn [interfere].
    assert (∀ y, y ∈ before → changes nw y message = None) as Hquiet'
      by (intros y Hy; apply Hquiet; by right).
    destruct (awaiting nw x message) as [|e|].
    + change (Sent x message :: ?l) with ([Sent x message] ++ l).
      rewrite delivered_app, elem_of_app. simpl. rewrite list_elem_of_singleton.
      intros [[= ?]|H]; [done|]. by apply (IH acc Hnd Hquiet' Hchanged Hc).
    + change (SendFailed x message e :: ?l) with ([SendFailed x message e] ++ l).
      rewrite !delivered_app, !elem_of_app.
      intros [H|[H|H]].
      * by apply elem_of_nil in H.
      * destruct e; simpl in H; by apply elem_of_nil in H.
      * by apply (IH (add x acc) Hnd Hquiet' Hchanged Hc).
    + by intros H%elem_of_nil.
Qed.

Lemma send_all_trace s :
  trace_of (Muma.send_all nw targets_of message report s)
  = trace_of (Muma.visit nw targets_of message report (size (targets_of s))
                (elements (targets_of s)) ∅ s).
Proof.
  unfold Muma.send_all, bind, gets, trace_of.
  by destruct (Muma.visit _ _ _ _ _ _ _ _) as [[r s2] t2].
Qed.
End Loop.
End Fan_out.

(** C9, as the code has it.  In [muma2.0.py] every viewer has its own send
    task, and an open viewer whose send returns gets the payload whatever
    the sends to the other targets do and whatever happens to the registry
    meanwhile.  In [muma.py] the sends are awaited one after the other, in
    the order the set is iterated: as long as the registry has not changed
    during the sends before it, a target gets the payload exactly when its
    own send returns and no target visited before it has a send that never
    comes back; and when the set has another size after the send to a
    target, no target after that one gets the payload. *)
Theorem C9_fan_out :
  (∀ (nw : network) message c (s : server2),
     c ∈ screen_viewers s → opened nw c = true → awaiting nw c message = Returns →
     (c, message) ∈ delivered (trace_of (Muma2._broadcast_to_viewers nw message s))) ∧
  (∀ (nw : network) targets_of message report before c after (s : server),
     elements (targets_of s) = before ++ c :: after →
     (∀ b, b ∈ before → changes nw b message = None) →
     (c, message) ∈ delivered (trace_of (Muma.send_all nw targets_of message report s))
     ↔ awaiting nw c message = Returns
       ∧ Forall (λ b, awaiting nw b message ≠ Pends) before) ∧
  (∀ (nw : network) targets_of message report before b after (s : server),
     elements (targets_of s) = before ++ b :: after →
     (∀ x, x ∈ before → changes nw x message = None) →
     size (targets_of (interfere (changes nw b message) s)) ≠ size (targets_of s) →
     ∀ c, c ∈ after →
          (c, message)
            ∉ delivered (trace_of (Muma.send_all nw targets_of message report s))).
Proof.
  split; [|split].
  - intros nw message c s. apply broadcast_to_viewers_delivers.
  - intros nw targets_of message report before c after s Hel Hquiet.
    rewrite send_all_trace, Hel.
    apply visit_delivers; [done| |done].
    rewrite <- Hel. apply NoDup_elements.
  - intros nw targets_of message report before b after s Hel Hquiet Hchanged c Hc.
    rewrite send_all_trace, Hel.
    apply visit_aborts; [done| |done|done|done].
    rewrite <- Hel. apply NoDup_elements.
Qed.

Lemma C9_fan_out_witness :
  (1, JStr "frame")
    ∈ delivered (trace_of (Muma2._broadcast_to_viewers two_pends (JStr "frame")
                             two_viewers)) ∧
  ((1, JStr "frame")
     ∈ delivered (trace_of (Muma.send_all two_pends screen_viewers (JStr "frame")
                              SendScreenError two_viewers))
   ↔ awaiting two_pends 1 (JStr "frame") = Returns
     ∧ Forall (λ b, awaiting two_pends b (JStr "frame") ≠ Pends) [2]) ∧
  (1, JStr "frame")
    ∉ delivered (trace_of (Muma.send_all net_two_leaves screen_viewers (JStr "frame")
                             SendScreenError three_viewers)).
Proof.
  split; [|split].
  - apply (proj1 C9_fan_out two_pends (JStr "frame") 1 two_viewers).
    + apply (bool_decide_unpack _). by vm_compute.
    + reflexivity.
    + reflexivity.
  - apply (proj1 (proj2 C9_fan_out) two_pends screen_viewers (JStr "frame")
             SendScreenError [2] 1 [] two_viewers).
    + by vm_compute.
    + intros b Hb. reflexivity.
  - apply (proj2 (proj2 C9_fan_out) net_two_leaves screen_viewers (JStr "frame")
             SendScreenError [2] 3 [1] three_viewers).
    + by vm_compute.
    + intros x Hx. apply list_elem_of_singleton in Hx as ->. reflexivity.
    + vm_compute. discriminate.
    + left.
Defined.

(** C9 as stated fails in [muma.py]: the viewers 1 and 2 are visited with 2
    first, the send to 2 never comes back, and 1, whose send would return,
    does not get the frame; under [muma2.0.py] it does. *)
Lemma C9_counterexample :
  elements (screen_viewers two_viewers) = [2; 1] ∧
  awaiting two_pends 1 (JStr "frame") = Returns ∧
  delivered (trace_of (Muma.send_all two_pends screen_viewers (JStr "frame")
                         SendScreenError two_viewers)) = [] ∧
  delivered (trace_of (Muma2._broadcast_to_viewers two_pends (JStr "frame")
                         two_viewers)) = [(1, JStr "frame")].
Proof. repeat split; by vm_compute. Qed.

Lemma C5_frame_never_cleared_witness :
  has_screen_data
    (get_server_status (Muma.run [Step net_up "2.0" (Close 1)] with_frame)) = true.
Proof.
  apply (proj2 C5_frame_never_cleared [Step net_up "2.0" (Close 1)] with_frame).
  reflexivity.
Defined.

(** ** The handlers on small inputs *)

(** Of three viewers the second is closed: the frame goes to the other two,
    the closed one is unregistered, and two sends are counted. *)
Example broadcast_to_three_viewers :
  let r := Muma2.handle_client_message net_two_closed "1.0" 3
             (Some (JObj frame_two)) three_viewers in
  delivered (trace_of r)
    = [(3, screenshot_record frame_two "1.0"); (1, screenshot_record frame_two "1.0")] ∧
  unregister_calls (trace_of r) = [2] ∧
  elements (screen_viewers (state_of r)) = [3; 1] ∧
  messages_sent (stats (state_of r)) = 2.
Proof. by vm_compute. Qed.

(** A whole session of [muma.py]: accepted, one ping, closed. *)
Example session_with_ping :
  let r := Muma.handle_client net_up "1.0" 1 [Some (JObj [("type", JStr "ping")]%string)]
             (Some ConnectionClosed) init in
  delivered (trace_of r) = [(1, pong_record)] ∧ state_of r = init.
Proof. by vm_compute. Qed.

(** What is not a JSON object, or cannot be decoded, is printed and dropped. *)
Example garbage_is_dropped :
  trace_of (Muma.handle_client_message net_up "1.0" 1 None init) = [Printed InvalidJSON] ∧
  trace_of (Muma.handle_client_message net_up "1.0" 1 (Some (JArr [])) init)
    = [Printed (ClientMessageError AttributeError)] ∧
  trace_of (Muma.handle_client_message net_up "1.0" 1
              (Some (JObj [("type", JStr "dance")]%string)) init) = [].
Proof. by vm_compute. Qed.

(** While the frame is relayed to the first of two viewers a session is
    accepted.  The loop of [muma.py], which runs over the set itself, stops
    with [RuntimeError]: viewer 1 is not sent the frame.  [muma2.0.py]
    sends it to both. *)
Example accept_during_relay :
  let r1 := Muma.handle_screen_data net_nine_joins "1.0" frame_two two_viewers in
  let r2 := Muma2.handle_screen_data net_nine_joins "1.0" frame_two two_viewers in
  map fst (delivered (trace_of r1)) = [2] ∧
  last (trace_of r1) = Some (Printed (ScreenDataError RuntimeError)) ∧
  map fst (delivered (trace_of r2)) = [2; 1] ∧
  elements (screen_viewers (state_of r2)) = [2; 9; 1].
Proof. by vm_compute. Qed.


(** * Further properties of the handlers *)

(** ** Nothing escapes [handle_client_message] *)


(** ** Messages no branch takes *)

Lemma recognized_false msg_type :
  recognized msg_type = false →
  py_eq msg_type "register" = false ∧ py_eq msg_type "screen_data" = false ∧
  py_eq msg_type "mouse" = false ∧ py_eq msg_type "keyboard" = false ∧
  py_eq msg_type "get_screenshot" = false ∧ py_eq msg_type "ping" = false.
Proof.
  unfold recognized. intros H.
  repeat (apply orb_false_iff in H as [H ?]). by repeat split.
Qed.

(** A message that cannot be decoded, is no object, or has a missing or
    unknown [type] is dropped: nothing is sent, [unregister_client] is not
    called, and the server object stays as it was, but that [muma2.0.py]
    counts an object as received. *)
Theorem unrecognized_message_dropped net now ws message (s : server2) :
  unrecognized message = true →
  let r1 := Muma.handle_client_message net now ws message s in
  let r2 := Muma2.handle_client_message net now ws message s in
  attempted (trace_of r1) = [] ∧ unregister_calls (trace_of r1) = [] ∧
  state_of r1 = base s ∧
  attempted (trace_of r2) = [] ∧ unregister_calls (trace_of r2) = [] ∧
  base (state_of r2) = base s ∧
  messages_sent (stats (state_of r2)) = messages_sent (stats s) ∧
  messages_received (stats (state_of r2))
    = messages_received (stats s) + counted_received (Dispatch ws message).
Proof.
  intros Hun r1 r2. subst r1 r2.
  unfold Muma.handle_client_message, Muma2.handle_client_message.
  destruct message as [j|]; [destruct j|]; simpl in Hun; simpl counted_received;
    try (repeat split; simpl; first [done | lia]).
  apply negb_true_iff, recognized_false in Hun as (-> & -> & -> & -> & -> & ->).
  repeat split; simpl; first [done | lia].
Qed.

Lemma unrecognized_message_dropped_witness :
  attempted
    (trace_of (Muma.handle_client_message net_up "0.0" 1
                 (Some (JObj [("type", JInt 7)]%string)) (Muma2.init "0.0"))) = [].
Proof.
  apply (unrecognized_message_dropped net_up "0.0" 1
           (Some (JObj [("type", JInt 7)]%string)) (Muma2.init "0.0")).
  reflexivity.
Defined.

(** ** [ping] *)

(** A [ping] is answered with one send to the sender, of the record
    [{type: pong}], and nothing else; the registry is not touched, also when
    the send fails, and [muma2.0.py] counts the [pong] as sent exactly when
    it arrived. *)
Theorem ping_is_answered_with_pong net now ws data (s : server2) :
  dict_get data "type" JNull = JStr "ping" →
  let r1 := Muma.handle_client_message net now ws (Some (JObj data)) s in
  let r2 := Muma2.handle_client_message net now ws (Some (JObj data)) s in
  attempted (trace_of r1) = [(ws, JObj [("type", JStr "pong")]%string)] ∧
  attempted (trace_of r2) = [(ws, JObj [("type", JStr "pong")]%string)] ∧
  delivered (trace_of r1) = delivered (trace_of r2) ∧
  unregister_calls (trace_of r1) = [] ∧ unregister_calls (trace_of r2) = [] ∧
  state_of r1 = base s ∧ base (state_of r2) = base s ∧
  messages_sent (stats (state_of r2))
    = messages_sent (stats s) + length (delivered (trace_of r2)).
Proof.
  intros Hty r1 r2. subst r1 r2.
  unfold Muma.handle_client_message, Muma2.handle_client_message.
  rewrite Hty. simpl. run_coroutine.
  change (JObj [("type", JStr "pong")]%string) with pong_record.
  destruct (send_exn net ws pong_record) as [[]|]; simpl; repeat split;
    first [done | lia].
Qed.

Lemma ping_is_answered_with_pong_witness :
  attempted
    (trace_of (Muma.handle_client_message net_up "0.0" 1
                 (Some (JObj [("type", JStr "ping")]%string)) (Muma2.init "0.0")))
  = [(1, JObj [("type", JStr "pong")]%string)].
Proof.
  apply (ping_is_answered_with_pong net_up "0.0" 1 [("type", JStr "ping")]%string
           (Muma2.init "0.0")).
  reflexivity.
Defined.

(** ** A whole session *)

Lemma for_each_returns {St A} (xs : list A) (body : A → M St unit) s :
  (∀ x s1, result_of (body x s1) = Ok tt) →
  result_of (for_each xs body s) = Ok tt ∧
  state_of (for_each xs body s) = foldl (λ s1 x, state_of (body x s1)) s xs.
Proof.
  intros Hbody. revert s. induction xs as [|x xs IH]; intros s; [done|].
  cbn [for_each foldl]. specialize (Hbody x s). specialize (IH (state_of (body x s))).
  unfold bind, result_of, state_of in *.
  destruct (body x s) as [[[[]|e|] s1] t1]; [|done|done]. simpl in *.
  by destruct (for_each xs body s1) as [[r s2] t2].
Qed.

Lemma run_session net now ws messages s :
  Muma.run (session net now ws messages) s
  = unregistered ws
      (foldl (λ s1 message,
                state_of (Muma.handle_client_message net now ws message s1))
         (registered ws default_client_type s) messages).
Proof.
  unfold session, Muma.run. cbn [foldl]. rewrite foldl_app. cbn [foldl].
  unfold Muma.run_step at 1 3. cbn [step_net step_now step_op Accept Close Muma.perform].
  rewrite unregister_client_state, register_client_state. f_equal.
  generalize (registered ws default_client_type s). clear s.
  induction messages as [|message messages IH]; intros s; [done|].
  cbn [map foldl]. by rewrite IH.
Qed.

Lemma run2_session net now ws messages (s : server2) :
  Muma2.run (session net now ws messages) s
  = on_base (unregistered ws)
      (foldl (λ s1 message,
                state_of (Muma2.handle_client_message net now ws message s1))
         (state_of (Muma2.register_client net ws default_client_type s)) messages).
Proof.
  unfold session, Muma2.run. cbn [foldl]. rewrite foldl_app. cbn [foldl].
  unfold Muma2.run_step at 1 3.
  cbn [step_net step_now step_op Accept Close Muma2.perform].
  rewrite unregister_client2_state. f_equal.
  generalize (state_of (Muma2.register_client net ws default_client_type s)). clear s.
  induction messages as [|message messages IH]; intros s; [done|].
  cbn [map foldl]. by rewrite IH.
Qed.

Lemma as_triple {St A} (r : res A * St * list event) :
  r = (result_of r, state_of r, trace_of r).
Proof. by destruct r as [[? ?] ?]. Qed.

(** The loop over the messages of a session with what ends it, under a
    handler that only prints. *)
Lemma session_loop_run {St} (body : option json → M St unit)
    (messages : list (option json)) (ending : option exn)
    (h : exn → M St unit) s :
  (∀ message s1, result_of (body message s1) = Ok tt) →
  (∀ e s1, ∃ t, h e s1 = (Ok tt, s1, t)) →
  ∃ t, try_except
         (for_each messages body >>
          match ending with
          | None => ret tt
          | Some e => raise e
          end) h s
       = (Ok tt, foldl (λ s1 message, state_of (body message s1)) s messages, t).
Proof.
  intros Hbody Hh. destruct (for_each_returns messages body s Hbody) as [Hr Hs].
  pose proof (as_triple (for_each messages body s)) as Hloop.
  rewrite Hr, Hs in Hloop.
  unfold try_except, bind. rewrite Hloop.
  destruct ending as [e|]; simpl; [|by eexists].
  destruct (Hh e (foldl (λ s1 message, state_of (body message s1)) s messages))
    as (t & ->).
  by eexists.
Qed.

Lemma handle_client_run net now ws messages ending s :
  result_of (Muma.handle_client net now ws messages ending s) = Ok tt ∧
  state_of (Muma.handle_client net now ws messages ending s)
  = Muma.run (session net now ws messages) s.
Proof.
  rewrite run_session.
  destruct (register_client_run net ws default_client_type s) as (Hr & Hs & _).
  pose proof (as_triple (Muma.register_client net ws default_client_type s)) as Hreg.
  rewrite Hr, Hs in Hreg.
  destruct (session_loop_run (Muma.handle_client_message net now ws) messages ending
              (λ e, match e with
                    | ConnectionClosed => ret tt
                    | _ => print (ConnectionError e)
                    end) (registered ws default_client_type s))
    as (t & Hloop).
  { intros message s1. apply handle_client_message_returns. }
  { intros [] s1; by eexists. }
  assert (Muma.handle_client net now ws messages ending s
          = (Ok tt,
             unregistered ws
               (foldl (λ s1 message,
                         state_of (Muma.handle_client_message net now ws message s1))
                  (registered ws default_client_type s) messages),
             trace_of (Muma.register_client net ws default_client_type s)
             ++ t ++ trace_of (Muma.unregister_client ws
                  (foldl (λ s1 message,
                         state_of (Muma.handle_client_message net now ws message s1))
                  (registered ws default_client_type s) messages)))) as ->; [|done].
  unfold Muma.handle_client.
  eapply bind_eq; [exact Hreg|].
  eapply bind_eq; [exact Hloop|].
  apply unregister_client_eq.
Qed.

Lemma handle_client2_run net now ws messages ending (s : server2) :
  result_of (Muma2.handle_client net now ws messages ending s) = Ok tt ∧
  state_of (Muma2.handle_client net now ws messages ending s)
  = Muma2.run (session net now ws messages) s.
Proof.
  rewrite run2_session.
  destruct (register_client2_run net ws default_client_type s) as (Hr & _).
  pose proof (as_triple (Muma2.register_client net ws default_client_type s)) as Hreg.
  rewrite Hr in Hreg.
  destruct (session_loop_run (Muma2.handle_client_message net now ws) messages ending
              (λ e, match e with
                    | ConnectionClosed => print ClosedNormally
                    | _ => print (ConnectionError e)
                    end)
              (state_of (Muma2.register_client net ws default_client_type s)))
    as (t & Hloop).
  { intros message s1. apply handle_client_message2_returns. }
  { intros [] s1; by eexists. }
  destruct (unregister_client2_eq ws
              (foldl (λ s1 message,
                        state_of (Muma2.handle_client_message net now ws message s1))
                 (state_of (Muma2.register_client net ws default_client_type s))
                 messages)) as (kind & n & Hun).
  assert (∃ t', Muma2.handle_client net now ws messages ending s
          = (Ok tt,
             on_base (unregistered ws)
               (foldl (λ s1 message,
                         state_of (Muma2.handle_client_message net now ws message s1))
                  (state_of (Muma2.register_client net ws default_client_type s))
                  messages), t')) as (t' & ->); [|done].
  eexists. unfold Muma2.handle_client.
  eapply (bind_eq _ _ _ tt s [Printed NewConnection]); [reflexivity|].
  eapply bind_eq; [exact Hreg|].
  eapply bind_eq; [exact Hloop|].
  exact Hun.
Qed.


(** ** Registering twice, and registering then unregistering *)

Lemma registered_fields ws client_type s :
  running (registered ws client_type s) = running s ∧
  current_screen_data (registered ws client_type s) = current_screen_data s ∧
  screen_info (registered ws client_type s) = screen_info s.
Proof.
  unfold registered.
  destruct (py_eq client_type "provider"); [done|].
  by destruct (py_eq client_type "controller").
Qed.

Lemma discard_add ws (X : gset conn) : ws ∉ X → discard ws (add ws X) = X.
Proof. unfold discard, add. set_solver. Qed.

Lemma discard_fresh ws (X : gset conn) : ws ∉ X → discard ws X = X.
Proof. unfold discard. set_solver. Qed.

Lemma unregistered_registered ws client_type s :
  ws ∉ clients s → ws ∉ role_sets s →
  unregistered ws (registered ws client_type s) = s.
Proof.
  intros Hc Hr. unfold role_sets in Hr.
  assert ((ws ∉ screen_providers s) ∧ (ws ∉ screen_viewers s)
          ∧ (ws ∉ control_clients s)) as (Hp & Hv & Hk).
  { set_solver. }
  destruct (unregistered_fields ws (registered ws client_type s))
    as (Hc' & Hp' & Hv' & Hk' & Hr' & Hd' & Hi').
  destruct (registered_sets ws client_type s) as (Hrc & Hrp & Hrk & Hrv).
  destruct (registered_fields ws client_type s) as (Hrr & Hrd & Hri).
  apply server_eq; [rewrite Hc', Hrc | rewrite Hp', Hrp | rewrite Hv', Hrv
                   | rewrite Hk', Hrk | congruence | congruence | congruence].
  - by apply discard_add.
  - destruct (py_eq client_type "provider");
      [by apply discard_add | by apply discard_fresh].
  - destruct (py_eq client_type "provider"); [by apply discard_fresh|].
    destruct (py_eq client_type "controller");
      [by apply discard_fresh | by apply discard_add].
  - destruct (py_eq client_type "provider"); [by apply discard_fresh|].
    destruct (py_eq client_type "controller");
      [by apply discard_add | by apply discard_fresh].
Qed.

Lemma registered_commute ws a b s :
  registered ws a (registered ws b s) = registered ws b (registered ws a s).
Proof.
  destruct (registered_sets ws a (registered ws b s)) as (Hc1 & Hp1 & Hk1 & Hv1).
  destruct (registered_sets ws b (registered ws a s)) as (Hc2 & Hp2 & Hk2 & Hv2).
  destruct (registered_sets ws a s) as (Hca & Hpa & Hka & Hva).
  destruct (registered_sets ws b s) as (Hcb & Hpb & Hkb & Hvb).
  destruct (registered_fields ws a (registered ws b s)) as (Hr1 & Hd1 & Hi1).
  destruct (registered_fields ws b (registered ws a s)) as (Hr2 & Hd2 & Hi2).
  destruct (registered_fields ws a s) as (Hra & Hda & Hia).
  destruct (registered_fields ws b s) as (Hrb & Hdb & Hib).
  apply server_eq; [| | | |congruence|congruence|congruence].
  - by rewrite Hc1, Hc2, Hca, Hcb.
  - rewrite Hp1, Hp2, Hpa, Hpb.
    by destruct (py_eq a "provider"), (py_eq b "provider").
  - rewrite Hv1, Hv2, Hva, Hvb.
    by destruct (py_eq a "provider"), (py_eq b "provider"),
      (py_eq a "controller"), (py_eq b "controller").
  - rewrite Hk1, Hk2, Hka, Hkb.
    by destruct (py_eq a "provider"), (py_eq b "provider"),
      (py_eq a "controller"), (py_eq b "controller").
Qed.

Lemma registered_twice ws client_type s :
  registered ws client_type (registered ws client_type s)
  = registered ws client_type s.
Proof.
  destruct (registered_sets ws client_type (registered ws client_type s))
    as (Hc1 & Hp1 & Hk1 & Hv1).
  destruct (registered_sets ws client_type s) as (Hc & Hp & Hk & Hv).
  destruct (registered_fields ws client_type (registered ws client_type s))
    as (Hr1 & Hd1 & Hi1).
  apply server_eq; [| | | |done|done|done].
  - rewrite Hc1, Hc. apply add_twice.
  - rewrite Hp1, Hp. destruct (py_eq client_type "provider"); [apply add_twice|done].
  - rewrite Hv1, Hv. destruct (py_eq client_type "provider"); [done|].
    destruct (py_eq client_type "controller"); [done|apply add_twice].
  - rewrite Hk1, Hk. destruct (py_eq client_type "provider"); [done|].
    destruct (py_eq client_type "controller"); [apply add_twice|done].
Qed.

(** [register_client] followed by [unregister_client] of a connection that
    was in no set gives back the registry as it was, whatever the
    [client_type]; so a session without messages leaves no mark on the
    registry. *)
Theorem register_then_unregister_restores net now ws client_type ending (s : server2) :
  ws ∉ clients s → ws ∉ role_sets s →
  state_of (Muma.unregister_client ws
              (state_of (Muma.register_client net ws client_type s))) = base s ∧
  base (state_of (Muma2.unregister_client ws
                    (state_of (Muma2.register_client net ws client_type s))))
    = base s ∧
  state_of (Muma.handle_client net now ws [] ending s) = base s ∧
  base (state_of (Muma2.handle_client net now ws [] ending s)) = base s.
Proof.
  intros Hc Hr.
  destruct (handle_client_run net now ws [] ending s) as [_ ->].
  destruct (handle_client2_run net now ws [] ending s) as [_ ->].
  rewrite run_session, run2_session. cbn [foldl].
  rewrite unregister_client_state, unregister_client2_state, register_client_state.
  cbn [base on_base]. rewrite !register_client2_state.
  by rewrite !unregistered_registered.
Qed.

Lemma register_then_unregister_restores_witness :
  state_of (Muma.unregister_client 7
              (state_of (Muma.register_client net_up 7 (JStr "provider") three_viewers)))
  = base three_viewers.
Proof.
  refine (proj1 (register_then_unregister_restores net_up "0.0" 7 (JStr "provider")
                   None three_viewers _ _)).
  - apply (bool_decide_unpack _). by vm_compute.
  - apply (bool_decide_unpack _). by vm_compute.
Defined.

(** The registry after two registrations of one connection does not depend
    on their order, and a registration repeated with the same [client_type]
    changes nothing: role sets only accumulate. *)
Theorem registrations_accumulate net1 net2 ws a b (s : server2) :
  state_of (Muma.register_client net2 ws a
              (state_of (Muma.register_client net1 ws b s)))
  = state_of (Muma.register_client net2 ws b
                (state_of (Muma.register_client net1 ws a s))) ∧
  state_of (Muma.register_client net2 ws a
              (state_of (Muma.register_client net1 ws a s)))
  = state_of (Muma.register_client net1 ws a s) ∧
  base (state_of (Muma2.register_client net2 ws a
                    (state_of (Muma2.register_client net1 ws b s))))
  = base (state_of (Muma2.register_client net2 ws b
                      (state_of (Muma2.register_client net1 ws a s)))) ∧
  base (state_of (Muma2.register_client net2 ws a
                    (state_of (Muma2.register_client net1 ws a s))))
  = base (state_of (Muma2.register_client net1 ws a s)).
Proof.
  rewrite !register_client_state, !register_client2_state.
  rewrite registered_twice. by rewrite (registered_commute ws a b).
Qed.

(** ** Every connection has a role *)

Lemma registered_clients_in_roles ws client_type s :
  inv_kept clients_in_roles s (registered ws client_type s).
Proof.
  unfold inv_kept, clients_in_roles, role_sets.
  destruct (registered_sets ws client_type s) as (-> & -> & -> & ->).
  unfold add.
  destruct (py_eq client_type "provider"); [set_solver|].
  destruct (py_eq client_type "controller"); set_solver.
Qed.

Lemma unregistered_clients_in_roles ws s :
  inv_kept clients_in_roles s (unregistered ws s).
Proof.
  unfold inv_kept, clients_in_roles, role_sets.
  destruct (unregistered_fields ws s) as (-> & -> & -> & -> & _).
  unfold discard. set_solver.
Qed.

Lemma run_clients_in_roles steps s :
  clients_in_roles s → clients_in_roles (Muma.run steps s).
Proof.
  apply (keeps_run (inv_kept clients_in_roles));
    [ apply unregistered_clients_in_roles | intros d s0 H; exact H
    | intros i s0 H; exact H | apply registered_clients_in_roles ].
Qed.

Lemma run2_clients_in_roles steps (s : server2) :
  clients_in_roles s → clients_in_roles (Muma2.run steps s).
Proof.
  apply (keeps_run2 (inv_kept clients_in_roles));
    [ apply unregistered_clients_in_roles | intros d s0 H; exact H
    | intros i s0 H; exact H | apply registered_clients_in_roles ].
Qed.

Lemma size_union_le (X Y : gset conn) : size (X ∪ Y) ≤ size X + size Y.
Proof.
  rewrite size_union_alt.
  assert (size (Y ∖ X) ≤ size Y); [|lia]. apply subseteq_size. set_solver.
Qed.

Lemma status_bounds s :
  clients s = role_sets s →
  st_screen_providers (get_server_status s) ≤ total_clients (get_server_status s) ∧
  st_screen_viewers (get_server_status s) ≤ total_clients (get_server_status s) ∧
  st_control_clients (get_server_status s) ≤ total_clients (get_server_status s) ∧
  total_clients (get_server_status s)
  ≤ st_screen_providers (get_server_status s)
    + st_screen_viewers (get_server_status s)
    + st_control_clients (get_server_status s).
Proof.
  unfold get_server_status, role_sets. simpl. intros ->.
  split; [apply subseteq_size; set_solver|].
  split; [apply subseteq_size; set_solver|].
  split; [apply subseteq_size; set_solver|].
  pose proof (size_union_le (screen_providers s ∪ screen_viewers s) (control_clients s)).
  pose proof (size_union_le (screen_providers s) (screen_viewers s)).
  lia.
Qed.

(** In every state the operations can reach, [clients] is exactly the union
    of the three role sets: no connection is counted without a role.  So
    in the status none of the three role counts is above [total_clients],
    and [total_clients] is at most their sum (and below it as soon as a
    connection has two roles). *)
Theorem clients_are_the_role_sets steps start :
  let s1 := Muma.run steps init in
  let s2 := Muma2.run steps (Muma2.init start) in
  clients s1 = role_sets s1 ∧ clients s2 = role_sets s2 ∧
  (st_screen_providers (get_server_status s1) ≤ total_clients (get_server_status s1) ∧
   st_screen_viewers (get_server_status s1) ≤ total_clients (get_server_status s1) ∧
   st_control_clients (get_server_status s1) ≤ total_clients (get_server_status s1) ∧
   total_clients (get_server_status s1)
   ≤ st_screen_providers (get_server_status s1)
     + st_screen_viewers (get_server_status s1)
     + st_control_clients (get_server_status s1)) ∧
  (st_screen_providers (get_server_status s2) ≤ total_clients (get_server_status s2) ∧
   st_screen_viewers (get_server_status s2) ≤ total_clients (get_server_status s2) ∧
   st_control_clients (get_server_status s2) ≤ total_clients (get_server_status s2) ∧
   total_clients (get_server_status s2)
   ≤ st_screen_providers (get_server_status s2)
     + st_screen_viewers (get_server_status s2)
     + st_control_clients (get_server_status s2)).
Proof.
  intros s1 s2.
  assert (clients_in_roles init) as Hinit.
  { unfold clients_in_roles. simpl. set_solver. }
  assert (clients s1 = role_sets s1) as H1.
  { apply set_eq. intros c. split.
    - apply (run_clients_in_roles steps init Hinit).
    - apply (run_roles_in_clients steps init init_roles_in_clients). }
  assert (clients s2 = role_sets s2) as H2.
  { apply set_eq. intros c. split.
    - apply (run2_clients_in_roles steps (Muma2.init start) Hinit).
    - apply (run2_roles_in_clients steps (Muma2.init start) init_roles_in_clients). }
  split; [done|]. split; [done|].
  split; by apply status_bounds.
Qed.

(** ** The cached frame and [screen_info] *)

Lemma matches_dimensions s :
  frame_matches_info s →
  match current_screen_data s with
  | None => screen_info s = ScreenInfo (JInt 0) (JInt 0) (JInt 0) (JInt 0)
  | Some d =>
      ∃ items, d = JObj items ∧
        dict_lookup "type" items = Some (JStr "screenshot") ∧
        dict_lookup "width" items = Some (width (screen_info s)) ∧
        dict_lookup "height" items = Some (height (screen_info s)) ∧
        dict_lookup "original_width" items = Some (original_width (screen_info s)) ∧
        dict_lookup "original_height" items = Some (original_height (screen_info s))
  end.
Proof.
  unfold frame_matches_info. destruct (current_screen_data s) as [d|]; [|done].
  intros (data & now & -> & ->). eexists. split; [reflexivity|]. by repeat split.
Qed.

(** In every state the operations can reach, [screen_info] tells of the
    cached frame: while no frame was handed in it holds the four zeros of
    [__init__]; afterwards the cached record is a [screenshot] whose width,
    height and original width and height are the ones in [screen_info],
    the ones a [register_ack] and the status report. *)
Theorem screen_info_is_of_cached_frame steps start :
  let s1 := Muma.run steps init in
  let s2 := Muma2.run steps (Muma2.init start) in
  match current_screen_data s1 with
  | None => screen_info s1 = ScreenInfo (JInt 0) (JInt 0) (JInt 0) (JInt 0)
  | Some d =>
      ∃ items, d = JObj items ∧
        dict_lookup "type" items = Some (JStr "screenshot") ∧
        dict_lookup "width" items = Some (width (screen_info s1)) ∧
        dict_lookup "height" items = Some (height (screen_info s1)) ∧
        dict_lookup "original_width" items = Some (original_width (screen_info s1)) ∧
        dict_lookup "original_height" items = Some (original_height (screen_info s1))
  end ∧
  match current_screen_data s2 with
  | None => screen_info s2 = ScreenInfo (JInt 0) (JInt 0) (JInt 0) (JInt 0)
  | Some d =>
      ∃ items, d = JObj items ∧
        dict_lookup "type" items = Some (JStr "screenshot") ∧
        dict_lookup "width" items = Some (width (screen_info s2)) ∧
        dict_lookup "height" items = Some (height (screen_info s2)) ∧
        dict_lookup "original_width" items = Some (original_width (screen_info s2)) ∧
        dict_lookup "original_height" items = Some (original_height (screen_info s2))
  end.
Proof.
  intros s1 s2. split.
  - apply matches_dimensions, run_matches. reflexivity.
  - apply matches_dimensions, run2_matches. reflexivity.
Qed.

(** ** The counters of [muma2.0.py] *)

Ltac accounts_now :=
  intros s; unfold state_of, trace_of, ret, raise, gets, print, emit, modify;
  simpl; lia.

Lemma accounts_ret {A} (a : A) : accounts (ret a).
Proof. accounts_now. Qed.

Lemma accounts_raise {A} (e : exn) : accounts (@raise server2 A e).
Proof. accounts_now. Qed.

Lemma accounts_gets {A} (f : server2 → A) : accounts (gets f).
Proof. accounts_now. Qed.

Lemma accounts_print (l : line) : accounts (print l).
Proof. accounts_now. Qed.

Lemma accounts_print_text (l : line) (texts : list string) :
  accounts (print_text l texts).
Proof.
  unfold print_text. destruct (existsb has_surrogate texts); accounts_now.
Qed.

Lemma accounts_call (c : conn) : accounts (emit (CallUnregister c)).
Proof. accounts_now. Qed.

Lemma accounts_failed (c : conn) (x : json) (e : exn) : accounts (emit (SendFailed c x e)).
Proof. accounts_now. Qed.

Lemma accounts_on_base (f : server → server) : accounts (modify (on_base f)).
Proof. accounts_now. Qed.

Lemma accounts_bind {A B} (m : M server2 A) (k : A → M server2 B) :
  accounts m → (∀ a, accounts (k a)) → accounts (bind m k).
Proof.
  intros Hm Hk s. specialize (Hm s). unfold bind, state_of, trace_of in *.
  destruct (m s) as [[[a|e|] s1] t1]; simpl in *; [|done|done].
  specialize (Hk a s1). unfold state_of, trace_of in Hk.
  destruct (k a s1) as [[r s2] t2]; simpl in *.
  rewrite delivered_app, length_app. lia.
Qed.

Lemma accounts_try_except {A} (m : M server2 A) (h : exn → M server2 A) :
  accounts m → (∀ e, accounts (h e)) → accounts (try_except m h).
Proof.
  intros Hm Hh s. specialize (Hm s). unfold try_except, state_of, trace_of in *.
  destruct (m s) as [[[a|e|] s1] t1]; simpl in *; [done| |done].
  specialize (Hh e s1). unfold state_of, trace_of in Hh.
  destruct (h e s1) as [[r s2] t2]; simpl in *.
  rewrite delivered_app, length_app. lia.
Qed.

Lemma accounts_for_each {A} (xs : list A) (body : A → M server2 unit) :
  (∀ x, accounts (body x)) → accounts (for_each xs body).
Proof.
  intros Hb. induction xs as [|x xs IH]; simpl.
  - apply accounts_ret.
  - apply accounts_bind; [apply Hb | intros; apply IH].
Qed.

(** A send that is counted when it returns. *)
Lemma accounts_counted_send net c x :
  accounts (send net c x >> modify count_sent).
Proof.
  intros s. unfold send, await_send, outcome, bind, emit, raise, modify, state_of,
    trace_of.
  destruct (send_exn net c x); simpl; lia.
Qed.

Lemma accounts_of_run {A} (m : M server2 A) :
  (∀ s, ∃ r n t f, m s = (r, on_base f (sent_more n s), t) ∧
                   length (delivered t) = n) →
  accounts m.
Proof.
  intros Hm s. destruct (Hm s) as (r & n & t & f & -> & <-).
  unfold state_of, trace_of. cbn [fst snd on_base stats].
  destruct (sent_more_fields (length (delivered t)) s) as (_ & -> & ->). lia.
Qed.

Lemma accounts_broadcast_to_viewers (net : transport) message :
  quiet net → accounts (Muma2._broadcast_to_viewers net message).
Proof.
  intros Hquiet. apply accounts_of_run. intros s.
  destruct (broadcast_to_viewers_run net Hquiet message s) as (t & Hrun & _ & Hd & _).
  do 4 eexists. split; [exact Hrun|]. by rewrite Hd, length_map.
Qed.

Lemma accounts_broadcast_to_providers (net : transport) message :
  quiet net → accounts (Muma2._broadcast_to_providers net message).
Proof.
  intros Hquiet. apply accounts_of_run. intros s.
  destruct (broadcast_to_providers_run net Hquiet message s) as (t & Hrun & _ & Hd & _).
  do 4 eexists. split; [exact Hrun|]. by rewrite Hd, length_map.
Qed.

Ltac accounts_step :=
  match goal with
  | |- accounts (ret _) => apply accounts_ret
  | |- accounts (raise _) => apply accounts_raise
  | |- accounts (gets _) => apply accounts_gets
  | |- accounts (print _) => apply accounts_print
  | |- accounts (print_text _ _) => apply accounts_print_text
  | |- accounts (emit (CallUnregister _)) => apply accounts_call
  | |- accounts (emit (SendFailed _ _ _)) => apply accounts_failed
  | |- accounts (modify (on_base _)) => apply accounts_on_base
  | |- accounts (bind (send _ _ _) (λ _, modify count_sent)) =>
      apply accounts_counted_send
  | |- accounts (Muma2._broadcast_to_viewers _ _) =>
      apply accounts_broadcast_to_viewers; assumption
  | |- accounts (Muma2._broadcast_to_providers _ _) =>
      apply accounts_broadcast_to_providers; assumption
  | |- accounts (bind _ _) => apply accounts_bind; [|intros ?]
  | |- accounts (try_except _ _) => apply accounts_try_except; [|intros ?]
  | |- accounts (for_each _ _) => apply accounts_for_each; intros ?
  | |- accounts (if ?b then _ else _) => destruct b
  | |- accounts (match ?x with _ => _ end) => destruct x
  | |- accounts (let _ := _ in _) => cbv zeta
  end.

Lemma accounts_register_client net ws client_type :
  accounts (Muma2.register_client net ws client_type).
Proof. unfold Muma2.register_client. repeat accounts_step. Qed.

Lemma accounts_unregister_client ws : accounts (Muma2.unregister_client ws).
Proof. unfold Muma2.unregister_client. repeat accounts_step. Qed.

Lemma accounts_handle_screen_data net now data :
  quiet net → accounts (Muma2.handle_screen_data net now data).
Proof. intros Hquiet. unfold Muma2.handle_screen_data. repeat accounts_step. Qed.

Lemma accounts_handle_control_event net ws data :
  quiet net → accounts (Muma2.handle_control_event net ws data).
Proof.
  intros Hquiet.
  unfold Muma2.handle_control_event, Muma2.log_control_event. repeat accounts_step.
Qed.

Lemma try_modify_eq {St A} (f : St → St) (m : M St A) (h : exn → M St A) s :
  try_except (modify f >> m) h s = try_except m h (f s).
Proof.
  unfold try_except, bind, modify.
  by destruct (m (f s)) as [[[a|e|] s1] t1].
Qed.

(** Under every operation of [muma2.0.py] during which no other handler
    changes the registry, [messages_sent] grows by exactly the number of
    sends that arrived, be it a reply, a cached frame for a new viewer or a
    relayed message, and [messages_received] grows by one for a message
    that is a JSON object and not at all otherwise. *)
Theorem counters_follow_the_traffic net now o (s : server2) :
  quiet net →
  let r := Muma2.perform net now o s in
  messages_sent (stats (state_of r))
    = messages_sent (stats s) + length (delivered (trace_of r)) ∧
  messages_received (stats (state_of r))
    = messages_received (stats s) + counted_received o.
Proof.
  intros Hquiet.
  destruct o as [ws client_type|ws|ws message]; cbn [Muma2.perform counted_received].
  - destruct (accounts_register_client net ws client_type s) as [-> ->]. lia.
  - destruct (accounts_unregister_client ws s) as [-> ->]. lia.
  - unfold Muma2.handle_client_message.
    destruct message as [j|]; [destruct j|]; cbv zeta;
      try (unfold try_except, raise, print, emit, state_of, trace_of; simpl; lia).
    rewrite try_modify_eq.
    match goal with
    | |- context [try_except ?m ?h (count_received s)] =>
        assert (accounts (try_except m h)) as Hacc
    end.
    { repeat accounts_step;
        first [ apply accounts_register_client
              | by apply accounts_handle_screen_data
              | by apply accounts_handle_control_event ]. }
    destruct (Hacc (count_received s)) as [-> ->]. simpl. lia.
Qed.


Lemma counters_follow_the_traffic_witness :
  messages_sent (stats (state_of (Muma2.perform net_two_closed "1.0"
                                    (Dispatch 3 (Some (JObj frame_two))) three_viewers)))
  = messages_sent (stats three_viewers)
    + length (delivered (trace_of (Muma2.perform net_two_closed "1.0"
                                     (Dispatch 3 (Some (JObj frame_two)))
                                     three_viewers))).
Proof.
  refine (proj1 (counters_follow_the_traffic net_two_closed "1.0"
                   (Dispatch 3 (Some (JObj frame_two))) three_viewers _)).
  intros c x. reflexivity.
Defined.

(** ** Who is taken out of the sets *)

Lemma retained_refl calls s : retained calls s s.
Proof. by intros c _. Qed.

Lemma retained_trans l1 l2 s s1 s2 :
  retained l1 s s1 → retained l2 s1 s2 → retained (l1 ++ l2) s s2.
Proof.
  intros H1 H2 c Hc. apply not_elem_of_app in Hc as [Hc1 Hc2].
  destruct (H1 c Hc1) as (? & ? & ? & ?), (H2 c Hc2) as (? & ? & ? & ?).
  repeat split; auto.
Qed.

Lemma retained_unregistered_all cs s : retained cs s (unregistered_all cs s).
Proof.
  intros c Hc.
  destruct (unregistered_all_sets cs s) as (-> & -> & -> & -> & _).
  rewrite !elem_of_difference, elem_of_list_to_set. tauto.
Qed.

Lemma send_failed_of_attempted t c x :
  (c, x) ∈ attempted t → (c, x) ∉ delivered t → ∃ e, SendFailed c x e ∈ t.
Proof.
  unfold attempted, delivered.
  induction t as [|ev t IH]; simpl.
  - intros H. by apply elem_of_nil in H.
  - destruct ev as [c0 x0|c0 x0 e0| |]; simpl.
    + intros [Heq|Hin]%elem_of_cons [Hne Hnd]%not_elem_of_cons; [done|].
      destruct (IH Hin Hnd) as (e & He). exists e. by right.
    + intros [[= -> ->]|Hin]%elem_of_cons Hnd.
      * exists e0. left.
      * destruct (IH Hin Hnd) as (e & He). exists e. by right.
    + intros Hin Hnd. destruct (IH Hin Hnd) as (e & He). exists e. by right.
    + intros Hin Hnd. destruct (IH Hin Hnd) as (e & He). exists e. by right.
Qed.

(** The calls of a relay are for targets whose send failed. *)
Lemma relay_calls_blamed (fails : conn → bool) (X : gset conn) message t :
  attempted t = map (λ c, (c, message)) (elements X) →
  delivered t = map (λ c, (c, message)) (reached_of fails X) →
  unregister_calls t = elements (list_to_set (failed_of fails X) : gset conn) →
  ∀ c, c ∈ unregister_calls t → ∃ x e, SendFailed c x e ∈ t.
Proof.
  intros Ha Hd Hu c Hc. rewrite Hu in Hc.
  apply elem_of_elements, elem_of_list_to_set, list_elem_of_filter in Hc as [Hf Hin].
  exists message. apply send_failed_of_attempted.
  - rewrite Ha. apply list_elem_of_fmap. by exists c.
  - rewrite Hd. intros (c' & [= <-] & Hr)%list_elem_of_fmap.
    apply list_elem_of_filter in Hr as [Hr _]. congruence.
Qed.

Section Cause.
Context {St : Type} (view : St → server).

Lemma cause_still {A} (m : M St A) :
  (∀ s, state_of (m s) = s ∧ unregister_calls (trace_of (m s)) = []) →
  drops_for_cause view m.
Proof.
  intros Hm s. destruct (Hm s) as [-> ->]. split; [apply retained_refl|].
  intros c Hc. by apply elem_of_nil in Hc.
Qed.

Lemma cause_ret {A} (a : A) : drops_for_cause view (ret a).
Proof. by apply cause_still. Qed.

Lemma cause_raise {A} (e : exn) : drops_for_cause view (@raise St A e).
Proof. by apply cause_still. Qed.

Lemma cause_gets {A} (f : St → A) : drops_for_cause view (gets f).
Proof. by apply cause_still. Qed.

Lemma cause_print (l : line) : drops_for_cause view (print l).
Proof. by apply cause_still. Qed.

Lemma cause_print_text (l : line) (texts : list string) :
  drops_for_cause view (print_text l texts).
Proof.
  unfold print_text. destruct (existsb has_surrogate texts); by apply cause_still.
Qed.

Lemma cause_modify (f : St → St) :
  (∀ s, retained [] (view s) (view (f s))) → drops_for_cause view (modify f).
Proof.
  intros Hf s. split; [apply Hf|]. intros c Hc. by apply elem_of_nil in Hc.
Qed.

Lemma cause_bind {A B} (m : M St A) (k : A → M St B) :
  drops_for_cause view m → (∀ a, drops_for_cause view (k a)) →
  drops_for_cause view (bind m k).
Proof.
  intros Hm Hk s. specialize (Hm s). unfold bind, state_of, trace_of in *.
  destruct (m s) as [[[a|e|] s1] t1]; simpl in *; [|done|done].
  specialize (Hk a s1). unfold state_of, trace_of in Hk.
  destruct (k a s1) as [[r s2] t2]; simpl in *.
  destruct Hm as [Hm1 Hm2], Hk as [Hk1 Hk2]. rewrite unregister_calls_app. split.
  - by eapply retained_trans.
  - intros c [Hc|Hc]%elem_of_app.
    + destruct (Hm2 c Hc) as (x & e & Hin). exists x, e. apply elem_of_app. by left.
    + destruct (Hk2 c Hc) as (x & e & Hin). exists x, e. apply elem_of_app. by right.
Qed.

Lemma cause_try_except {A} (m : M St A) (h : exn → M St A) :
  drops_for_cause view m → (∀ e, drops_for_cause view (h e)) →
  drops_for_cause view (try_except m h).
Proof.
  intros Hm Hh s. specialize (Hm s). unfold try_except, state_of, trace_of in *.
  destruct (m s) as [[[a|e|] s1] t1]; simpl in *; [done| |done].
  specialize (Hh e s1). unfold state_of, trace_of in Hh.
  destruct (h e s1) as [[r s2] t2]; simpl in *.
  destruct Hm as [Hm1 Hm2], Hh as [Hh1 Hh2]. rewrite unregister_calls_app. split.
  - by eapply retained_trans.
  - intros c [Hc|Hc]%elem_of_app.
    + destruct (Hm2 c Hc) as (x & e' & Hin). exists x, e'. apply elem_of_app. by left.
    + destruct (Hh2 c Hc) as (x & e' & Hin). exists x, e'. apply elem_of_app. by right.
Qed.

Lemma cause_send net c x : drops_for_cause view (send net c x).
Proof.
  apply cause_still. intros s. unfold send, await_send, outcome.
  by destruct (send_exn net c x).
Qed.

End Cause.

Lemma cause_relay (net : transport) targets_of message report :
  quiet net → (∀ e, reported_failures [Printed (report e)] = [e]) →
  drops_for_cause id
    (let* disconnected := Muma.send_all net targets_of message report in
     for_each (elements disconnected) Muma.unregister_client).
Proof.
  intros Hquiet Hreport s.
  destruct (relay_run net Hquiet targets_of message report s Hreport)
    as (t & -> & Ha & Hd & Hu & _).
  unfold state_of, trace_of. cbn [fst snd id]. split.
  - rewrite Hu. apply retained_unregistered_all.
  - by apply (relay_calls_blamed (send_fails net message) (targets_of s) message).
Qed.

Lemma cause_broadcast_to_viewers (net : transport) message :
  quiet net → drops_for_cause base (Muma2._broadcast_to_viewers net message).
Proof.
  intros Hquiet s.
  destruct (broadcast_to_viewers_run net Hquiet message s)
    as (t & -> & Ha & Hd & Hu & _).
  unfold state_of, trace_of. cbn [fst snd on_base base]. split.
  - rewrite Hu. destruct (sent_more_fields
                            (length (reached_of (refused net message) (screen_viewers s))) s)
      as (-> & _).
    apply retained_unregistered_all.
  - by apply (relay_calls_blamed (refused net message) (screen_viewers s) message).
Qed.

Lemma cause_broadcast_to_providers (net : transport) message :
  quiet net → drops_for_cause base (Muma2._broadcast_to_providers net message).
Proof.
  intros Hquiet s.
  destruct (broadcast_to_providers_run net Hquiet message s)
    as (t & -> & Ha & Hd & Hu & _).
  unfold state_of, trace_of. cbn [fst snd on_base base]. split.
  - rewrite Hu. destruct (sent_more_fields
                            (length (reached_of (refused net message) (screen_providers s))) s)
      as (-> & _).
    apply retained_unregistered_all.
  - by apply (relay_calls_blamed (refused net message) (screen_providers s) message).
Qed.

(** An assignment of the handlers takes no connection out of a set. *)
Ltac cause_assignment :=
  intros ? ? _; cbn; unfold add; set_solver.

Ltac cause_step :=
  match goal with
  | |- drops_for_cause _ (ret _) => apply cause_ret
  | |- drops_for_cause _ (raise _) => apply cause_raise
  | |- drops_for_cause _ (gets _) => apply cause_gets
  | |- drops_for_cause _ (print _) => apply cause_print
  | |- drops_for_cause _ (print_text _ _) => apply cause_print_text
  | |- drops_for_cause _ (send _ _ _) => apply cause_send
  | |- drops_for_cause _ (modify _) => apply cause_modify; cause_assignment
  | |- drops_for_cause _ (bind (Muma.send_all _ _ _ _) _) =>
      apply cause_relay; [assumption|done]
  | |- drops_for_cause _ (Muma2._broadcast_to_viewers _ _) =>
      apply cause_broadcast_to_viewers; assumption
  | |- drops_for_cause _ (Muma2._broadcast_to_providers _ _) =>
      apply cause_broadcast_to_providers; assumption
  | |- drops_for_cause _ (bind _ _) => apply cause_bind; [|intros ?]
  | |- drops_for_cause _ (try_except _ _) => apply cause_try_except; [|intros ?]
  | |- drops_for_cause _ (if ?b then _ else _) => destruct b
  | |- drops_for_cause _ (match ?x with _ => _ end) => destruct x
  | |- drops_for_cause _ (let _ := _ in _) => cbv zeta
  end.

Lemma cause_register_client net ws client_type :
  drops_for_cause id (Muma.register_client net ws client_type).
Proof. unfold Muma.register_client. repeat cause_step. Qed.

Lemma cause_register_client2 net ws client_type :
  drops_for_cause base (Muma2.register_client net ws client_type).
Proof. unfold Muma2.register_client. repeat cause_step. Qed.

Lemma cause_handle_client_message net now ws message :
  quiet net → drops_for_cause id (Muma.handle_client_message net now ws message).
Proof.
  intros Hquiet.
  unfold Muma.handle_client_message, Muma.handle_screen_data, Muma.handle_control_event.
  repeat cause_step; apply cause_register_client.
Qed.

Lemma cause_handle_client_message2 net now ws message :
  quiet net → drops_for_cause base (Muma2.handle_client_message net now ws message).
Proof.
  intros Hquiet.
  unfold Muma2.handle_client_message, Muma2.handle_screen_data,
    Muma2.handle_control_event, Muma2.log_control_event.
  repeat cause_step; apply cause_register_client2.
Qed.

(** Under every operation during which no other handler changes the
    registry, in both files, a connection leaves a set only when
    [unregister_client] is called on it, and [unregister_client] is called
    on a connection only by the [Close] of that connection or after a send
    of this operation to it has failed. *)
Theorem dropped_only_for_cause net now o (s : server2) :
  quiet net →
  let r1 := Muma.perform net now o s in
  let r2 := Muma2.perform net now o s in
  retained (unregister_calls (trace_of r1)) s (state_of r1) ∧
  (∀ c, c ∈ unregister_calls (trace_of r1) →
        o = Unregister c ∨ ∃ x e, SendFailed c x e ∈ trace_of r1) ∧
  retained (unregister_calls (trace_of r2)) s (base (state_of r2)) ∧
  (∀ c, c ∈ unregister_calls (trace_of r2) →
        o = Unregister c ∨ ∃ x e, SendFailed c x e ∈ trace_of r2).
Proof.
  intros Hquiet.
  assert (∀ {St A} (view : St → server) (m : M St A) s0,
            drops_for_cause view m →
            retained (unregister_calls (trace_of (m s0))) (view s0)
              (view (state_of (m s0))) ∧
            ∀ c, c ∈ unregister_calls (trace_of (m s0)) →
                 o = Unregister c ∨ ∃ x e, SendFailed c x e ∈ trace_of (m s0))
    as Hcause.
  { intros St A view m s0 Hm. destruct (Hm s0) as [H1 H2]. split; [done|].
    intros c Hc. right. by apply H2. }
  destruct o as [ws client_type|ws|ws message]; cbn [Muma.perform Muma2.perform].
  - destruct (Hcause _ _ id _ (base s) (cause_register_client net ws client_type))
      as [H1 H2].
    destruct (Hcause _ _ base _ s (cause_register_client2 net ws client_type))
      as [H3 H4].
    done.
  - rewrite unregister_client_eq.
    destruct (unregister_client2_eq ws s) as (kind & n & ->).
    unfold state_of, trace_of. cbn [fst snd on_base base].
    split; [apply (retained_unregistered_all [ws])|].
    split; [intros c Hc; left; by apply list_elem_of_singleton in Hc as ->|].
    split; [apply (retained_unregistered_all [ws])|].
    intros c Hc. left. by apply list_elem_of_singleton in Hc as ->.
  - destruct (Hcause _ _ id _ (base s)
                (cause_handle_client_message net now ws message Hquiet))
      as [H1 H2].
    destruct (Hcause _ _ base _ s
                (cause_handle_client_message2 net now ws message Hquiet))
      as [H3 H4].
    done.
Qed.

Lemma dropped_only_for_cause_witness :
  Dispatch 3 (Some (JObj frame_two)) = Unregister 2 ∨
  ∃ x e, SendFailed 2 x e
         ∈ trace_of (Muma2.perform net_two_closed "1.0"
                       (Dispatch 3 (Some (JObj frame_two))) three_viewers).
Proof.
  refine (proj2 (proj2 (proj2 (dropped_only_for_cause net_two_closed "1.0"
                                 (Dispatch 3 (Some (JObj frame_two))) three_viewers
                                 _)))
            2 _).
  - intros c x. reflexivity.
  - apply (bool_decide_unpack _). by vm_compute.
Defined.

(** ** The cached frame for a new viewer *)


(** ** Every client is a viewer *)

Lemma unregistered_all_viewers ws s :
  inv_kept (λ s, screen_viewers s = clients s) s (unregistered ws s).
Proof.
  intros H. destruct (unregistered_fields ws s) as (-> & _ & -> & _). by rewrite H.
Qed.

Lemma registered_all_viewers ws client_type s :
  (py_eq client_type "provider" || py_eq client_type "controller" = true →
   ws ∈ screen_viewers s) →
  screen_viewers s = clients s →
  screen_viewers (registered ws client_type s) = clients (registered ws client_type s).
Proof.
  intros Hws H.
  destruct (registered_sets ws client_type s) as (-> & _ & _ & ->).
  unfold add. rewrite <- H.
  destruct (py_eq client_type "provider"); [set_solver|].
  destruct (py_eq client_type "controller"); set_solver.
Qed.

Lemma interfere_all_viewers net :
  joins_as_viewer net →
  ∀ c x s, inv_kept (λ s, screen_viewers s = clients s) s
             (interfere (meanwhile net c x) s).
Proof.
  intros Hnet c x s. specialize (Hnet c x).
  destruct (meanwhile net c x) as [[ws client_type|ws]|]; simpl.
  - intros H. apply registered_all_viewers; [|done].
    rewrite (Hnet ws client_type eq_refl). discriminate.
  - apply unregistered_all_viewers.
  - by intros H.
Qed.

Lemma frame_submission_run net now o (s : server2) :
  quiet net → frame_submission o = true →
  ∃ ws data,
    o = Dispatch ws (Some (JObj data)) ∧
    attempted (trace_of (Muma.perform net now o s))
      = map (λ c, (c, screenshot_record data now)) (elements (screen_viewers s)) ∧
    attempted (trace_of (Muma2.perform net now o s))
      = map (λ c, (c, screenshot_record data now)) (elements (screen_viewers s)).
Proof.
  intros Hquiet.
  destruct o as [ws client_type|ws|ws [[| | | | | |data]|]]; try done.
  cbn [frame_submission Muma.perform Muma2.perform].
  intros [_ Hty]%andb_true_iff. exists ws, data. split; [done|].
  assert (dict_get data "type" JNull = JStr "screen_data") as Hty'.
  { destruct (dict_get data "type" JNull); try done.
    by apply String.eqb_eq in Hty as ->. }
  rewrite dispatch_screen_data, dispatch2_screen_data by done.
  destruct (handle_screen_data_run net Hquiet now data s) as (t1 & Hr1 & Ha1 & _).
  destruct (handle_screen_data2_run net Hquiet now data (count_received s))
    as (t2 & Hr2 & Ha2 & _).
  rewrite Hr1, Hr2. unfold trace_of. cbn [snd]. by rewrite Ha1, Ha2.
Qed.

(** While [screen_viewers] and [clients] are the same set, an operation
    leaves them the same, provided a registration as provider or controller
    comes from a connection that is still a viewer, as every accepted
    connection is: [handle_client] registers it as viewer and a later
    registration removes it from no set; this also holds while other
    handlers unregister connections, or register them as viewers, during a
    relay.  While no other handler changes the registry, a submitted frame
    is then sent to every connection the server knows, the provider that
    submitted it and the controllers included. *)
Theorem every_client_is_a_viewer net now o (s : server2) :
  screen_viewers s = clients s →
  let r1 := Muma.perform net now o s in
  let r2 := Muma2.perform net now o s in
  (registers_while_viewer s o → joins_as_viewer net →
   screen_viewers (state_of r1) = clients (state_of r1) ∧
   screen_viewers (state_of r2) = clients (state_of r2)) ∧
  (frame_submission o = true → quiet net →
   map fst (attempted (trace_of r1)) = elements (clients s) ∧
   map fst (attempted (trace_of r2)) = elements (clients s)).
Proof.
  intros Hall r1 r2. subst r1 r2. split.
  - unfold registers_while_viewer.
    destruct (registration o) as [[ws client_type]|] eqn:Hreg.
    + intros Hws _.
      change (clients (state_of (Muma2.perform net now o s)))
        with (clients (base (state_of (Muma2.perform net now o s)))).
      change (screen_viewers (state_of (Muma2.perform net now o s)))
        with (screen_viewers (base (state_of (Muma2.perform net now o s)))).
      rewrite (perform_registration _ _ _ _ _ _ Hreg),
        (perform2_registration _ _ _ _ _ _ Hreg).
      split; by apply registered_all_viewers.
    + intros _ Hnet. split.
      * by apply (perform_other_keeps (inv_kept (λ s, screen_viewers s = clients s))
                    net);
          [apply unregistered_all_viewers | apply interfere_all_viewers
          | intros d s0 H; exact H | intros i s0 H; exact H | |].
      * by apply (perform2_other_keeps (inv_kept (λ s, screen_viewers s = clients s))
                    net);
          [apply unregistered_all_viewers | apply interfere_all_viewers
          | intros d s0 H; exact H | intros i s0 H; exact H | |].
  - intros Hfs Hquiet.
    destruct (frame_submission_run net now o s Hquiet Hfs)
      as (ws & data & _ & -> & ->).
    rewrite <- Hall, map_map. cbn [fst]. by rewrite map_id.
Qed.

Lemma every_client_is_a_viewer_witness :
  screen_viewers (state_of (Muma.perform net_up "0.0"
                              (Dispatch 1 (register_message "provider"))
                              (Muma2.run [Step net_up "0.0" (Accept 1)] (Muma2.init "0.0"))))
  = clients (state_of (Muma.perform net_up "0.0"
                         (Dispatch 1 (register_message "provider"))
                         (Muma2.run [Step net_up "0.0" (Accept 1)] (Muma2.init "0.0")))).
Proof.
  refine (proj1 (proj1 (every_client_is_a_viewer net_up "0.0"
                          (Dispatch 1 (register_message "provider"))
                          (Muma2.run [Step net_up "0.0" (Accept 1)] (Muma2.init "0.0"))
                          _) _ _)).
  - by vm_compute.
  - intros _. apply (bool_decide_unpack _). by vm_compute.
  - intros c x ws client_type H. discriminate H.
Defined.

(** * The page and the server *)

Lemma join_ok_strings (keys : list string) : join_ok (JArr (map JStr keys)) = true.
Proof. simpl. induction keys as [|k keys IH]; [done|]. exact IH. Qed.

Lemma guard_false (client_type : string) (connected : bool) :
  String.eqb client_type "provider" || negb connected = false →
  client_type ≠ "provider" ∧ connected = true.
Proof.
  intros [Hp Hc]%orb_false_iff. split; [by apply String.eqb_neq|].
  by destruct connected.
Qed.

(** Runs the handler in [H], a membership in what it sent, through its
    guards, and leaves the cases in which the message was sent. *)
Ltac page_run H :=
  unfold Page.act, Page.onopen, Page.handleClick, Page.handleWheel, Page.sendText,
    Page.sendKey, Page.sendHotkey, Page.takeScreenshot, Page.heartbeat,
    Page.sendMessage,
    Page2.act, Page2.onopen, Page2.handleClick, Page2.handleWheel, Page2.sendText,
    Page2.sendKey, Page2.sendHotkey, Page2.takeScreenshot, Page2.heartbeat,
    Page2.sendMessage in H;
  cbv zeta in H; cbn [socket_open clientType set_reconnectAttempts] in H;
  repeat match type of H with
         | context [if ?b then _ else _] => destruct b eqn:?
         end;
  cbn [fst snd] in H;
  try (by apply elem_of_nil in H);
  apply list_elem_of_singleton in H.

Ltac page_guard :=
  match goal with
  | H : String.eqb _ "provider" = false |- _ => by apply String.eqb_neq in H
  | H : _ || _ = false |- _ => by apply guard_false in H as [? ?]
  end.

(** Whatever handler of the page runs, in both files, a message goes out
    only on an open socket, and it is an object whose [type] the server has
    a branch for; it is never a frame.  A page that registered as provider
    sends no mouse or keyboard event, and the page of [muma2.0.py] sends
    none before it has its [register_ack]. *)
Theorem page_speaks_the_protocol a p m :
  m ∈ (Page.act a p).2 ∨ m ∈ (Page2.act a p).2 →
  socket_open p = true ∧
  ∃ data, m = JObj data ∧
          recognized (dict_get data "type" JNull) = true ∧
          py_eq (dict_get data "type" JNull) "screen_data" = false ∧
          (is_control data = true → clientType p ≠ "provider") ∧
          (m ∈ (Page2.act a p).2 → is_control data = true → isConnected p = true).
Proof.
  intros Hm.
  assert (socket_open p = true ∧
          ∃ data, m = JObj data ∧
                  recognized (dict_get data "type" JNull) = true ∧
                  py_eq (dict_get data "type" JNull) "screen_data" = false ∧
                  (is_control data = true → clientType p ≠ "provider"))
    as (Hopen & data & -> & Hrec & Hframe & Hprov).
  { destruct Hm as [H|H]; destruct a; page_run H; subst m;
      (split; [done|]); eexists; (split; [reflexivity|]);
      (split; [reflexivity|]); (split; [reflexivity|]);
      first [ by intros ? | intros _; page_guard ]. }
  split; [done|]. exists data. repeat split; try done.
  intros H Hc. destruct a; page_run H; injection H as ->;
    try (vm_compute in Hc; discriminate Hc); page_guard.
Qed.

Lemma page_speaks_the_protocol_witness :
  socket_open viewer_page = true ∧
  ∃ data, keyboard_key "enter" = JObj data ∧
          recognized (dict_get data "type" JNull) = true ∧
          py_eq (dict_get data "type" JNull) "screen_data" = false ∧
          (is_control data = true → clientType viewer_page ≠ "provider") ∧
          (keyboard_key "enter" ∈ (Page2.act (Key "enter") viewer_page).2 →
           is_control data = true → isConnected viewer_page = true).
Proof.
  apply (page_speaks_the_protocol (Key "enter") viewer_page (keyboard_key "enter")).
  left. apply list_elem_of_singleton. reflexivity.
Defined.

Lemma join_parts_strings (keys : list string) :
  join_parts (JArr (map JStr keys)) = keys.
Proof. simpl. induction keys as [|k keys IH]; [done|]. simpl. by rewrite IH. Qed.

Lemma page_message_is_logged a p data :
  plain a = true →
  JObj data ∈ (Page.act a p).2 ∨ JObj data ∈ (Page2.act a p).2 →
  log_raises data = false.
Proof.
  intros Hplain [H|H]; destruct a; page_run H; injection H as ->;
    try reflexivity;
    unfold log_raises, log_error, Muma2.log_control_event, print_text;
    cbn [dict_get dict_lookup String.eqb Ascii.eqb Bool.eqb py_eq];
    rewrite ?join_ok_strings, ?join_parts_strings;
    cbn [plain shown app existsb has_surrogate] in *.
  all: try (apply negb_true_iff in Hplain; rewrite ?orb_false_r in *).
  all: try (rewrite Hplain; reflexivity).
Qed.

(** A mouse or keyboard event that a handler of the page sends, with no
    surrogate in the text, key, keys or coordinates it takes from the user,
    is tried on every provider, in the order the set is visited, by
    [muma.py] and by [muma2.0.py], whoever sends it and whatever its role,
    while no other handler changes the registry: the keys of a hotkey of
    the page are strings, so that the line [muma2.0.py] prints for the event
    can be built and written. *)
Theorem page_control_events_are_forwarded a p data net now ws (s : server2) :
  plain a = true → quiet net →
  JObj data ∈ (Page.act a p).2 ∨ JObj data ∈ (Page2.act a p).2 →
  is_control data = true →
  attempted (trace_of (Muma.handle_client_message net now ws (Some (JObj data)) s))
    = map (λ c, (c, JObj data)) (elements (screen_providers s)) ∧
  attempted (trace_of (Muma2.handle_client_message net now ws (Some (JObj data)) s))
    = map (λ c, (c, JObj data)) (elements (screen_providers s)).
Proof.
  intros Hplain Hquiet Hm Hc.
  pose proof (page_message_is_logged a p data Hplain Hm) as Hlog.
  assert (dict_get data "type" JNull = JStr "mouse"
          ∨ dict_get data "type" JNull = JStr "keyboard") as Hty.
  { unfold is_control in Hc.
    apply orb_true_iff in Hc as [Hc|Hc]; apply py_eq_true in Hc; auto. }
  rewrite dispatch_control_event, dispatch2_control_event by done.
  destruct (handle_control_event_run net Hquiet ws data s) as (t1 & Hrun1 & Ha1 & _).
  rewrite Hrun1. unfold trace_of at 1. cbn [snd]. rewrite Ha1.
  split; [done|].
  destruct (handle_control_event2_run net Hquiet ws data (count_received s) Hlog)
    as (t2 & Hrun2 & Ha2 & _).
  rewrite Hrun2. unfold trace_of. cbn [snd]. by rewrite Ha2.
Qed.

Lemma page_control_events_are_forwarded_witness :
  attempted (trace_of (Muma2.handle_client_message net_up "1.0" 3
                         (Some (keyboard_hotkey ["ctrl"; "c"]%string)) one_of_each))
  = map (λ c, (c, keyboard_hotkey ["ctrl"; "c"]%string))
      (elements (screen_providers one_of_each)).
Proof.
  refine (proj2 (page_control_events_are_forwarded (Hotkey ["ctrl"; "c"]%string)
                   viewer_page _ net_up "1.0" 3 one_of_each _ _ _ _)).
  - reflexivity.
  - intros c x. reflexivity.
  - right. apply list_elem_of_singleton. reflexivity.
  - reflexivity.
Defined.

(** A typed text that holds a surrogate is forwarded by [muma.py] and
    dropped by [muma2.0.py], whose line for it cannot be written. *)
Example text_with_surrogate_is_dropped :
  plain (Text (String (Ascii.ascii_of_nat 237)
                 (String (Ascii.ascii_of_nat 160)
                    (String (Ascii.ascii_of_nat 128) EmptyString)))) = false ∧
  attempted (trace_of (Muma.handle_client_message net_up "1.0" 3
                         (Some (JObj text_with_surrogate)) one_of_each))
    = [(2, JObj text_with_surrogate)] ∧
  trace_of (Muma2.handle_client_message net_up "1.0" 3
              (Some (JObj text_with_surrogate)) one_of_each)
    = [Printed (ControlEventError UnicodeEncodeError)].
Proof. repeat split; by vm_compute. Qed.
